(** * OpenImageIO color management: ColorConfig, processor cache, pixel kernel

    A shallow embedding of [src/libOpenImageIO/color_ocio.cpp].

    - The OpenColorIO engine is an external service.  Its documents
      ([OcioConfig]) and static entry points ([Externals]) are records of
      functions; an engine call may return, throw [OCIO::Exception] or throw
      something else ([OcioResult]).
    - [ColorConfig::Impl] is a record; its methods are written in a small
      state-and-failure monad over [World].  Failure ([None]) stands for the
      operation not completing: a null [shared_ptr] dereferenced or an
      exception that no handler of the function catches.
    - The mutex is not modelled: every theorem is about one thread.
    - Pixel data is modelled over an abstract scalar type with the operations
      of C++ [float]; IEEE binary32 is one instance of it. *)

From Stdlib Require Import ZArith Ascii String List Bool Lia.
From Stdlib Require Import Floats.SpecFloat.
From stdpp Require Import base option countable gmap strings list sorting.

Local Open Scope Z_scope.
Local Open Scope string_scope.

(** ** Strutil *)

(** Modelled from the spec: [Strutil::iequals] and [Strutil::istarts_with]
    (strutil.cpp is not among the sources) are the spec's case-insensitive
    exact match and its prefix form, here over the ASCII letters. *)
Definition ascii_tolower (c : ascii) : ascii :=
  let n := nat_of_ascii c in
  if (Nat.leb 65 n && Nat.leb n 90)%bool then ascii_of_nat (n + 32) else c.

Fixpoint to_lower (s : string) : string :=
  match s with
  | EmptyString => EmptyString
  | String c r => String (ascii_tolower c) (to_lower r)
  end.

Definition iequals (a b : string) : bool := String.eqb (to_lower a) (to_lower b).

Definition istarts_with (a b : string) : bool :=
  String.prefix (to_lower b) (to_lower a).

(** Modelled from the spec: [Strutil::starts_with], the prefix test with the
    letter case kept. *)
Definition starts_with (a b : string) : bool := String.prefix b a.

(** [string_view::empty()] *)
Definition empty (s : string) : bool :=
  match s with EmptyString => true | _ => false end.

(** ** The external engine *)

(** Outcome of a call into OpenColorIO. *)
Inductive OcioResult (A : Type) : Type :=
| Returned (a : A)
| Threw (what : string)        (* OCIO::Exception, e.what() *)
| ThrewOther.                  (* any other exception type *)
Arguments Returned {A} a.
Arguments Threw {A} what.
Arguments ThrewOther {A}.

(** An execution context: the string variables set on top of the config's
    current context ([[]] is the ambient context itself). *)
Definition OcioContext := list (string * string).

Record OcioColorSpace := {
  cs_getName : string;
  cs_isData : bool;
  cs_getAliases : list string;
  cs_getInteropID : string
}.

(** A compiled engine processor ([OCIO::ConstProcessorRcPtr], non-null). *)
Record OcioProcessor := {
  p_uid : nat;
  p_isNoOp : bool;
  p_hasChannelCrosstalk : bool
}.

Inductive OcioTransform :=
| FileTransform (src : string)                (* interpolation INTERP_BEST *)
| NamedTransformRef (name : string).          (* config->getNamedTransform(name) *)

(** A configuration document ([OCIO::ConstConfigRcPtr], non-null). *)
Record OcioConfig := {
  cfg_getName : option string;
  cfg_getNumColorSpaces : nat;
  cfg_getColorSpaceNameByIndex : nat -> option string;
  cfg_getColorSpace : string -> option OcioColorSpace;
  cfg_getProcessor : OcioContext -> string -> string -> OcioResult OcioProcessor;
  cfg_getProcessorT : OcioContext -> OcioTransform -> bool -> OcioResult OcioProcessor
}.

(** Static entry points of the engine, helpers of OpenImageIO that are not
    part of this file, the build's settings and the process-wide toggles
    read once from the environment.  A static entry point that the file
    calls outside every [try] block can throw as well as one called inside. *)
Record Externals := {
  OCIO_VERSION_HEX : Z;                      (* version of the linked engine *)
  OIIO_SITE_spi : bool;                      (* built with OIIO_SITE_spi defined *)
  disable_ocio : bool;                       (* OIIO_DISABLE_OCIO != 0 *)
  disable_builtin_configs : bool;            (* OIIO_DISABLE_BUILTIN_OCIO_CONFIGS != 0 *)
  CreateFromFile : string -> OcioResult OcioConfig;
  CreateFromStream : string -> OcioResult OcioConfig;
  GetCurrentConfig : OcioResult OcioConfig;
  build_interop_identities_config : OcioResult OcioConfig;
  IdentifyBuiltinColorSpace_ocio :            (* the reference config may be null *)
    OcioConfig -> option OcioConfig -> string -> OcioResult (option string);
  GetProcessorFromConfigs :
    OcioContext -> OcioConfig -> string ->
    OcioContext -> OcioConfig -> string -> OcioResult OcioProcessor;
  getenv_OCIO : string;                      (* Sysutil::getenv("OCIO") *)
  Filesystem_exists : string -> bool;
  splits : string -> list string;            (* Strutil::splits(s, ",") *)
  fmt_format : string -> option string;      (* Strutil::fmt::format(s), s being
                                                the format: None if it throws *)
  ustring_hash : string -> Z                 (* ustring::hash() *)
}.

(** ** ColorProcCacheKey *)

Definition wrap64 (z : Z) : Z := z mod 2 ^ 64.

Record ColorProcCacheKey := mkColorProcCacheKey {
  inputColorSpace : string;
  outputColorSpace : string;
  context_key : string;
  context_value : string;
  looks : string;
  display : string;
  view : string;
  file : string;
  namedtransform : string;
  inverse : bool;
  hash : Z
}.

(** The constructor.  Its member-initialiser list has no entry for [display]
    and [view]: both members stay default-constructed (empty), while the
    hash is computed from the constructor's parameters of those names. *)
Definition ColorProcCacheKey_ctor (ext : Externals)
    (in_ out key val looks_ display_ view_ file_ namedtransform_ : string)
    (inverse_ : bool) : ColorProcCacheKey :=
  let h := ustring_hash ext in
  {| inputColorSpace := in_;
     outputColorSpace := out;
     context_key := key;
     context_value := val;
     looks := looks_;
     display := "";
     view := "";
     file := file_;
     namedtransform := namedtransform_;
     inverse := inverse_;
     hash := wrap64 (h in_ + 14033 * h out + 823 * h key + 28411 * h val
                     + 1741 * (h looks_ + h display_ + h view_ + h file_
                               + h namedtransform_)
                     + (if inverse_ then 6421 else 0)) |}.

(** [operator==]: equality of the two [std::tie] tuples. *)
Definition ColorProcCacheKey_eqb (a b : ColorProcCacheKey) : bool :=
  Z.eqb (hash a) (hash b)
  && String.eqb (inputColorSpace a) (inputColorSpace b)
  && String.eqb (outputColorSpace a) (outputColorSpace b)
  && String.eqb (context_key a) (context_key b)
  && String.eqb (context_value a) (context_value b)
  && String.eqb (looks a) (looks b)
  && String.eqb (display a) (display b)
  && String.eqb (view a) (view b)
  && String.eqb (file a) (file b)
  && String.eqb (namedtransform a) (namedtransform b)
  && Bool.eqb (inverse a) (inverse b).

#[global] Instance ColorProcCacheKey_eq_dec : EqDecision ColorProcCacheKey.
Proof. solve_decision. Defined.

Definition ColorProcCacheKey_to_tuple (k : ColorProcCacheKey) :=
  (inputColorSpace k, outputColorSpace k, context_key k, context_value k,
   looks k, display k, view k, file k, namedtransform k, inverse k, hash k).

Definition ColorProcCacheKey_of_tuple
    (t : string * string * string * string * string * string * string
         * string * string * bool * Z) : ColorProcCacheKey :=
  let '(a, b, c, d, e, f, g, h, i, j, k) := t in
  mkColorProcCacheKey a b c d e f g h i j k.

#[global] Instance ColorProcCacheKey_countable : Countable ColorProcCacheKey.
Proof.
  apply (inj_countable' ColorProcCacheKey_to_tuple ColorProcCacheKey_of_tuple).
  intros []; reflexivity.
Defined.

(** ** CSInfo *)

(** [CSInfo::Flags] *)
Definition is_linear_response : Z := 1.
Definition is_scene_linear : Z := 2.
Definition is_srgb : Z := 4.
Definition is_lin_srgb : Z := 8.
Definition is_ACEScg : Z := 16.
Definition is_Rec709 : Z := 32.
Definition is_known : Z :=
  Z.lor (Z.lor (Z.lor is_srgb is_lin_srgb) is_ACEScg) is_Rec709.

Record CSInfo := mkCSInfo {
  name : string;
  index : Z;
  m_flags : Z;
  examined : bool;
  canonical : string
}.

(** [CSInfo(name, index, flags = none, canonical = "")] *)
Definition CSInfo_ctor (name_ : string) (index_ flags_ : Z) : CSInfo :=
  mkCSInfo name_ index_ flags_ false "".

Definition flags (cs : CSInfo) : Z := m_flags cs.

(** [setflag(flagval, alias)]: or the bits in; an alias not yet set becomes
    this entry's name.  Returns the entry and the alias. *)
Definition setflag (cs : CSInfo) (flagval : Z) (alias : string) : CSInfo * string :=
  (mkCSInfo (name cs) (index cs) (Z.lor (m_flags cs) flagval) (examined cs)
            (canonical cs),
   if empty alias then name cs else alias).

(** ** ColorProcessor handles *)

(** A [ColorProcessor_OCIO] object on the heap; [cp_addr] is its identity. *)
Record ColorProcessor := {
  cp_addr : nat;
  cp_p : OcioProcessor
}.

(** [ColorProcessorHandle] is a [shared_ptr]: [None] is the empty handle. *)
Abbreviation ColorProcessorHandle := (option ColorProcessor).

Definition isNoOp (cp : ColorProcessor) : bool := p_isNoOp (cp_p cp).

(** ** ColorConfig::Impl *)

Record Impl := mkImpl {
  config_ : option OcioConfig;
  builtinconfig_ : option OcioConfig;
  interopconfig_ : option OcioConfig;
  colorspaces : list CSInfo;
  scene_linear_alias : string;
  lin_srgb_alias : string;
  srgb_alias : string;
  ACEScg_alias : string;
  Rec709_alias : string;
  m_error : string;
  colorprocmap : gmap ColorProcCacheKey ColorProcessorHandle;
  colorprocs_requested : Z;
  colorprocs_created : Z;
  m_configname : string;
  m_configfilename : string;
  m_config_is_built_in : bool
}.

(** [Impl(ColorConfig* self)]: the two [atomic_int] counters have no
    initialiser, so they start with whatever their memory held, here
    [requested] and [created]; every other member is empty, null or false. *)
Definition Impl_ctor (requested created : Z) : Impl :=
  mkImpl None None None [] "" "" "" "" "" "" ∅ requested created "" "" false.

Definition set_config_ (c : option OcioConfig) (i : Impl) : Impl :=
  mkImpl c (builtinconfig_ i) (interopconfig_ i) (colorspaces i)
    (scene_linear_alias i) (lin_srgb_alias i) (srgb_alias i) (ACEScg_alias i)
    (Rec709_alias i) (m_error i) (colorprocmap i) (colorprocs_requested i)
    (colorprocs_created i) (m_configname i) (m_configfilename i)
    (m_config_is_built_in i).

Definition set_builtinconfig_ (c : option OcioConfig) (i : Impl) : Impl :=
  mkImpl (config_ i) c (interopconfig_ i) (colorspaces i)
    (scene_linear_alias i) (lin_srgb_alias i) (srgb_alias i) (ACEScg_alias i)
    (Rec709_alias i) (m_error i) (colorprocmap i) (colorprocs_requested i)
    (colorprocs_created i) (m_configname i) (m_configfilename i)
    (m_config_is_built_in i).

Definition set_interopconfig_ (c : option OcioConfig) (i : Impl) : Impl :=
  mkImpl (config_ i) (builtinconfig_ i) c (colorspaces i)
    (scene_linear_alias i) (lin_srgb_alias i) (srgb_alias i) (ACEScg_alias i)
    (Rec709_alias i) (m_error i) (colorprocmap i) (colorprocs_requested i)
    (colorprocs_created i) (m_configname i) (m_configfilename i)
    (m_config_is_built_in i).

Definition set_colorspaces (l : list CSInfo) (i : Impl) : Impl :=
  mkImpl (config_ i) (builtinconfig_ i) (interopconfig_ i) l
    (scene_linear_alias i) (lin_srgb_alias i) (srgb_alias i) (ACEScg_alias i)
    (Rec709_alias i) (m_error i) (colorprocmap i) (colorprocs_requested i)
    (colorprocs_created i) (m_configname i) (m_configfilename i)
    (m_config_is_built_in i).

Definition set_scene_linear_alias (s : string) (i : Impl) : Impl :=
  mkImpl (config_ i) (builtinconfig_ i) (interopconfig_ i) (colorspaces i)
    s (lin_srgb_alias i) (srgb_alias i) (ACEScg_alias i)
    (Rec709_alias i) (m_error i) (colorprocmap i) (colorprocs_requested i)
    (colorprocs_created i) (m_configname i) (m_configfilename i)
    (m_config_is_built_in i).

Definition set_lin_srgb_alias (s : string) (i : Impl) : Impl :=
  mkImpl (config_ i) (builtinconfig_ i) (interopconfig_ i) (colorspaces i)
    (scene_linear_alias i) s (srgb_alias i) (ACEScg_alias i)
    (Rec709_alias i) (m_error i) (colorprocmap i) (colorprocs_requested i)
    (colorprocs_created i) (m_configname i) (m_configfilename i)
    (m_config_is_built_in i).

Definition set_srgb_alias (s : string) (i : Impl) : Impl :=
  mkImpl (config_ i) (builtinconfig_ i) (interopconfig_ i) (colorspaces i)
    (scene_linear_alias i) (lin_srgb_alias i) s (ACEScg_alias i)
    (Rec709_alias i) (m_error i) (colorprocmap i) (colorprocs_requested i)
    (colorprocs_created i) (m_configname i) (m_configfilename i)
    (m_config_is_built_in i).

Definition set_ACEScg_alias (s : string) (i : Impl) : Impl :=
  mkImpl (config_ i) (builtinconfig_ i) (interopconfig_ i) (colorspaces i)
    (scene_linear_alias i) (lin_srgb_alias i) (srgb_alias i) s
    (Rec709_alias i) (m_error i) (colorprocmap i) (colorprocs_requested i)
    (colorprocs_created i) (m_configname i) (m_configfilename i)
    (m_config_is_built_in i).

Definition set_Rec709_alias (s : string) (i : Impl) : Impl :=
  mkImpl (config_ i) (builtinconfig_ i) (interopconfig_ i) (colorspaces i)
    (scene_linear_alias i) (lin_srgb_alias i) (srgb_alias i) (ACEScg_alias i)
    s (m_error i) (colorprocmap i) (colorprocs_requested i)
    (colorprocs_created i) (m_configname i) (m_configfilename i)
    (m_config_is_built_in i).

Definition set_m_error (s : string) (i : Impl) : Impl :=
  mkImpl (config_ i) (builtinconfig_ i) (interopconfig_ i) (colorspaces i)
    (scene_linear_alias i) (lin_srgb_alias i) (srgb_alias i) (ACEScg_alias i)
    (Rec709_alias i) s (colorprocmap i) (colorprocs_requested i)
    (colorprocs_created i) (m_configname i) (m_configfilename i)
    (m_config_is_built_in i).

Definition set_colorprocmap (m : gmap ColorProcCacheKey ColorProcessorHandle)
    (i : Impl) : Impl :=
  mkImpl (config_ i) (builtinconfig_ i) (interopconfig_ i) (colorspaces i)
    (scene_linear_alias i) (lin_srgb_alias i) (srgb_alias i) (ACEScg_alias i)
    (Rec709_alias i) (m_error i) m (colorprocs_requested i)
    (colorprocs_created i) (m_configname i) (m_configfilename i)
    (m_config_is_built_in i).

Definition set_colorprocs_requested (n : Z) (i : Impl) : Impl :=
  mkImpl (config_ i) (builtinconfig_ i) (interopconfig_ i) (colorspaces i)
    (scene_linear_alias i) (lin_srgb_alias i) (srgb_alias i) (ACEScg_alias i)
    (Rec709_alias i) (m_error i) (colorprocmap i) n
    (colorprocs_created i) (m_configname i) (m_configfilename i)
    (m_config_is_built_in i).

Definition set_colorprocs_created (n : Z) (i : Impl) : Impl :=
  mkImpl (config_ i) (builtinconfig_ i) (interopconfig_ i) (colorspaces i)
    (scene_linear_alias i) (lin_srgb_alias i) (srgb_alias i) (ACEScg_alias i)
    (Rec709_alias i) (m_error i) (colorprocmap i) (colorprocs_requested i)
    n (m_configname i) (m_configfilename i)
    (m_config_is_built_in i).

(** [configname(name)] and [configfilename(filename)] *)
Definition set_configname (s : string) (i : Impl) : Impl :=
  mkImpl (config_ i) (builtinconfig_ i) (interopconfig_ i) (colorspaces i)
    (scene_linear_alias i) (lin_srgb_alias i) (srgb_alias i) (ACEScg_alias i)
    (Rec709_alias i) (m_error i) (colorprocmap i) (colorprocs_requested i)
    (colorprocs_created i) s (m_configfilename i)
    (m_config_is_built_in i).

Definition set_configfilename (s : string) (i : Impl) : Impl :=
  mkImpl (config_ i) (builtinconfig_ i) (interopconfig_ i) (colorspaces i)
    (scene_linear_alias i) (lin_srgb_alias i) (srgb_alias i) (ACEScg_alias i)
    (Rec709_alias i) (m_error i) (colorprocmap i) (colorprocs_requested i)
    (colorprocs_created i) (m_configname i) s
    (m_config_is_built_in i).

Definition set_config_is_built_in (b : bool) (i : Impl) : Impl :=
  mkImpl (config_ i) (builtinconfig_ i) (interopconfig_ i) (colorspaces i)
    (scene_linear_alias i) (lin_srgb_alias i) (srgb_alias i) (ACEScg_alias i)
    (Rec709_alias i) (m_error i) (colorprocmap i) (colorprocs_requested i)
    (colorprocs_created i) (m_configname i) (m_configfilename i) b.

(** ** The world and the monad *)

(** Besides the [Impl], the world holds the next free heap address (each
    [new ColorProcessor_OCIO] takes one) and a count of the processor
    compilations requested from the engine. *)
Record World := mkWorld {
  impl : Impl;
  heap_next : nat;
  engine_compilations : nat
}.

Definition M (A : Type) : Type := World -> option (A * World).

Definition ret {A} (a : A) : M A := fun w => Some (a, w).

Definition bind {A B} (m : M A) (k : A -> M B) : M B :=
  fun w => match m w with
           | Some (a, w') => k a w'
           | None => None
           end.

(** A null dereference or an exception nobody catches. *)
Definition crash {A} : M A := fun _ => None.

Definition get_impl : M Impl := fun w => Some (impl w, w).

Definition modify_impl (f : Impl -> Impl) : M unit :=
  fun w => Some (tt, mkWorld (f (impl w)) (heap_next w) (engine_compilations w)).

(** [ptr->...]: fails on a null pointer. *)
Definition deref {A} (p : option A) : M A :=
  match p with Some a => ret a | None => crash end.

Declare Scope cc_scope.
Delimit Scope cc_scope with cc.
Notation "x <- c1 ;; c2" := (bind c1 (fun x => c2))
  (at level 100, c1 at next level, right associativity) : cc_scope.
Notation "c1 ;;; c2" := (bind c1 (fun _ => c2))
  (at level 100, right associativity) : cc_scope.
Local Open Scope cc_scope.

(** [new ColorProcessor_OCIO(p)] *)
Definition new_ColorProcessor_OCIO (p : OcioProcessor) : M ColorProcessor :=
  fun w => Some ({| cp_addr := heap_next w; cp_p := p |},
                 mkWorld (impl w) (S (heap_next w)) (engine_compilations w)).

(** One request to the engine to compile a processor. *)
Definition engine_compile (r : OcioResult OcioProcessor) : M (OcioResult OcioProcessor) :=
  fun w => Some (r, mkWorld (impl w) (heap_next w) (S (engine_compilations w))).

(** *** Error slot *)

Definition error (msg : string) : M unit := modify_impl (set_m_error msg).

Definition geterror (clear : bool) : M string :=
  i <- get_impl ;;
  if clear then (modify_impl (set_m_error "") ;;; ret (m_error i))
  else ret (m_error i).

Definition haserror (i : Impl) : bool := negb (empty (m_error i)).

Definition clear_error : M unit := modify_impl (set_m_error "").

(** *** Registry *)

(** [add(name, index, flags = 0)] *)
Definition add (name_ : string) (index_ flags_ : Z) : M unit :=
  modify_impl (fun i => set_colorspaces
                          (colorspaces i ++ [CSInfo_ctor name_ index_ flags_]) i).

(** [find(name)]: first entry whose name is exactly [name]. *)
Fixpoint find_in (l : list CSInfo) (n : string) : option CSInfo :=
  match l with
  | [] => None
  | cs :: r => if String.eqb (name cs) n then Some cs else find_in r n
  end.

Definition find (i : Impl) (n : string) : option CSInfo := find_in (colorspaces i) n.

Definition getNumColorSpaces (i : Impl) : Z := Z.of_nat (length (colorspaces i)).

(** *** Processor cache *)

(** [findproc(key)] *)
Definition findproc (key : ColorProcCacheKey) : M ColorProcessorHandle :=
  modify_impl (fun i => set_colorprocs_requested (colorprocs_requested i + 1) i) ;;;
  i <- get_impl ;;
  ret (match colorprocmap i !! key with
       | None => None                            (* found == end(): empty handle *)
       | Some found => found
       end).

(** [addproc(key, handle)] *)
Definition addproc (key : ColorProcCacheKey) (handle : ColorProcessorHandle)
    : M ColorProcessorHandle :=
  match handle with
  | None => ret handle                          (* if (!handle) return handle; *)
  | Some _ =>
      i <- get_impl ;;
      match colorprocmap i !! key with
      | None =>
          modify_impl (fun i => set_colorprocs_created (colorprocs_created i + 1)
                                  (set_colorprocmap (<[key := handle]> (colorprocmap i)) i)) ;;;
          ret handle
      | Some found => ret found
      end
  end.

(** The world after [++colorprocs_requested]. *)
Definition bump_requested (w : World) : World :=
  mkWorld (set_colorprocs_requested (colorprocs_requested (impl w) + 1) (impl w))
    (heap_next w) (engine_compilations w).

(** ** Transform factory *)

Section Factory.
Variable ext : Externals.

(** The context-variable lists: installed into a copy of the current
    context only when both are non-empty and of equal length. *)
Definition make_context (context_key_ context_value_ : string) : OcioContext :=
  let keys := splits ext context_key_ in
  let values := splits ext context_value_ in
  if (negb (Nat.eqb (length keys) 0) && negb (Nat.eqb (length values) 0)
      && Nat.eqb (length keys) (length values))%bool
  then combine keys values
  else [].

(** [get_builtin_interop_ids()]; a null name pointer contributes no id. *)
Definition get_builtin_interop_ids (i : Impl) : list string :=
  let ids :=
    match interopconfig_ i with
    | Some ic =>
        omap (cfg_getColorSpaceNameByIndex ic) (seq 0 (cfg_getNumColorSpaces ic))
    | None => @nil string
    end in
  let ids := if existsb (String.eqb "data") ids then ids else (ids ++ ["data"])%list in
  if existsb (String.eqb "unknown") ids then ids else (ids ++ ["unknown"])%list.

Definition is_Some_b {A} (o : option A) : bool :=
  match o with Some _ => true | None => false end.


(** [static OCIO::ConstConfigRcPtr ocio_current_config;] is never assigned
    in the file. *)
Definition ocio_current_config : option OcioConfig := None.

(** The part of the file and named transform builders after the engine
    call: [clear_error(); handle = new ColorProcessor_OCIO(p)] or one of the
    two handlers.  The first handler is [getImpl()->error(e.what())]: the
    message is the format string. *)
Definition wrap_result (res : OcioResult OcioProcessor) : M ColorProcessorHandle :=
  match res with
  | Returned p => clear_error ;;; cp <- new_ColorProcessor_OCIO p ;; ret (Some cp)
  | Threw what =>
      msg <- deref (fmt_format ext what) ;;
      error msg ;;; ret None
  | ThrewOther =>
      error "An unknown error occurred in OpenColorIO, getProcessor" ;;; ret None
  end.

(** The key built by [createFileTransform(name, inverse)]. *)
Definition createFileTransform_key (name_ : string) (inverse_ : bool) : ColorProcCacheKey :=
  ColorProcCacheKey_ctor ext "" (* inputColorSpace *) "" (* outputColorSpace *)
    "" (* context_key *) "" (* context_value *) "" (* looks *)
    "" (* display *) "" (* view *) "" (* file *) name_ inverse_.

(** [ColorConfig::createFileTransform(ustring, bool)] *)
Definition createFileTransform (name_ : string) (inverse_ : bool)
    : M ColorProcessorHandle :=
  let prockey := createFileTransform_key name_ inverse_ in
  handle <- findproc prockey ;;
  match handle with
  | Some _ => ret handle
  | None =>
      i <- get_impl ;;
      let config := match config_ i with
                    | Some c => Some c
                    | None => ocio_current_config
                    end in
      handle <- match config with
                | Some config =>
                    res <- engine_compile
                             (cfg_getProcessorT config [] (FileTransform name_) inverse_) ;;
                    wrap_result res
                | None => ret None
                end ;;
      addproc prockey handle
  end.

(** The key built by [createNamedTransform(name, inverse, key, value)]. *)
Definition createNamedTransform_key (name_ : string) (inverse_ : bool)
    (context_key_ context_value_ : string) : ColorProcCacheKey :=
  ColorProcCacheKey_ctor ext "" (* inputColorSpace *) "" (* outputColorSpace *)
    context_key_ context_value_ "" (* looks *) "" (* display *) "" (* view *)
    "" (* file *) name_ inverse_.

(** [ColorConfig::createNamedTransform(ustring, bool, ustring, ustring)] *)
Definition createNamedTransform (name_ : string) (inverse_ : bool)
    (context_key_ context_value_ : string) : M ColorProcessorHandle :=
  let prockey := createNamedTransform_key name_ inverse_ context_key_ context_value_ in
  handle <- findproc prockey ;;
  match handle with
  | Some _ => ret handle
  | None =>
      i <- get_impl ;;
      handle <- match config_ i, disable_ocio ext with
                | Some config, false =>
                    let context := make_context context_key_ context_value_ in
                    res <- engine_compile
                             (cfg_getProcessorT config context
                                (NamedTransformRef name_) inverse_) ;;
                    wrap_result res
                | _, _ => ret None
                end ;;
      addproc prockey handle
  end.

End Factory.

(** ** Registry, classifier and name resolver *)

Section Config.
Variable ext : Externals.

(** [cs.setflag(flagval, alias)] for one of the [Impl]'s alias members. *)
Definition setflag_alias (cs : CSInfo) (flagval : Z)
    (get_alias : Impl -> string) (set_alias : string -> Impl -> Impl) : M CSInfo :=
  i <- get_impl ;;
  let '(cs', alias') := setflag cs flagval (get_alias i) in
  modify_impl (set_alias alias') ;;;
  ret cs'.

Definition has_flag (cs : CSInfo) (flag : Z) : bool :=
  negb (Z.eqb (Z.land (flags cs) flag) 0).

(** "Set up some canonical names" *)
Definition canonical_of_flags (cs : CSInfo) : string :=
  if has_flag cs is_srgb then "srgb_rec709_scene"
  else if has_flag cs is_lin_srgb then "lin_rec709_scene"
  else if has_flag cs is_ACEScg then "lin_ap1_scene"
  else if has_flag cs is_Rec709 then "Rec709"
  else canonical cs.

(** [classify_by_name(cs)]; the last three tests are those of the block
    under [#ifdef OIIO_SITE_spi]. *)
Definition classify_by_name (cs : CSInfo) : M CSInfo :=
  let n := name cs in
  cs <- (if (iequals n "srgb_rec709_scene" || iequals n "srgb_tx"
             || iequals n "srgb_texture" || iequals n "srgb texture"
             || iequals n "srgb_rec709_scene" || iequals n "sRGB - Texture"
             || iequals n "sRGB")%bool
         then setflag_alias cs is_srgb srgb_alias set_srgb_alias
         else if (iequals n "lin_rec709_scene" || iequals n "lin_rec709"
                  || iequals n "Linear Rec.709 (sRGB)" || iequals n "lin_srgb"
                  || iequals n "linear")%bool
         then setflag_alias cs (Z.lor is_lin_srgb is_linear_response)
                lin_srgb_alias set_lin_srgb_alias
         else if (iequals n "ACEScg" || iequals n "lin_ap1_scene"
                  || iequals n "lin_ap1")%bool
         then setflag_alias cs (Z.lor is_ACEScg is_linear_response)
                ACEScg_alias set_ACEScg_alias
         else if iequals n "Rec709"
         then setflag_alias cs is_Rec709 Rec709_alias set_Rec709_alias
         else if (OIIO_SITE_spi ext && starts_with n "cgln")%bool
         then setflag_alias cs (Z.lor is_ACEScg is_linear_response)
                ACEScg_alias set_ACEScg_alias
         else if (OIIO_SITE_spi ext
                  && (String.eqb n "srgbf" || String.eqb n "srgbh"
                      || String.eqb n "srgb16" || String.eqb n "srgb8"))%bool
         then setflag_alias cs is_srgb srgb_alias set_srgb_alias
         else if (OIIO_SITE_spi ext
                  && (String.eqb n "srgblnf" || String.eqb n "srgblnh"
                      || String.eqb n "srgbln16" || String.eqb n "srgbln8"))%bool
         then setflag_alias cs is_lin_srgb lin_srgb_alias set_lin_srgb_alias
         else ret cs) ;;
  let canon := canonical_of_flags cs in
  ret (mkCSInfo (name cs) (index cs) (m_flags cs)
         (if negb (empty canon) then true else examined cs) canon).

(** [for (auto&& cs : colorspaces) classify_by_name(cs);] *)
Fixpoint classify_each (l : list CSInfo) : M (list CSInfo) :=
  match l with
  | [] => ret []
  | cs :: r =>
      cs' <- classify_by_name cs ;;
      r' <- classify_each r ;;
      ret (cs' :: r')
  end.

Definition classify_colorspaces : M unit :=
  i <- get_impl ;;
  l <- classify_each (colorspaces i) ;;
  modify_impl (set_colorspaces l).

(** First loop of [inventory()]: is any color space not "data"? *)
Fixpoint inventory_nonraw (config : OcioConfig) (idx : list nat) (nonraw : bool)
    : M bool :=
  match idx with
  | [] => ret nonraw
  | i :: r =>
      cs <- deref (match cfg_getColorSpaceNameByIndex config i with
                   | Some csname => cfg_getColorSpace config csname
                   | None => None
                   end) ;;
      inventory_nonraw config r (nonraw || negb (cs_isData cs))
  end.

(** Second loop: [add(config_->getColorSpaceNameByIndex(i), i)] *)
Fixpoint inventory_add (config : OcioConfig) (idx : list nat) : M unit :=
  match idx with
  | [] => ret tt
  | i :: r =>
      n <- deref (cfg_getColorSpaceNameByIndex config i) ;;
      add n (Z.of_nat i) 0 ;;;
      inventory_add config r
  end.

Definition linflags : Z :=
  Z.lor (Z.lor is_linear_response is_scene_linear) is_lin_srgb.

(** The rest of [inventory()] after the early [return]: drop the
    configuration and register the names known without one. *)
Definition inventory_fallback : M unit :=
  modify_impl (set_config_ None) ;;;
  add "linear" 0 linflags ;;;
  add "scene_linear" 0 linflags ;;;
  add "default" 0 linflags ;;;
  add "rgb" 0 linflags ;;;
  add "RGB" 0 linflags ;;;
  add "lin_rec709_scene" 0 linflags ;;;
  add "lin_srgb" 0 linflags ;;;
  add "lin_rec709" 0 linflags ;;;
  add "srgb_rec709_scene" 1 is_srgb ;;;
  add "sRGB" 1 is_srgb ;;;
  add "Rec709" 2 is_Rec709 ;;;
  classify_colorspaces.

(** [ColorConfig::Impl::inventory()]; [done] is true when the function
    returned from inside the first block. *)
Definition inventory : M unit :=
  i <- get_impl ;;
  done <- match config_ i, disable_ocio ext with
          | Some config, false =>
              let idx := seq 0 (cfg_getNumColorSpaces config) in
              nonraw <- inventory_nonraw config idx false ;;
              if nonraw then
                inventory_add config idx ;;;
                classify_colorspaces ;;;
                match cfg_getColorSpace config "scene_linear" with
                | Some lin => modify_impl (set_scene_linear_alias (cs_getName lin))
                | None => ret tt
                end ;;;
                ret true
              else ret false
          | _, _ => ret false
          end ;;
  if done then ret tt else inventory_fallback.

(** [Impl::IdentifyBuiltinColorSpace(name)]: both handlers are [catch (...)]. *)
Definition IdentifyBuiltinColorSpace (i : Impl) (name_ : string) : option string :=
  match config_ i with
  | None => None
  | Some config =>
      if disable_builtin_configs ext then None
      else match IdentifyBuiltinColorSpace_ocio ext config (interopconfig_ i) name_ with
           | Returned r => r
           | _ =>
               match IdentifyBuiltinColorSpace_ocio ext config (builtinconfig_ i) name_ with
               | Returned r => r
               | _ => None
               end
           end
  end.

(** Write through the pointer returned by [find(n)]. *)
Fixpoint replace_found (n : string) (cs' : CSInfo) (l : list CSInfo) : list CSInfo :=
  match l with
  | [] => []
  | cs :: r => if String.eqb (name cs) n then cs' :: r
               else cs :: replace_found n cs' r
  end.

(** [if (auto n = IdentifyBuiltinColorSpace(builtin))
       if (CSInfo* cs = find(n)) cs->setflag(flagval, alias);] *)
Definition identify_one (builtin : string) (flagval : Z)
    (get_alias : Impl -> string) (set_alias : string -> Impl -> Impl) : M unit :=
  i <- get_impl ;;
  match IdentifyBuiltinColorSpace i builtin with
  | Some n =>
      match find i n with
      | Some cs =>
          cs' <- setflag_alias cs flagval get_alias set_alias ;;
          modify_impl (fun i => set_colorspaces (replace_found n cs' (colorspaces i)) i)
      | None => ret tt
      end
  | None => ret tt
  end.

(** [ColorConfig::Impl::identify_builtin_equivalents()] *)
Definition identify_builtin_equivalents : M unit :=
  if disable_builtin_configs ext then ret tt
  else
    identify_one "srgb_tx" is_srgb srgb_alias set_srgb_alias ;;;
    identify_one "lin_srgb" (Z.lor is_lin_srgb is_linear_response)
      lin_srgb_alias set_lin_srgb_alias ;;;
    identify_one "ACEScg" (Z.lor is_ACEScg is_linear_response)
      ACEScg_alias set_ACEScg_alias.

Definition dquote : string := String (ascii_of_nat 34) EmptyString.

Fixpoint contains_newline (s : string) : bool :=
  match s with
  | EmptyString => false
  | String c r => (Nat.eqb (nat_of_ascii c) 10 || contains_newline r)%bool
  end.

(** A [try] block of [init] with its single handler
    [catch (OCIO::Exception& e)]. *)
Definition try_load (r : OcioResult OcioConfig) (on_ok : OcioConfig -> M unit)
    (prefix : string) : M unit :=
  match r with
  | Returned c => on_ok c
  | Threw what => error (prefix ++ what)
  | ThrewOther => crash
  end.

(** [ColorConfig::Impl::init(filename)] *)
Definition init (filename : string) : M bool :=
  try_load (CreateFromFile ext "ocio://default")
    (fun c => modify_impl (set_builtinconfig_ (Some c)))
    "Error making OCIO built-in config: " ;;;
  try_load (build_interop_identities_config ext)
    (fun c => modify_impl (set_interopconfig_ (Some c)))
    "Error making OCIO interop identities config: " ;;;
  let filename := if (empty filename || iequals filename "$OCIO")%bool
                  then getenv_OCIO ext else filename in
  let filename := if empty filename then "ocio://default" else filename in
  (if contains_newline filename
   then try_load (CreateFromStream ext filename)
          (fun c => modify_impl (fun i => set_configfilename ""
                                   (set_configname filename (set_config_ (Some c) i))))
          "Error reading OCIO config from stream: "
   else ret tt) ;;;
  (if (negb (empty filename) && negb (Filesystem_exists ext filename)
       && negb (istarts_with filename "ocio://"))%bool
   then error ("Requested non-existent OCIO config " ++ dquote ++ filename ++ dquote)
   else try_load (CreateFromFile ext filename)
          (fun c => modify_impl (fun i =>
             set_config_is_built_in (istarts_with filename "ocio://")
               (set_configfilename filename
                  (set_configname filename (set_config_ (Some c) i)))))
          ("Error reading OCIO config " ++ dquote ++ filename ++ dquote ++ ": ")) ;;;
  i <- get_impl ;;
  match config_ i with
  | Some _ => ret tt
  | None =>
      match GetCurrentConfig ext with
      | Returned current_config =>
          (if Nat.eqb (cfg_getNumColorSpaces current_config) 1
           then match CreateFromFile ext "ocio://default" with
                | Returned c =>
                    modify_impl (fun i =>
                      set_configfilename "ocio://default"
                        (set_configname "ocio://default" (set_config_ (Some c) i)))
                | _ => crash                  (* outside every try block *)
                end
           else modify_impl (set_config_ (Some current_config))) ;;;
          modify_impl (fun i =>
            set_configfilename "current"
              (set_configname (default "current" (cfg_getName current_config)) i))
      | _ => crash                            (* outside every try block *)
      end
  end ;;;
  i <- get_impl ;;
  let ok := is_Some_b (config_ i) in
  inventory ;;;
  identify_builtin_equivalents ;;;
  ret ok.

(** [ColorConfig::ColorConfig(filename)]: [reset(filename)] with [m_impl]
    null, that is a fresh [Impl], then [init]. *)
Definition fresh_world (requested created : Z) : World :=
  mkWorld (Impl_ctor requested created) 0 0.

Definition ColorConfig_ctor (filename : string) (requested created : Z)
    : option (bool * World) :=
  init filename (fresh_world requested created).

(** [ColorConfig::Impl::resolve(name)].  [config_] and [interopconfig_] are
    dereferenced unconditionally; only [OCIO::Exception] is caught. *)
Definition resolve (i : Impl) (name_ : string) : option string :=
  config ← config_ i;
  match cfg_getColorSpace config name_ with
  | Some cs => Some (cs_getName cs)
  | None =>
      interopconfig ← interopconfig_ i;
      found ← match cfg_getColorSpace interopconfig name_ with
              | Some builtin_cs =>
                  match IdentifyBuiltinColorSpace_ocio ext config (Some interopconfig)
                          (cs_getName builtin_cs) with
                  | Returned (Some equivalent_cs) =>
                      Some (if negb (empty equivalent_cs) then Some equivalent_cs else None)
                  | Returned None => Some None
                  | Threw _ => Some None                       (* ignore *)
                  | ThrewOther => None
                  end
              | None => Some None
              end;
      match found with
      | Some equivalent_cs => Some equivalent_cs
      | None =>
          if ((iequals name_ "sRGB" || iequals name_ "srgb_rec709_scene")
              && negb (empty (srgb_alias i)))%bool
          then Some (srgb_alias i)
          else if ((iequals name_ "lin_srgb" || iequals name_ "lin_rec709"
                    || iequals name_ "lin_rec709_scene" || iequals name_ "linear")
                   && negb (empty (lin_srgb_alias i)))%bool
          then Some (lin_srgb_alias i)
          else if ((iequals name_ "ACEScg" || iequals name_ "lin_ap1_scene")
                   && negb (empty (ACEScg_alias i)))%bool
          then Some (ACEScg_alias i)
          else if (iequals name_ "scene_linear"
                   && negb (empty (scene_linear_alias i)))%bool
          then Some (scene_linear_alias i)
          else if (iequals name_ "Rec709" && negb (empty (Rec709_alias i)))%bool
          then Some (Rec709_alias i)
          else Some name_
      end
  end.

Definition known_mask : Z :=
  Z.lor (Z.lor (Z.lor is_srgb is_lin_srgb) is_ACEScg) is_Rec709.

(** [ColorConfig::equivalent(color_space1, color_space2)] *)
Definition equivalent (i : Impl) (color_space1 color_space2 : string) : option bool :=
  if (empty color_space1 || empty color_space2)%bool then Some false
  else if iequals color_space1 color_space2 then Some true
  else
    color_space1 ← resolve i color_space1;
    color_space2 ← resolve i color_space2;
    if (empty color_space1 || empty color_space2)%bool then Some false
    else if iequals color_space1 color_space2 then Some true
    else
      let mask := known_mask in
      match find i color_space1, find i color_space2 with
      | Some csi1, Some csi2 =>
          let flags1 := Z.land (flags csi1) mask in
          let flags2 := Z.land (flags csi2) mask in
          if (negb (Z.eqb (Z.lor flags1 flags2) 0)
              && Z.eqb (flags csi1) (flags csi2))%bool
          then Some true
          else if ((negb (empty (canonical csi1)) && negb (empty (canonical csi2)))
                   && iequals (canonical csi1) (canonical csi2))%bool
          then Some true
          else Some false
      | _, _ => Some false
      end.

End Config.

(** ** Color interop ids *)

Inductive CICPPrimaries :=
| Primaries_Rec709 | Primaries_Unspecified | Primaries_Rec2020
| Primaries_XYZD65 | Primaries_P3D65.

Inductive CICPTransfer :=
| Transfer_BT709 | Transfer_Unspecified | Transfer_Gamma22 | Transfer_Linear
| Transfer_sRGB | Transfer_PQ | Transfer_Gamma26 | Transfer_HLG.

Inductive CICPMatrix :=
| Matrix_RGB | Matrix_BT709 | Matrix_Unspecified | Matrix_Rec2020_NCL
| Matrix_Rec2020_CL.

Inductive CICPRange := Range_Narrow | Range_Full.

Definition int_of_primaries (p : CICPPrimaries) : Z :=
  match p with
  | Primaries_Rec709 => 1 | Primaries_Unspecified => 2 | Primaries_Rec2020 => 9
  | Primaries_XYZD65 => 10 | Primaries_P3D65 => 12
  end.

Definition int_of_transfer (t : CICPTransfer) : Z :=
  match t with
  | Transfer_BT709 => 1 | Transfer_Unspecified => 2 | Transfer_Gamma22 => 4
  | Transfer_Linear => 8 | Transfer_sRGB => 13 | Transfer_PQ => 16
  | Transfer_Gamma26 => 17 | Transfer_HLG => 18
  end.

Definition int_of_matrix (m : CICPMatrix) : Z :=
  match m with
  | Matrix_RGB => 0 | Matrix_BT709 => 1 | Matrix_Unspecified => 2
  | Matrix_Rec2020_NCL => 9 | Matrix_Rec2020_CL => 10
  end.

Definition int_of_range (r : CICPRange) : Z :=
  match r with Range_Narrow => 0 | Range_Full => 1 end.

Record ColorInteropID := {
  interop_id : string;
  cicp : list Z;
  has_cicp : bool
}.

(** The two constructors of [ColorInteropID]. *)
Definition ID (id : string) : ColorInteropID :=
  {| interop_id := id; cicp := [0; 0; 0; 0]; has_cicp := false |}.

Definition IDC (id : string) (primaries : CICPPrimaries) (transfer : CICPTransfer)
    (matrix : CICPMatrix) : ColorInteropID :=
  {| interop_id := id;
     cicp := [int_of_primaries primaries; int_of_transfer transfer;
              int_of_matrix matrix; int_of_range Range_Full];
     has_cicp := true |}.

Definition color_interop_ids : list ColorInteropID :=
  [ IDC "srgb_rec709_display" Primaries_Rec709 Transfer_sRGB Matrix_BT709;
    IDC "g24_rec709_display" Primaries_Rec709 Transfer_BT709 Matrix_BT709;
    IDC "srgb_p3d65_display" Primaries_P3D65 Transfer_sRGB Matrix_BT709;
    IDC "srgbe_p3d65_display" Primaries_P3D65 Transfer_sRGB Matrix_BT709;
    IDC "pq_p3d65_display" Primaries_P3D65 Transfer_PQ Matrix_Rec2020_NCL;
    IDC "pq_rec2020_display" Primaries_Rec2020 Transfer_PQ Matrix_Rec2020_NCL;
    IDC "hlg_rec2020_display" Primaries_Rec2020 Transfer_HLG Matrix_Rec2020_NCL;
    IDC "g22_rec709_display" Primaries_Rec709 Transfer_Gamma22 Matrix_BT709;
    ID "g22_adobergb_display";
    IDC "g26_p3d65_display" Primaries_P3D65 Transfer_Gamma26 Matrix_BT709;
    IDC "g26_xyzd65_display" Primaries_XYZD65 Transfer_Gamma26 Matrix_Unspecified;
    IDC "pq_xyzd65_display" Primaries_XYZD65 Transfer_PQ Matrix_Unspecified;
    ID "lin_ap1_scene";
    ID "lin_ap0_scene";
    IDC "lin_rec709_scene" Primaries_Rec709 Transfer_Linear Matrix_BT709;
    IDC "lin_p3d65_scene" Primaries_P3D65 Transfer_Linear Matrix_BT709;
    IDC "lin_rec2020_scene" Primaries_Rec2020 Transfer_Linear Matrix_Rec2020_CL;
    ID "lin_adobergb_scene";
    IDC "lin_ciexyzd65_scene" Primaries_XYZD65 Transfer_Linear Matrix_Unspecified;
    IDC "srgb_rec709_scene" Primaries_Rec709 Transfer_sRGB Matrix_BT709;
    IDC "g22_rec709_scene" Primaries_Rec709 Transfer_Gamma22 Matrix_BT709;
    ID "g18_rec709_scene";
    ID "srgb_ap1_scene";
    ID "g22_ap1_scene";
    IDC "srgb_p3d65_scene" Primaries_P3D65 Transfer_sRGB Matrix_BT709;
    ID "g22_adobergb_scene";
    ID "data";
    IDC "unknown" Primaries_Unspecified Transfer_Unspecified Matrix_Unspecified ].

Section Interop.
Variable ext : Externals.

(** [MAKE_OCIO_VERSION_HEX(maj, min, patch)] *)
Definition MAKE_OCIO_VERSION_HEX (maj min patch : Z) : Z :=
  Z.lor (Z.lor (Z.shiftl maj 24) (Z.shiftl min 16)) patch.

(** [for (... : ids) if (equivalent(colorspace, id)) return id;] *)
Fixpoint first_equivalent (i : Impl) (colorspace : string) (ids : list string)
    : option (option string) :=
  match ids with
  | [] => Some None
  | id :: r =>
      b ← equivalent ext i colorspace id;
      if b : bool then Some (Some id) else first_equivalent i colorspace r
  end.

(** The alias loop of [get_color_interop_id]. *)
Fixpoint first_interop_alias (interopconfig : OcioConfig) (aliases : list string)
    : option string :=
  match aliases with
  | [] => None
  | alias :: r =>
      match cfg_getColorSpace interopconfig alias with
      | Some interop_cs => Some (cs_getName interop_cs)
      | None => first_interop_alias interopconfig r
      end
  end.

(** [ColorConfig::get_color_interop_id(colorspace, strict)].  Under the
    version gate the engine's own interop id is returned when it is set. *)
Definition get_color_interop_id (i : Impl) (colorspace : string) (strict : bool)
    : option string :=
  if empty colorspace then Some colorspace
  else
    config ← config_ i;
    match cfg_getColorSpace config colorspace with
    | None =>
        interopconfig ← interopconfig_ i;
        match cfg_getColorSpace interopconfig colorspace with
        | Some interop_cs => Some (cs_getName interop_cs)
        | None => Some ""
        end
    | Some cs =>
        if cs_isData cs then Some "data"
        else
          let interop_id_ :=
            if Z.leb (MAKE_OCIO_VERSION_HEX 2 5 0) (OCIO_VERSION_HEX ext)
            then cs_getInteropID cs else "" in
          if negb (empty interop_id_) then Some interop_id_
          else
            found ← first_equivalent i colorspace (map interop_id color_interop_ids);
            match found with
            | Some id => Some id
            | None =>
                if (strict || negb (empty interop_id_))%bool then Some interop_id_
                else
                  interopconfig ← interopconfig_ i;
                  match cfg_getColorSpace interopconfig (cs_getName cs) with
                  | Some interop_cs => Some (cs_getName interop_cs)
                  | None =>
                      match first_interop_alias interopconfig (cs_getAliases cs) with
                      | Some n => Some n
                      | None =>
                          found ← first_equivalent i (cs_getName cs)
                                    (get_builtin_interop_ids i);
                          Some (default "" found)
                      end
                  end
            end
    end.

(** [ColorConfig::get_color_interop_id(const int cicp[4])] *)
Definition get_color_interop_id_cicp (c : list Z) : string :=
  match List.find (fun interop =>
                (has_cicp interop
                 && Z.eqb (nth 0 (cicp interop) 0) (nth 0 c 0)
                 && Z.eqb (nth 1 (cicp interop) 0) (nth 1 c 0))%bool)
             color_interop_ids with
  | Some interop => interop_id interop
  | None => ""
  end.

(** The table scan of [get_cicp]. *)
Definition cicp_of_interop_id (id : string) : list Z :=
  match List.find (fun interop =>
                (has_cicp interop && String.eqb id (interop_id interop))%bool)
             color_interop_ids with
  | Some interop => cicp interop
  | None => []
  end.

(** [ColorConfig::get_cicp(colorspace)]; the empty list is the empty span.
    [strict_default] is the default argument of [get_color_interop_id]. *)
Definition get_cicp (strict_default : bool) (i : Impl) (colorspace : string)
    : option (list Z) :=
  id ← get_color_interop_id i colorspace strict_default;
  if negb (empty id) then Some (cicp_of_interop_id id) else Some [].

End Interop.

(** ** Pixel kernel *)

(** The operations of C++ [float] that the kernel uses. *)
Class FloatOps (F : Type) := {
  f_zero : F;                       (* 0.0f *)
  f_one : F;                        (* 1.0f *)
  f_half : F;                       (* 0.5  *)
  f_ten : F;                        (* 10   *)
  fltmin : F;                       (* std::numeric_limits<float>::min() *)
  f_ge : F -> F -> bool;            (* a >= b *)
  f_eq : F -> F -> bool;            (* a == b *)
  f_add : F -> F -> F;
  f_mul : F -> F -> F;
  f_div : F -> F -> F
}.

(** IEEE-754 binary32: 24 bits of precision, exponent of the infinities 128.
    [fltmin] is 2^-126, the smallest positive normal number. *)
Definition binary32 : Type := spec_float.

Definition b32_of_Z (z : Z) : binary32 := binary_normalize 24 128 z 0 false.

Definition b32_ge (a b : binary32) : bool :=
  match SFcompare a b with
  | Some (Gt | Eq) => true
  | _ => false
  end.

#[global] Instance binary32_ops : FloatOps binary32 := {
  f_zero := S754_zero false;
  f_one := b32_of_Z 1;
  f_half := binary_normalize 24 128 1 (-1) false;
  f_ten := b32_of_Z 10;
  fltmin := binary_normalize 24 128 1 (-126) false;
  f_ge := b32_ge;
  f_eq := SFeqb;
  f_add := SFadd 24 128;
  f_mul := SFmul 24 128;
  f_div := SFdiv 24 128
}.

(** [TypeDesc] base types of pixel data. *)
Inductive TypeDesc := UNKNOWN | UINT8 | UINT16 | UINT32 | HALF | FLOAT | DOUBLE.

#[global] Instance TypeDesc_eq_dec : EqDecision TypeDesc.
Proof. solve_decision. Defined.

Record ROI := {
  xbegin : Z; xend : Z;
  ybegin : Z; yend : Z;
  zbegin : Z; zend : Z;
  chbegin : Z; chend : Z
}.

Definition ROI_width (r : ROI) : Z := xend r - xbegin r.
Definition ROI_nchannels (r : ROI) : Z := chend r - chbegin r.

(** [for (v = b; v < e; ++v)] *)
Definition range (b e : Z) : list Z :=
  map (fun n => b + Z.of_nat n) (seq 0 (Z.to_nat (e - b))).

Section Kernel.
Context {F : Type} {ops : FloatOps F}.

(** [simd::vfloat4] *)
Record vfloat4 := V4 { v_x : F; v_y : F; v_z : F; v_w : F }.

(** [v[c]] and [extract<c>(v)] *)
Definition extract (c : Z) (v : vfloat4) : F :=
  if Z.eqb c 0 then v_x v
  else if Z.eqb c 1 then v_y v
  else if Z.eqb c 2 then v_z v
  else v_w v.

(** [v[c] = x] *)
Definition insert_c (c : Z) (x : F) (v : vfloat4) : vfloat4 :=
  if Z.eqb c 0 then V4 x (v_y v) (v_z v) (v_w v)
  else if Z.eqb c 1 then V4 (v_x v) x (v_z v) (v_w v)
  else if Z.eqb c 2 then V4 (v_x v) (v_y v) x (v_w v)
  else V4 (v_x v) (v_y v) (v_z v) x.

Definition vdiv (a b : vfloat4) : vfloat4 :=
  V4 (f_div (v_x a) (v_x b)) (f_div (v_y a) (v_y b))
     (f_div (v_z a) (v_z b)) (f_div (v_w a) (v_w b)).

Definition vmul (a b : vfloat4) : vfloat4 :=
  V4 (f_mul (v_x a) (v_x b)) (f_mul (v_y a) (v_y b))
     (f_mul (v_z a) (v_z b)) (f_mul (v_w a) (v_w b)).

(** The kernel sees a [ColorProcessor] through its virtual methods;
    [apply_v] transforms a packed scanline of RGBA pixels in place. *)
Record Processor := {
  isNoOp_v : bool;
  hasChannelCrosstalk_v : bool;
  apply_v : list vfloat4 -> list vfloat4
}.

(** An [ImageBuf]: pixel values by coordinates and channel, and the parts of
    its spec that [colorconvert] reads. *)
Record ImageBuf := mkImageBuf {
  pixels : Z -> Z -> Z -> Z -> F;
  nchannels : Z;
  format : TypeDesc;
  localpixels : bool;
  alpha_channel : Z;
  UnassociatedAlpha : Z;            (* get_int_attribute("oiio:UnassociatedAlpha") *)
  ib_error : string
}.

(** Buffers live in a store and are named by their address, so that
    [&dst == &src] is a comparison of addresses. *)
Definition Store : Type := nat -> ImageBuf.

Definition upd (st : Store) (b : nat) (ib : ImageBuf) : Store :=
  fun b' => if Nat.eqb b' b then ib else st b'.

(** Helpers of OpenImageIO that are not part of this file. *)
Variable convert_type : TypeDesc -> F -> F.     (* float to the buffer's pixel type *)
Variable IBAprep : ROI -> Store -> nat -> nat -> bool * ROI * Store.
Variable IBA_copy : Store -> nat -> nat -> ROI -> Z -> bool * Store.

Definition errorfmt (st : Store) (b : nat) (msg : string) : Store :=
  let ib := st b in
  upd st b (mkImageBuf (pixels ib) (nchannels ib) (format ib) (localpixels ib)
              (alpha_channel ib) (UnassociatedAlpha ib) msg).

(** [r[c] = v] through an [ImageBuf::Iterator] positioned at (x, y, z). *)
Definition write (st : Store) (b : nat) (x y z c : Z) (v : F) : Store :=
  let ib := st b in
  upd st b (mkImageBuf
              (fun x' y' z' c' =>
                 if (Z.eqb x' x && Z.eqb y' y && Z.eqb z' z && Z.eqb c' c)%bool
                 then convert_type (format ib) v
                 else pixels ib x' y' z' c')
              (nchannels ib) (format ib) (localpixels ib)
              (alpha_channel ib) (UnassociatedAlpha ib) (ib_error ib)).

(** [a[c]] through an [ImageBuf::ConstIterator]. *)
Definition read (st : Store) (b : nat) (x y z c : Z) : F := pixels (st b) x y z c.

(** Loading one pixel of the scanline. *)
Definition load_pixel (st : Store) (A : nat) (channelsToCopy x j k : Z) : vfloat4 :=
  let v := fold_left (fun v c => insert_c c (read st A x j k c) v)
             (range 0 channelsToCopy) (V4 f_zero f_zero f_zero f_zero) in
  if Z.eqb channelsToCopy 1
  then insert_c 2 (extract 0 v) (insert_c 1 (extract 0 v) v)
  else v.

(** The divisor that stands in for alpha. *)
Definition guard_alpha (a : F) : F := if f_ge a fltmin then a else f_one.

(** Unpremult of one pixel in [colorconvert_impl]; also yields [alpha[i]]. *)
Definition unpremult_pixel (p : vfloat4) : vfloat4 * F :=
  let a := extract 3 p in
  let a' := guard_alpha a in
  (vdiv p (V4 a' a' a' f_one), a).

(** Unpremult of one pixel in [colorconvert_impl_float_rgba]. *)
Definition unpremult_pixel_rgba (p : vfloat4) : vfloat4 * F :=
  let a := extract 3 p in
  let a' := guard_alpha a in
  (if f_eq a' f_one then p else vdiv p (V4 a' a' a' f_one), a).

(** Re-premult of one pixel (both kernels), from the saved [alpha[i]]. *)
Definition premult_pixel (p : vfloat4) (alpha : F) : vfloat4 :=
  let a' := guard_alpha alpha in
  vmul p (V4 a' a' a' f_one).

Definition vzero : vfloat4 := V4 f_zero f_zero f_zero f_zero.

Definition ones : vfloat4 := V4 f_one f_one f_one f_one.

(** The three steps on a loaded scanline: optional unpremult, the
    processor, optional re-premult. *)
Definition transform_scanline (unpremult_px : vfloat4 -> vfloat4 * F)
    (processor : Processor) (unpremult : bool) (scanline : list vfloat4)
    : list vfloat4 :=
  let alpha := map (fun p => snd (unpremult_px p)) scanline in
  let scanline := if unpremult then map (fun p => fst (unpremult_px p)) scanline
                  else scanline in
  let scanline := apply_v processor scanline in
  if unpremult then zip_with premult_pixel scanline alpha else scanline.

(** One scanline (j, k) of [colorconvert_impl]. *)
Definition colorconvert_scanline (R A : nat) (processor : Processor)
    (unpremult : bool) (channelsToCopy : Z) (roi : ROI) (st : Store) (j k : Z)
    : Store :=
  let xs := range (xbegin roi) (xend roi) in
  let scanline := map (fun x => load_pixel st A channelsToCopy x j k) xs in
  let scanline := transform_scanline unpremult_pixel processor unpremult scanline in
  (* Store the scanline *)
  let st := fold_left
              (fun st '(x, dstPtr) =>
                 fold_left (fun st c => write st R x j k c (extract c dstPtr))
                   (range 0 channelsToCopy) st)
              (zip xs scanline) st in
  if (Z.ltb channelsToCopy (chend roi) && negb (Nat.eqb R A))%bool
  then fold_left
         (fun st x =>
            fold_left (fun st c =>
                         write st R x j k c
                           (f_add f_half (f_mul f_ten (read st A x j k c))))
              (range channelsToCopy (chend roi)) st)
         xs st
  else st.

(** [colorconvert_impl<Rtype, Atype>]; [parallel_image] runs the body on
    tiles of the region, here on the region as one tile. *)
Definition colorconvert_impl (st : Store) (R A : nat) (processor : Processor)
    (unpremult : bool) (roi : ROI) (nthreads : Z) : bool * Store :=
  let channelsToCopy := Z.min 4 (ROI_nchannels roi) in
  let unpremult := if Z.ltb channelsToCopy 4 then false else unpremult in
  (true,
   fold_left
     (fun st k =>
        fold_left
          (fun st j => colorconvert_scanline R A processor unpremult
                         channelsToCopy roi st j k)
          (range (ybegin roi) (yend roi)) st)
     (range (zbegin roi) (zend roi)) st).

(** One scanline of [colorconvert_impl_float_rgba]: both [memcpy]s move
    [width] packed RGBA pixels. *)
Definition colorconvert_scanline_rgba (R A : nat) (processor : Processor)
    (unpremult : bool) (roi : ROI) (st : Store) (j k : Z) : Store :=
  let xs := range (xbegin roi) (xend roi) in
  let scanline := map (fun x => V4 (read st A x j k 0) (read st A x j k 1)
                                   (read st A x j k 2) (read st A x j k 3)) xs in
  let scanline := transform_scanline unpremult_pixel_rgba processor unpremult
                    scanline in
  fold_left
    (fun st '(x, p) =>
       fold_left (fun st c => write st R x j k c (extract c p)) (range 0 4) st)
    (zip xs scanline) st.

Definition colorconvert_impl_float_rgba (st : Store) (R A : nat)
    (processor : Processor) (unpremult : bool) (roi : ROI) (nthreads : Z)
    : bool * Store :=
  (true,
   fold_left
     (fun st k =>
        fold_left
          (fun st j => colorconvert_scanline_rgba R A processor unpremult roi st j k)
          (range (ybegin roi) (yend roi)) st)
     (range (zbegin roi) (zend roi)) st).

(** [ImageBufAlgo::colorconvert(dst, src, processor, unpremult, roi, nthreads)].
    The type dispatch of OIIO_DISPATCH_COMMON_TYPES2 is the instantiation of
    [colorconvert_impl] at the two pixel types. *)
Definition colorconvert (st : Store) (dst src : nat) (processor : option Processor)
    (unpremult : bool) (roi : ROI) (nthreads : Z) : bool * Store :=
  match processor with
  | None =>
      (false, errorfmt st dst
         "Passed NULL ColorProcessor to colorconvert() [probable application bug]")
  | Some processor =>
      if (isNoOp_v processor && Nat.eqb dst src)%bool then (true, st)
      else
        let '(ok, roi, st) := IBAprep roi st dst src in
        if negb ok then (false, st)
        else if isNoOp_v processor then IBA_copy st dst src roi nthreads
        else
          let unpremult :=
            if (unpremult && Z.leb 0 (alpha_channel (st src))
                && negb (Z.eqb (UnassociatedAlpha (st src)) 0))%bool
            then false else unpremult in
          if (localpixels (st dst) && localpixels (st src)
              && bool_decide (format (st dst) = FLOAT)
              && bool_decide (format (st src) = FLOAT)
              && Z.eqb (nchannels (st dst)) 4 && Z.eqb (nchannels (st src)) 4)%bool
          then colorconvert_impl_float_rgba st dst src processor unpremult roi nthreads
          else colorconvert_impl st dst src processor unpremult roi nthreads
  end.

End Kernel.

(** ** Vocabulary of the statements *)

(** The flag words that name classification and [identify_builtin_equivalents]
    can produce from an entry added with no flags: unions of
    [is_srgb], [is_lin_srgb | is_linear_response],
    [is_ACEScg | is_linear_response] and [is_Rec709]. *)
Definition classified_words : list Z :=
  [0; 4; 9; 13; 17; 21; 25; 29; 32; 36; 41; 45; 49; 53; 57; 61].

Definition classification_steps : list Z := [0; 4; 9; 17; 32].

(** The steps of a build: with OIIO_SITE_spi, [is_lin_srgb] alone is one. *)
Definition site_steps (spi : bool) : list Z :=
  if spi then is_lin_srgb :: classification_steps else classification_steps.

(** The entries that the fallback branch of [inventory] adds, as added. *)
Definition fallback_entries : list CSInfo :=
  [ CSInfo_ctor "linear" 0 linflags;
    CSInfo_ctor "scene_linear" 0 linflags;
    CSInfo_ctor "default" 0 linflags;
    CSInfo_ctor "rgb" 0 linflags;
    CSInfo_ctor "RGB" 0 linflags;
    CSInfo_ctor "lin_rec709_scene" 0 linflags;
    CSInfo_ctor "lin_srgb" 0 linflags;
    CSInfo_ctor "lin_rec709" 0 linflags;
    CSInfo_ctor "srgb_rec709_scene" 1 is_srgb;
    CSInfo_ctor "sRGB" 1 is_srgb;
    CSInfo_ctor "Rec709" 2 is_Rec709 ].

(** Entries related by classification. *)
Definition classified_from (spi : bool) (cs cs' : CSInfo) : Prop :=
  name cs' = name cs
  /\ exists g, In g (site_steps spi) /\ m_flags cs' = Z.lor (m_flags cs) g.

(** ** A concrete engine, for evaluating the model *)

Module Example.

Definition space (n : string) (data : bool) (aliases : list string) : OcioColorSpace :=
  {| cs_getName := n; cs_isData := data; cs_getAliases := aliases;
     cs_getInteropID := EmptyString |}.

Fixpoint lookup_space (l : list OcioColorSpace) (n : string) : option OcioColorSpace :=
  match l with
  | [] => None
  | cs :: r =>
      if (String.eqb (cs_getName cs) n || existsb (String.eqb n) (cs_getAliases cs))%bool
      then Some cs else lookup_space r n
  end.

(** A document with the given color spaces: processors exist between known
    spaces, a file transform always compiles, no named transform exists. *)
Definition document (docname : string) (l : list OcioColorSpace) : OcioConfig :=
  {| cfg_getName := Some docname;
     cfg_getNumColorSpaces := length l;
     cfg_getColorSpaceNameByIndex := fun n => cs_getName <$> (l !! n);
     cfg_getColorSpace := lookup_space l;
     cfg_getProcessor := fun _ src dst =>
       match lookup_space l src, lookup_space l dst with
       | Some a, Some b =>
           Returned {| p_uid := 1;
                       p_isNoOp := String.eqb (cs_getName a) (cs_getName b);
                       p_hasChannelCrosstalk := false |}
       | _, _ => Threw "Color space could not be found"
       end;
     cfg_getProcessorT := fun _ t _ =>
       match t with
       | FileTransform _ =>
           Returned {| p_uid := 2; p_isNoOp := false; p_hasChannelCrosstalk := true |}
       | NamedTransformRef _ => Threw "Named transform could not be found"
       end |}.

Definition live_config : OcioConfig :=
  document "studio"
    [ space "sRGB" false ["srgb_display"];
      space "srgb_texture" false [];
      space "ACEScg" false ["scene_linear"];
      space "Raw" true [] ].

Definition interop_config : OcioConfig :=
  document "interop-identities"
    [ space "srgb_rec709_display" false [];
      space "lin_ap1_scene" false [];
      space "data" true [] ].

(** [splits(s, ",")]: no pieces for the empty string. *)
Fixpoint split_comma (s acc : string) : list string :=
  match s with
  | EmptyString => [acc]
  | String c r =>
      if Nat.eqb (nat_of_ascii c) 44 then acc :: split_comma r EmptyString
      else split_comma r (acc ++ String c EmptyString)
  end.

Fixpoint string_sum (s : string) : Z :=
  match s with
  | EmptyString => 0
  | String c r => Z.of_nat (nat_of_ascii c) + 31 * string_sum r
  end.

Definition engine (disabled : bool) : Externals :=
  {| OCIO_VERSION_HEX := 33751040;           (* 2.3.0 *)
     OIIO_SITE_spi := false;
     disable_ocio := disabled;
     disable_builtin_configs := false;
     CreateFromFile := fun _ => Returned live_config;
     CreateFromStream := fun _ => Threw "Error parsing stream";
     GetCurrentConfig := Returned live_config;
     build_interop_identities_config := Returned interop_config;
     IdentifyBuiltinColorSpace_ocio := fun _ _ n =>
       if String.eqb n "srgb_tx" then Returned (Some "srgb_texture")
       else Threw "No equivalent color space";
     GetProcessorFromConfigs := fun _ _ _ _ _ _ => Threw "Color space could not be found";
     getenv_OCIO := EmptyString;
     Filesystem_exists := fun _ => false;
     splits := fun s => if empty s then [] else split_comma s EmptyString;
     fmt_format := fun s => Some s;
     ustring_hash := fun s => wrap64 (string_sum s) |}.



(** The world after [ColorConfig config;] with the engine enabled and with
    OIIO_DISABLE_OCIO set, in a run where the memory of the two counters
    happened to hold 0. *)
Definition world_of (disabled : bool) : World :=
  match ColorConfig_ctor (engine disabled) EmptyString 0 0 with
  | Some (_, w) => w
  | None => fresh_world 0 0
  end.

Definition enabled_world : World := Eval vm_compute in world_of false.
Definition fallback_world : World := Eval vm_compute in world_of true.

Definition value_of {A} (d : A) (r : option (A * World)) : A :=
  match r with Some (a, _) => a | None => d end.

Definition world_after {A} (r : option (A * World)) : World :=
  match r with Some (_, w) => w | None => fresh_world 0 0 end.

(** Buffers of six float channels: buffer 0 is a ramp, the others are black. *)
Definition no_conversion : TypeDesc -> binary32 -> binary32 := fun _ v => v.

Definition ramp : @ImageBuf binary32 :=
  mkImageBuf (fun x y z c => b32_of_Z (x + 2 * y + c + 1)) 6 FLOAT true (-1) 0
    EmptyString.

Definition black : @ImageBuf binary32 :=
  mkImageBuf (fun _ _ _ _ => f_zero) 6 FLOAT true (-1) 0 EmptyString.

Definition store : @Store binary32 :=
  fun b => if Nat.eqb b 0 then ramp else black.

Definition region : ROI :=
  {| xbegin := 0; xend := 2; ybegin := 0; yend := 2; zbegin := 0; zend := 1;
     chbegin := 0; chend := 6 |}.

Definition identity_processor : @Processor binary32 :=
  {| isNoOp_v := true; hasChannelCrosstalk_v := false; apply_v := fun l => l |}.

Definition gain_processor : @Processor binary32 :=
  {| isNoOp_v := false; hasChannelCrosstalk_v := false;
     apply_v := map (fun p => vmul p (V4 (b32_of_Z 2) (b32_of_Z 2) (b32_of_Z 2) f_one)) |}.

(** An [IBAprep] that accepts and a [copy] that replaces the destination. *)
Definition prep (roi : ROI) (st : @Store binary32) (dst src : nat)
    : bool * ROI * @Store binary32 := (true, roi, st).

Definition copy (st : @Store binary32) (dst src : nat) (roi : ROI) (nthreads : Z)
    : bool * @Store binary32 := (true, upd st dst (st src)).

Definition quarter : binary32 := binary_normalize 24 128 1 (-2) false.
Definition eighth : binary32 := binary_normalize 24 128 1 (-3) false.

End Example.

(** ** Queries on the registry *)

Section Queries.
Variable ext : Externals.

(** [Impl::getColorSpaceNameByIndex(index)]: [colorspaces[index]], without a
    bounds check. *)
Definition getColorSpaceNameByIndex (i : Impl) (index : Z) : option string :=
  if Z.ltb index 0 then None
  else name <$> (colorspaces i !! Z.to_nat index).

(** [ColorConfig::getColorSpaceNames()] *)
Definition getColorSpaceNames (i : Impl) : list string := map name (colorspaces i).

(** First loop of [getColorSpaceIndex]; [None] when the loop runs out. *)
Fixpoint index_iequals (names : list string) (name_ : string) (idx : Z) : option Z :=
  match names with
  | [] => None
  | n :: r => if iequals n name_ then Some idx else index_iequals r name_ (idx + 1)
  end.

(** Second loop and the final [return -1]; [None] when [equivalent] does not
    complete. *)
Fixpoint index_equivalent (i : Impl) (names : list string) (name_ : string)
    (idx : Z) : option Z :=
  match names with
  | [] => Some (-1)
  | n :: r =>
      b ← equivalent ext i n name_;
      if b : bool then Some idx else index_equivalent i r name_ (idx + 1)
  end.

(** [ColorConfig::getColorSpaceIndex(name)] *)
Definition getColorSpaceIndex (i : Impl) (name_ : string) : option Z :=
  match index_iequals (getColorSpaceNames i) name_ 0 with
  | Some idx => Some idx
  | None => index_equivalent i (getColorSpaceNames i) name_ 0
  end.

(** [ColorConfig::getColorSpaceNameByRole(role)]; [None] is the null pointer.
    The parameter [role] is reassigned inside the first block and read again
    after it. *)
Definition getColorSpaceNameByRole (i : Impl) (role : string) : option string :=
  let '(role, c) :=
    match config_ i, disable_ocio ext with
    | Some config, false =>
        let c := cfg_getColorSpace config role in
        let role := if (negb (is_Some_b c)
                        && (iequals role "RGB" || iequals role "default"))%bool
                    then "linear" else role in
        let c := if (negb (is_Some_b c) && iequals role "linear")%bool
                 then cfg_getColorSpace config "scene_linear" else c in
        let c := if (negb (is_Some_b c) && iequals role "scene_linear")%bool
                 then cfg_getColorSpace config "linear" else c in
        let c := if (negb (is_Some_b c) && iequals role "srgb")%bool
                 then cfg_getColorSpace config "sRGB - Texture" else c in
        (role, c)
    | _, _ => (role, None)
    end in
  match c with
  | Some c => Some (cs_getName c)
  | None =>
      if (iequals role "linear" || iequals role "scene_linear")%bool
      then Some "linear" else None
  end.

(** [ColorConfig::configname()] *)
Definition configname (i : Impl) : string :=
  match config_ i, disable_ocio ext with
  | Some _, false => m_configname i
  | _, _ => "built-in"
  end.

End Queries.

(** ** Looks, displays and views *)

(** Further entry points of the engine: the displays, views and file rules of
    a configuration document, and the processors of look and display
    transforms.  A [const char*] result is an [option]. *)
Record OcioViewing := {
  cfg_getDefaultDisplay : OcioConfig -> option string;
  cfg_getDefaultView : OcioConfig -> string -> string -> option string;
  cfg_getColorSpaceFromFilepath : OcioConfig -> string -> option string;
  cfg_filepathOnlyMatchesDefaultRule : OcioConfig -> string -> bool;
  (* config->getProcessor(context, transform, dir) for a LookTransform with
     the given looks, source and destination *)
  cfg_getProcessor_look :
    OcioConfig -> OcioContext -> string -> string -> string -> bool ->
    OcioResult OcioProcessor;
  (* LegacyViewingPipeline::getProcessor(config, context) for a
     DisplayViewTransform (source, display, view, inverse) and the looks
     override, when one is set *)
  legacy_getProcessor :
    OcioConfig -> OcioContext -> string -> string -> string -> bool ->
    option string -> OcioResult OcioProcessor;
  (* config->getProcessor(group): the group transform of the first processor
     with that of the second prepended, or, inverted, appended (inverse) *)
  cfg_getProcessor_group :
    OcioConfig -> OcioProcessor -> OcioProcessor -> bool -> OcioResult OcioProcessor
}.

Section Viewing.
Variable ext : Externals.
Variable vw : OcioViewing.

(** A value computed by a function that may not complete. *)
Definition completes {A} (o : option A) : M A :=
  match o with Some a => ret a | None => crash end.

(** The two handlers that follow a [try] block of the transform builders:
    [catch (OCIO::Exception& e) { getImpl()->error(e.what()); }] and
    [catch (...)]. *)
Definition on_exception {A} (res : OcioResult A) (k : A -> M ColorProcessorHandle)
    : M ColorProcessorHandle :=
  match res with
  | Returned a => k a
  | Threw what => msg <- deref (fmt_format ext what) ;; error msg ;;; ret None
  | ThrewOther =>
      error "An unknown error occurred in OpenColorIO, getProcessor" ;;; ret None
  end.



(** [ColorConfig::getDefaultDisplayName()]; [None] is the null pointer. *)
Definition getDefaultDisplayName (i : Impl) : option string :=
  match config_ i, disable_ocio ext with
  | Some config, false => cfg_getDefaultDisplay vw config
  | _, _ => None
  end.

(** [ColorConfig::getDefaultViewName(display, inputColorSpace)]: the
    configuration is dereferenced without a test when the input color space
    is empty or "default". *)
Definition getDefaultViewName (i : Impl) (display_ inputColorSpace_ : string)
    : option (option string) :=
  let display_ := if (empty display_ || String.eqb display_ "default")%bool
                  then default "" (getDefaultDisplayName i) else display_ in
  inputColorSpace_ ←
    (if (empty inputColorSpace_ || String.eqb inputColorSpace_ "default")%bool
     then config ← config_ i;
          Some (default "" (cfg_getColorSpaceFromFilepath vw config inputColorSpace_))
     else Some inputColorSpace_);
  Some (match config_ i, disable_ocio ext with
        | Some config, false => cfg_getDefaultView vw config display_ inputColorSpace_
        | _, _ => None
        end).

(** The key built by [createDisplayTransform] from the display and the view
    it has settled on. *)
Definition createDisplayTransform_key (display_ view_ inputColorSpace_ looks_ : string)
    (inverse_ : bool) (context_key_ context_value_ : string) : ColorProcCacheKey :=
  ColorProcCacheKey_ctor ext inputColorSpace_ "" (* outputColorSpace *)
    context_key_ context_value_ looks_ display_ view_ "" (* file *)
    "" (* namedtransform *) inverse_.

(** [ColorConfig::createDisplayTransform(ustring, ustring, ustring, ustring,
    bool, ustring, ustring)] *)
Definition createDisplayTransform (display_ view_ inputColorSpace_ looks_ : string)
    (inverse_ : bool) (context_key_ context_value_ : string)
    : M ColorProcessorHandle :=
  i <- get_impl ;;
  let display_ := if (empty display_ || String.eqb display_ "default")%bool
                  then default "" (getDefaultDisplayName i) else display_ in
  view_ <- (if (empty view_ || String.eqb view_ "default")%bool
            then v <- completes (getDefaultViewName i display_ inputColorSpace_) ;;
                 ret (default "" v)
            else ret view_) ;;
  let prockey := createDisplayTransform_key display_ view_ inputColorSpace_ looks_
                   inverse_ context_key_ context_value_ in
  handle <- findproc prockey ;;
  match handle with
  | Some _ => ret handle
  | None =>
      config <- deref (config_ i) ;;
      let original_input_cs := inputColorSpace_ in
      inputColorSpace_ <-
        match cfg_getColorSpace config inputColorSpace_ with
        | Some _ => ret inputColorSpace_
        | None =>
            interopconfig <- deref (interopconfig_ i) ;;
            ret (if is_Some_b (cfg_getColorSpace interopconfig inputColorSpace_)
                 then "scene_linear" (* OCIO::ROLE_SCENE_LINEAR *)
                 else inputColorSpace_)
        end ;;
      let looks_override := if negb (empty looks_) then Some looks_ else None in
      let context := make_context ext context_key_ context_value_ in
      res <- engine_compile
               (legacy_getProcessor vw config context inputColorSpace_ display_
                  view_ inverse_ looks_override) ;;
      handle <-
        on_exception res (fun p =>
          clear_error ;;;
          if negb (iequals original_input_cs inputColorSpace_)
          then interopconfig <- deref (interopconfig_ i) ;;
               pre <- engine_compile
                        (GetProcessorFromConfigs ext context interopconfig
                           original_input_cs context config inputColorSpace_) ;;
               on_exception pre (fun pretransform =>
                 res <- engine_compile
                          (cfg_getProcessor_group vw config p pretransform inverse_) ;;
                 on_exception res (fun p =>
                   cp <- new_ColorProcessor_OCIO p ;;
                   ret (Some cp)))
          else cp <- new_ColorProcessor_OCIO p ;;
               ret (Some cp)) ;;
      addproc prockey handle
  end.

End Viewing.

(** ** Color space names in file names *)

Section Filepath.
(** [Strutil::irfind(a, b)], the position of the right-most match of [b] in
    [a] ignoring case ([None] is [npos]), and [std::sort] with the comparator
    [a.length() < b.length()] are not part of this file. *)
Variable irfind : string -> string -> option nat.
Variable std_sort : list string -> list string.

(** One round of the loop of [parseColorSpaceFromString] over the pair
    ([rightMostColorPos], [rightMostColorspace]); [None] is [npos]. *)
Definition rightmost_step (str : string) (best : option nat * string)
    (csname : string) : option nat * string :=
  match irfind str csname with
  | None => best
  | Some pos =>
      let pos := (pos + String.length csname)%nat in
      if match fst best with
         | None => true
         | Some rightMostColorPos => Nat.leb rightMostColorPos pos
         end
      then (Some pos, csname)
      else best
  end.

(** [ColorConfig::parseColorSpaceFromString(str)] *)
Definition parseColorSpaceFromString (i : Impl) (str : string) : string :=
  if empty str then ""
  else
    let names := std_sort (getColorSpaceNames i) in
    snd (fold_left (rightmost_step str) names (None, "")).

End Filepath.

(** ** Conversion of one color value *)

(** [a > b] on C++ [float]. *)
Class FloatGt (F : Type) := f_gt : F -> F -> bool.

#[global] Instance binary32_gt : FloatGt binary32 := fun a b => SFltb b a.

Section Color.
Context {F : Type} {ops : FloatOps F} {gt : FloatGt F}.

(** [ImageBufAlgo::colorconvert(span<float> color, processor, unpremult)]:
    the result and the contents of the span afterwards. *)
Definition colorconvert_color (color : list F) (processor : option (@Processor F))
    (unpremult : bool) : bool * list F :=
  match processor with
  | None => (false, color)
  | Some processor =>
      if isNoOp_v processor then (true, color)
      else
        (* Load the pixel *)
        let channelsToCopy := Z.min 4 (Z.of_nat (length color)) in
        let rgba := V4 (nth 0 color f_zero) (nth 1 color f_zero)
                       (nth 2 color f_zero) (nth 3 color f_zero) in
        (* Optionally unpremult *)
        let rgba :=
          if (Z.leb 4 channelsToCopy && unpremult)%bool
          then let alpha := v_w rgba in
               if f_gt alpha fltmin
               then V4 (f_div (v_x rgba) alpha) (f_div (v_y rgba) alpha)
                       (f_div (v_z rgba) alpha) (v_w rgba)
               else rgba
          else rgba in
        (* Apply the color transformation *)
        let rgba := hd rgba (apply_v processor [rgba]) in
        (* Optionally premult *)
        let rgba :=
          if (Z.leb 4 channelsToCopy && unpremult)%bool
          then let alpha := v_w rgba in
               if f_gt alpha fltmin
               then V4 (f_mul (v_x rgba) alpha) (f_mul (v_y rgba) alpha)
                       (f_mul (v_z rgba) alpha) (v_w rgba)
               else rgba
          else rgba in
        (* Store *)
        (true,
         (firstn (Z.to_nat channelsToCopy)
            [v_x rgba; v_y rgba; v_z rgba; v_w rgba]
          ++ skipn (Z.to_nat channelsToCopy) color)%list)
  end.

End Color.

(** ** Vocabulary of the further statements *)

(** The members of [Impl] that the registry phase of [init] ([inventory]
    and [identify_builtin_equivalents]) leaves alone. *)
Definition impl_outside_registry (i i' : Impl) : Prop :=
  builtinconfig_ i' = builtinconfig_ i
  /\ interopconfig_ i' = interopconfig_ i
  /\ m_error i' = m_error i
  /\ colorprocmap i' = colorprocmap i
  /\ colorprocs_requested i' = colorprocs_requested i
  /\ colorprocs_created i' = colorprocs_created i
  /\ m_configname i' = m_configname i
  /\ m_configfilename i' = m_configfilename i.

Definition same_outside_registry (w w' : World) : Prop :=
  impl_outside_registry (impl w) (impl w')
  /\ heap_next w' = heap_next w
  /\ engine_compilations w' = engine_compilations w.

(** What the loading phase of [init] leaves alone: the registry, the
    processor cache with its counters, the heap and the engine's count. *)
Definition same_cache (w w' : World) : Prop :=
  colorspaces (impl w') = colorspaces (impl w)
  /\ colorprocmap (impl w') = colorprocmap (impl w)
  /\ colorprocs_requested (impl w') = colorprocs_requested (impl w)
  /\ colorprocs_created (impl w') = colorprocs_created (impl w)
  /\ heap_next w' = heap_next w
  /\ engine_compilations w' = engine_compilations w.

(** The name that [init] settles on: the argument, or $OCIO when the argument
    is empty or "$OCIO", or "ocio://default" when that is empty too. *)
Definition effective_filename (ext : Externals) (filename : string) : string :=
  let filename := if (empty filename || iequals filename "$OCIO")%bool
                  then getenv_OCIO ext else filename in
  if empty filename then "ocio://default" else filename.

(** What the loop of [parseColorSpaceFromString] knows after the names
    [seen]: nothing matched so far, or the match that ends right-most, the
    longest name among those that end there. *)
Definition rightmost_of (irfind : string -> string -> option nat) (str : string)
    (seen : list string) (best : option nat * string) : Prop :=
  match fst best with
  | None => snd best = "" /\ forall n, In n seen -> irfind str n = None
  | Some e =>
      In (snd best) seen
      /\ (exists p, irfind str (snd best) = Some p
                    /\ e = (p + String.length (snd best))%nat)
      /\ forall n q, In n seen -> irfind str n = Some q ->
           (q + String.length n <= e)%nat
           /\ ((q + String.length n = e)%nat ->
               (String.length n <= String.length (snd best))%nat)
  end.

(** ** A concrete engine with displays and views *)

Module ExampleViews.

(** One display with the views "Filmic" and "Raw"; looks compile when one is
    named; a bridged processor is a processor of its own. *)
Definition viewing : OcioViewing :=
  {| cfg_getDefaultDisplay := fun _ => Some "sRGB - Display";
     cfg_getDefaultView := fun _ _ _ => Some "Filmic";
     cfg_getColorSpaceFromFilepath := fun _ _ => Some "ACEScg";
     cfg_filepathOnlyMatchesDefaultRule := fun _ _ => true;
     cfg_getProcessor_look := fun _ _ looks_ _ _ _ =>
       if empty looks_ then Threw "No looks"
       else Returned {| p_uid := 4; p_isNoOp := false;
                        p_hasChannelCrosstalk := true |};
     legacy_getProcessor := fun config _ src display_ view_ _ _ =>
       match cfg_getColorSpace config src with
       | Some _ =>
           if (String.eqb display_ "sRGB - Display"
               && (String.eqb view_ "Filmic" || String.eqb view_ "Raw"))%bool
           then Returned {| p_uid := 5; p_isNoOp := false;
                            p_hasChannelCrosstalk := true |}
           else Threw "Display or view could not be found"
       | None => Threw "Color space could not be found"
       end;
     cfg_getProcessor_group := fun _ _ _ _ =>
       Returned {| p_uid := 6; p_isNoOp := false; p_hasChannelCrosstalk := true |} |}.

(** The example engine with a stream reader that accepts every text. *)
Definition text_engine : Externals :=
  let E := Example.engine false in
  {| OCIO_VERSION_HEX := OCIO_VERSION_HEX E;
     OIIO_SITE_spi := OIIO_SITE_spi E;
     disable_ocio := disable_ocio E;
     disable_builtin_configs := disable_builtin_configs E;
     CreateFromFile := CreateFromFile E;
     CreateFromStream := fun _ => Returned Example.live_config;
     GetCurrentConfig := GetCurrentConfig E;
     build_interop_identities_config := build_interop_identities_config E;
     IdentifyBuiltinColorSpace_ocio := IdentifyBuiltinColorSpace_ocio E;
     GetProcessorFromConfigs := GetProcessorFromConfigs E;
     getenv_OCIO := getenv_OCIO E;
     Filesystem_exists := Filesystem_exists E;
     splits := splits E;
     fmt_format := fmt_format E;
     ustring_hash := ustring_hash E |}.

(** A configuration document passed as text: two lines. *)
Definition config_text : string :=
  "ocio_profile_version: 2" ++ String (ascii_of_nat 10) "name: studio".

(** The right-most match of [t] in [s], both in lower case; [s] is what is
    left of the text from position [pos] on. *)
Fixpoint rfind_from (s t : string) (pos : nat) : option nat :=
  match s with
  | EmptyString => if String.prefix t s then Some pos else None
  | String _ r =>
      match rfind_from r t (S pos) with
      | Some p => Some p
      | None => if String.prefix t s then Some pos else None
      end
  end.

Definition irfind (s t : string) : option nat :=
  rfind_from (to_lower s) (to_lower t) 0.

Definition shorter (a b : string) : Prop :=
  (String.length a <= String.length b)%nat.

#[global] Instance shorter_dec (a b : string) : Decision (shorter a b) :=
  decide (String.length a <= String.length b)%nat.

#[global] Instance shorter_total : Total shorter :=
  fun a b => Nat.le_ge_cases (String.length a) (String.length b).

#[global] Instance shorter_trans : Transitive shorter :=
  fun a b c => Nat.le_trans (String.length a) (String.length b) (String.length c).

Definition sort_by_length : list string -> list string := merge_sort shorter.

(** A four-channel float image with unassociated alpha: alpha is 1 in
    column 0 and 0 elsewhere. *)
Definition matte : @ImageBuf binary32 :=
  mkImageBuf
    (fun x y z c => if Z.eqb c 3 then (if Z.eqb x 0 then f_one else f_zero)
                    else b32_of_Z (x + 2 * y + c + 1))
    4 FLOAT true 3 1 EmptyString.

Definition matte_store : @Store binary32 :=
  fun b => if Nat.eqb b 0 then matte else Example.black.

Definition rgba_region : ROI :=
  {| xbegin := 0; xend := 2; ybegin := 0; yend := 2; zbegin := 0; zend := 1;
     chbegin := 0; chend := 4 |}.

Definition rgb_region : ROI :=
  {| xbegin := 0; xend := 2; ybegin := 0; yend := 2; zbegin := 0; zend := 1;
     chbegin := 0; chend := 3 |}.

End ExampleViews.

(** * Theorems *)

(** ** Reasoning about the monad *)

Lemma bind_Some {A B} (m : M A) (k : A -> M B) (w : World) (r : B * World) :
  bind m k w = Some r ->
  exists a w1, m w = Some (a, w1) /\ k a w1 = Some r.
Proof.
  unfold bind. destruct (m w) as [[a w1]|]; [|discriminate].
  intros H. exists a, w1. split; [reflexivity|exact H].
Qed.

Lemma bind_eq {A B} (m : M A) (k : A -> M B) (w w1 : World) (a : A) :
  m w = Some (a, w1) -> bind m k w = k a w1.
Proof. unfold bind. intros ->. reflexivity. Qed.

(** ** The processor cache *)

Lemma findproc_eq (key : ColorProcCacheKey) (w : World) :
  findproc key w
  = Some (match colorprocmap (impl w) !! key with
          | None => None
          | Some found => found
          end, bump_requested w).
Proof. reflexivity. Qed.

(** A non-empty handle returned by [addproc] is the one found under the key
    afterwards. *)
Lemma addproc_installed (key : ColorProcCacheKey) (h : ColorProcessorHandle)
    (w w' : World) (cp : ColorProcessor) :
  addproc key h w = Some (Some cp, w') ->
  colorprocmap (impl w') !! key = Some (Some cp).
Proof.
  unfold addproc. destruct h as [c|]; [|intros [=]].
  unfold bind, get_impl.
  destruct (colorprocmap (impl w) !! key) as [found|] eqn:E.
  - intros [= -> <-]. exact E.
  - cbn. intros [= -> <-]. cbn. apply lookup_insert_eq.
Qed.

(** An empty handle is returned as it is and leaves the world alone. *)
Lemma addproc_empty (key : ColorProcCacheKey) (w : World) :
  addproc key None w = Some (None, w).
Proof. reflexivity. Qed.

Section FactoryFacts.
Variable ext : Externals.



End FactoryFacts.


Lemma run_eq {A} (d : A) (r : option (A * World)) :
  is_Some_b r = true -> r = Some (Example.value_of d r, Example.world_after r).
Proof. destruct r as [[a w]|]; [reflexivity|discriminate]. Qed.






(** C4.  The key that [createFileTransform(p, b)] builds is the key that
    [createNamedTransform(p, b, "", "")] builds: the file path is passed in
    the constructor's named-transform position, the file position stays
    empty, and [operator==] holds between the two keys. *)
Theorem file_key_is_named_key (ext : Externals) (p : string) (b : bool) :
  createFileTransform_key ext p b = createNamedTransform_key ext p b "" ""
  /\ file (createFileTransform_key ext p b) = ""
  /\ namedtransform (createFileTransform_key ext p b) = p
  /\ ColorProcCacheKey_eqb (createFileTransform_key ext p b)
       (createNamedTransform_key ext p b "" "") = true.
Proof.
  repeat split.
  unfold ColorProcCacheKey_eqb, createFileTransform_key, createNamedTransform_key.
  cbn. rewrite Z.eqb_refl, String.eqb_refl, Bool.eqb_reflx. reflexivity.
Qed.

(** On the example engine a file transform compiles and no named transform
    exists; yet after [createFileTransform("x.cube", false)] the request
    [createNamedTransform("x.cube", false, "", "")] is a cache hit that
    returns the file transform's processor, and the engine is not asked. *)
Lemma named_request_hits_file_entry :
  let E := Example.engine false in
  let r1 := createFileTransform E "x.cube" false Example.enabled_world in
  let r2 := createNamedTransform E "x.cube" false "" "" (Example.world_after r1) in
  is_Some_b (Example.value_of None r1) = true
  /\ Example.value_of None r2 = Example.value_of None r1
  /\ engine_compilations (Example.world_after r1) = 1%nat
  /\ engine_compilations (Example.world_after r2) = 1%nat
  /\ Example.value_of None
       (createNamedTransform E "x.cube" false "" "" Example.enabled_world) = None.
Proof. repeat split; vm_compute; reflexivity. Qed.

(** ** The registry after construction *)

Lemma classified_words_closed (f g : Z) :
  In f classified_words -> In g classification_steps ->
  In (Z.lor f g) classified_words.
Proof.
  intros Hf Hg.
  assert (H : forallb (fun f => forallb (fun g =>
                existsb (Z.eqb (Z.lor f g)) classified_words)
              classification_steps) classified_words = true)
    by (vm_compute; reflexivity).
  rewrite forallb_forall in H. specialize (H f Hf).
  rewrite forallb_forall in H. specialize (H g Hg).
  apply existsb_exists in H as (x & Hx & E).
  apply Z.eqb_eq in E. rewrite E. exact Hx.
Qed.


Lemma site_steps_incl (spi : bool) (g : Z) :
  In g classification_steps -> In g (site_steps spi).
Proof. destruct spi; [right; assumption|trivial]. Qed.

(** [classify_by_name] always completes; it keeps the name, ors one of the
    build's classification steps into the flags and touches only alias
    members. *)
Lemma classify_by_name_spec (ext : Externals) (cs : CSInfo) (w : World) :
  exists cs' w',
    classify_by_name ext cs w = Some (cs', w')
    /\ name cs' = name cs
    /\ (exists g, In g (site_steps (OIIO_SITE_spi ext))
                  /\ m_flags cs' = Z.lor (m_flags cs) g)
    /\ colorspaces (impl w') = colorspaces (impl w)
    /\ config_ (impl w') = config_ (impl w).
Proof.
  unfold classify_by_name.
  destruct (_ || _)%bool at 1.
  { eexists _, _. split; [reflexivity|]. cbn.
    split; [reflexivity|]. split; [|split; reflexivity].
    exists 4. split; [apply site_steps_incl; cbn; tauto|reflexivity]. }
  destruct (_ || _)%bool at 1.
  { eexists _, _. split; [reflexivity|]. cbn.
    split; [reflexivity|]. split; [|split; reflexivity].
    exists 9. split; [apply site_steps_incl; cbn; tauto|reflexivity]. }
  destruct (_ || _)%bool at 1.
  { eexists _, _. split; [reflexivity|]. cbn.
    split; [reflexivity|]. split; [|split; reflexivity].
    exists 17. split; [apply site_steps_incl; cbn; tauto|reflexivity]. }
  destruct (iequals _ _) at 1.
  { eexists _, _. split; [reflexivity|]. cbn.
    split; [reflexivity|]. split; [|split; reflexivity].
    exists 32. split; [apply site_steps_incl; cbn; tauto|reflexivity]. }
  destruct (OIIO_SITE_spi ext); cbn [andb].
  - destruct (starts_with _ _) at 1.
    { eexists _, _. split; [reflexivity|]. cbn.
      split; [reflexivity|]. split; [|split; reflexivity].
      exists 17. split; [cbn; tauto|reflexivity]. }
    destruct (_ || _)%bool at 1.
    { eexists _, _. split; [reflexivity|]. cbn.
      split; [reflexivity|]. split; [|split; reflexivity].
      exists 4. split; [cbn; tauto|reflexivity]. }
    destruct (_ || _)%bool at 1.
    { eexists _, _. split; [reflexivity|]. cbn.
      split; [reflexivity|]. split; [|split; reflexivity].
      exists 8. split; [cbn; tauto|reflexivity]. }
    eexists _, _. split; [reflexivity|]. cbn.
    split; [reflexivity|]. split; [|split; reflexivity].
    exists 0. split; [cbn; tauto|]. symmetry. apply Z.lor_0_r.
  - eexists _, _. split; [reflexivity|]. cbn.
    split; [reflexivity|]. split; [|split; reflexivity].
    exists 0. split; [cbn; tauto|]. symmetry. apply Z.lor_0_r.
Qed.

Lemma classify_each_spec (ext : Externals) (l : list CSInfo) (w : World) :
  exists l' w',
    classify_each ext l w = Some (l', w')
    /\ Forall2 (classified_from (OIIO_SITE_spi ext)) l l'
    /\ colorspaces (impl w') = colorspaces (impl w)
    /\ config_ (impl w') = config_ (impl w).
Proof.
  revert w. induction l as [|cs r IH]; intros w.
  - exists [], w. repeat split. constructor.
  - destruct (classify_by_name_spec ext cs w)
      as (cs' & w1 & E1 & Hn & Hg & Hc1 & Hk1).
    destruct (IH w1) as (r' & w2 & E2 & HF & Hc2 & Hk2).
    exists (cs' :: r'), w2. split.
    + cbn. rewrite (bind_eq _ _ _ _ _ E1). rewrite (bind_eq _ _ _ _ _ E2).
      reflexivity.
    + split; [constructor; [split; assumption|assumption]|].
      split; congruence.
Qed.

Lemma classify_colorspaces_spec (ext : Externals) (w : World) :
  exists l' w',
    classify_colorspaces ext w = Some (tt, w')
    /\ Forall2 (classified_from (OIIO_SITE_spi ext)) (colorspaces (impl w)) l'
    /\ colorspaces (impl w') = l'
    /\ config_ (impl w') = config_ (impl w).
Proof.
  destruct (classify_each_spec ext (colorspaces (impl w)) w)
    as (l' & w1 & E & HF & Hc & Hk).
  exists l'. eexists. unfold classify_colorspaces.
  unfold bind at 1. unfold get_impl at 1.
  rewrite (bind_eq _ _ _ _ _ E).
  split; [reflexivity|]. split; [exact HF|]. split; [reflexivity|exact Hk].
Qed.

Lemma Forall2_classified_words (l l' : list CSInfo) :
  Forall2 (classified_from false) l l' ->
  Forall (fun cs => In (m_flags cs) classified_words) l ->
  Forall (fun cs => In (m_flags cs) classified_words) l'.
Proof.
  induction 1 as [|cs cs' r r' (Hn & g & Hg & Hf) HF IH]; intros HA.
  - constructor.
  - inversion HA as [|? ? H1 H2]; subst. constructor.
    + rewrite Hf. apply classified_words_closed; assumption.
    + apply IH. exact H2.
Qed.

Lemma classified_from_refl (spi : bool) (cs : CSInfo) : classified_from spi cs cs.
Proof.
  split; [reflexivity|]. exists 0. split; [apply site_steps_incl; cbn; tauto|].
  symmetry. apply Z.lor_0_r.
Qed.

Lemma Forall2_classified_refl (spi : bool) (l : list CSInfo) :
  Forall2 (classified_from spi) l l.
Proof. induction l; constructor; [apply classified_from_refl|assumption]. Qed.

Lemma replace_found_classified (spi : bool) (n : string) (cs cs' : CSInfo)
    (l : list CSInfo) :
  find_in l n = Some cs -> classified_from spi cs cs' ->
  Forall2 (classified_from spi) l (replace_found n cs' l).
Proof.
  intros Hf Hc. induction l as [|x r IH]; [discriminate|].
  cbn in *. destruct (String.eqb (name x) n).
  - injection Hf as ->. constructor; [exact Hc|apply Forall2_classified_refl].
  - constructor; [apply classified_from_refl|apply IH; exact Hf].
Qed.

Section ConfigFacts.
Variable ext : Externals.

Lemma inventory_nonraw_pure (config : OcioConfig) (idx : list nat) (b r : bool)
    (w w' : World) :
  inventory_nonraw config idx b w = Some (r, w') -> w' = w.
Proof.
  revert b. induction idx as [|i rest IH]; intros b.
  - intros [= _ <-]. reflexivity.
  - cbn. intros H. apply bind_Some in H as (cs & w1 & E1 & E2).
    destruct (match cfg_getColorSpaceNameByIndex config i with
              | Some csname => cfg_getColorSpace config csname
              | None => None
              end) as [c|]; [|discriminate].
    injection E1 as <- <-. exact (IH _ E2).
Qed.

Lemma inventory_add_spec (config : OcioConfig) (idx : list nat) (u : unit)
    (w w' : World) :
  inventory_add config idx w = Some (u, w') ->
  exists added,
    colorspaces (impl w') = (colorspaces (impl w) ++ added)%list
    /\ Forall (fun cs => m_flags cs = 0) added
    /\ config_ (impl w') = config_ (impl w).
Proof.
  destruct u. revert w. induction idx as [|i rest IH]; intros w.
  - intros [= <-]. exists []. rewrite app_nil_r. repeat split. constructor.
  - cbn. intros H. apply bind_Some in H as (n & w1 & E1 & H).
    destruct (cfg_getColorSpaceNameByIndex config i) as [n'|]; [|discriminate].
    injection E1 as <- <-.
    apply bind_Some in H as (u1 & w2 & E2 & H).
    injection E2 as <- <-.
    destruct (IH _ H) as (added & Hc & HF & Hk).
    exists (CSInfo_ctor n' (Z.of_nat i) 0 :: added).
    split; [|split].
    + rewrite Hc. cbn. rewrite <- app_assoc. reflexivity.
    + constructor; [reflexivity|exact HF].
    + rewrite Hk. reflexivity.
Qed.

Lemma add_spec (n : string) (idx f : Z) (w : World) :
  exists w',
    add n idx f w = Some (tt, w')
    /\ colorspaces (impl w') = (colorspaces (impl w) ++ [CSInfo_ctor n idx f])%list
    /\ config_ (impl w') = config_ (impl w).
Proof. eexists. split; [reflexivity|]. split; reflexivity. Qed.

(** One [add] of the fallback, with the entries added so far. *)
Ltac add_step :=
  match goal with
  | L : colorspaces (impl ?w) = (_ ++ _)%list, K : config_ (impl ?w) = None
    |- context [bind (add ?n ?i ?f) ?k ?w] =>
      let w' := fresh "w" in
      let E := fresh "E" in
      let C := fresh "C" in
      let K' := fresh "K" in
      destruct (add_spec n i f w) as (w' & E & C & K');
      rewrite (bind_eq _ _ _ _ _ E); clear E;
      rewrite L, <- app_assoc in C; cbn [app] in C;
      rewrite K in K'; clear L K
  end.

Lemma Forall2_classified_names (spi : bool) (l l' : list CSInfo) :
  Forall2 (classified_from spi) l l' -> map name l' = map name l.
Proof.
  induction 1 as [|cs cs' r r' (Hn & _) _ IH]; [reflexivity|].
  cbn. rewrite Hn, IH. reflexivity.
Qed.

(** The fallback always completes: the configuration pointer is reset and
    the eleven entries join the registry, classified by name. *)
Lemma inventory_fallback_spec (w : World) :
  exists w',
    inventory_fallback ext w = Some (tt, w')
    /\ config_ (impl w') = None
    /\ Forall2 (classified_from (OIIO_SITE_spi ext))
         (colorspaces (impl w) ++ fallback_entries)%list (colorspaces (impl w')).
Proof.
  unfold inventory_fallback.
  set (w0 := mkWorld (set_config_ None (impl w)) (heap_next w)
               (engine_compilations w)).
  assert (E0 : modify_impl (set_config_ None) w = Some (tt, w0)) by reflexivity.
  assert (L0 : colorspaces (impl w0) = (colorspaces (impl w) ++ [])%list)
    by (rewrite app_nil_r; reflexivity).
  assert (K0 : config_ (impl w0) = None) by reflexivity.
  rewrite (bind_eq _ _ _ _ _ E0). clearbody w0. clear E0.
  do 11 add_step.
  match goal with
  | |- context [classify_colorspaces ext ?w11] =>
      destruct (classify_colorspaces_spec ext w11) as (l' & w' & Ec & HF & Hl & Hk)
  end.
  exists w'. split; [exact Ec|]. split; [congruence|].
  rewrite Hl. match goal with L : colorspaces _ = _ |- _ => rewrite L in HF end.
  exact HF.
Qed.

(** With the engine disabled, or without a configuration, [inventory] is the
    fallback. *)
Lemma inventory_disabled (w : World) :
  config_ (impl w) = None \/ disable_ocio ext = true ->
  inventory ext w = inventory_fallback ext w.
Proof.
  intros H. unfold inventory. unfold bind at 1. unfold get_impl at 1.
  destruct H as [-> | ->]; [reflexivity|].
  destruct (config_ (impl w)); reflexivity.
Qed.

(** [inventory] on an empty registry, when it completes: either the
    configuration is kept and, in a build without OIIO_SITE_spi, every entry
    carries a classified flag word, or it is reset and the registry has the
    eleven fallback names. *)
Lemma inventory_spec (u : unit) (w w' : World) :
  colorspaces (impl w) = [] ->
  inventory ext w = Some (u, w') ->
  (disable_ocio ext = true -> config_ (impl w') = None)
  /\ (config_ (impl w') = None ->
      map name (colorspaces (impl w')) = map name fallback_entries)
  /\ (OIIO_SITE_spi ext = false -> config_ (impl w') <> None ->
      Forall (fun cs => In (m_flags cs) classified_words) (colorspaces (impl w'))).
Proof.
  intros Hempty Hrun.
  assert (Hfb : forall w0, colorspaces (impl w0) = [] ->
                  inventory_fallback ext w0 = Some (u, w') ->
                  (disable_ocio ext = true -> config_ (impl w') = None)
                  /\ (config_ (impl w') = None ->
                      map name (colorspaces (impl w')) = map name fallback_entries)
                  /\ (OIIO_SITE_spi ext = false -> config_ (impl w') <> None ->
                      Forall (fun cs => In (m_flags cs) classified_words)
                        (colorspaces (impl w')))).
  { intros w0 H0 Hr. destruct (inventory_fallback_spec w0) as (w2 & E & Hk & HF).
    rewrite E in Hr. injection Hr as _ <-.
    rewrite H0 in HF. cbn [app] in HF.
    split; [auto|]. split; [|congruence].
    intros _. exact (Forall2_classified_names _ _ _ HF). }
  destruct (config_ (impl w)) as [config|] eqn:Ec.
  2: { rewrite inventory_disabled in Hrun by (left; exact Ec). eauto. }
  destruct (disable_ocio ext) eqn:Ed.
  { rewrite inventory_disabled in Hrun by (right; exact Ed). eauto. }
  revert Hrun. unfold inventory.
  unfold bind at 1. unfold get_impl at 1. rewrite Ec, Ed.
  intros H. apply bind_Some in H as (done & w1 & H1 & H).
  apply bind_Some in H1 as (nonraw & w2 & En & H1).
  apply inventory_nonraw_pure in En as ->.
  destruct nonraw.
  - apply bind_Some in H1 as (u1 & w3 & Ea & H1).
    apply bind_Some in H1 as (u2 & w4 & Ecl & H1).
    apply bind_Some in H1 as (u3 & w5 & Esl & H1).
    injection H1 as <- <-. injection H as <- <-.
    apply inventory_add_spec in Ea as (added & Ha & HF0 & Hk3).
    rewrite Hempty in Ha. cbn in Ha.
    destruct (classify_colorspaces_spec ext w3)
      as (l' & w4' & Ecl' & HF & Hl & Hk4).
    rewrite Ecl' in Ecl. injection Ecl as _ <-.
    assert (Hw5 : colorspaces (impl w5) = colorspaces (impl w4')
                  /\ config_ (impl w5) = config_ (impl w4')).
    { destruct (cfg_getColorSpace config "scene_linear");
        injection Esl as _ <-; split; reflexivity. }
    destruct Hw5 as [Hc5 Hk5].
    rewrite Hc5, Hk5, Hk4, Hk3, Ec, Hl.
    split; [discriminate|]. split; [discriminate|]. intros Hspi _.
    rewrite Hspi in HF.
    apply (Forall2_classified_words _ _ HF). rewrite Ha.
    eapply Forall_impl; [exact HF0|].
    intros cs ->. cbn. tauto.
  - injection H1 as <- <-. eauto.
Qed.

(** One step of [identify_builtin_equivalents] always completes; it keeps
    the configuration and relates the registry entry by entry. *)
Lemma identify_one_spec (spi : bool) (builtin : string) (flagval : Z)
    (get_alias : Impl -> string) (set_alias : string -> Impl -> Impl) (w : World) :
  In flagval classification_steps ->
  (forall s i, colorspaces (set_alias s i) = colorspaces i
               /\ config_ (set_alias s i) = config_ i) ->
  exists w',
    identify_one ext builtin flagval get_alias set_alias w = Some (tt, w')
    /\ config_ (impl w') = config_ (impl w)
    /\ Forall2 (classified_from spi) (colorspaces (impl w)) (colorspaces (impl w')).
Proof.
  intros Hg Hset. unfold identify_one. unfold bind at 1. unfold get_impl at 1.
  destruct (IdentifyBuiltinColorSpace ext (impl w) builtin) as [n|].
  2: { exists w. repeat split. apply Forall2_classified_refl. }
  unfold find. destruct (find_in (colorspaces (impl w)) n) as [cs|] eqn:Ef.
  2: { exists w. repeat split. apply Forall2_classified_refl. }
  eexists. split; [reflexivity|]. cbn.
  destruct (Hset (if empty (get_alias (impl w)) then name cs else get_alias (impl w))
              (impl w)) as [Hc Hk].
  split; [exact Hk|]. rewrite Hc.
  apply (replace_found_classified spi n cs); [exact Ef|].
  split; [reflexivity|]. exists flagval.
  split; [apply site_steps_incl; exact Hg|reflexivity].
Qed.

Lemma identify_builtin_equivalents_spec (w : World) :
  exists w',
    identify_builtin_equivalents ext w = Some (tt, w')
    /\ config_ (impl w') = config_ (impl w)
    /\ map name (colorspaces (impl w')) = map name (colorspaces (impl w))
    /\ (Forall (fun cs => In (m_flags cs) classified_words) (colorspaces (impl w)) ->
        Forall (fun cs => In (m_flags cs) classified_words) (colorspaces (impl w'))).
Proof.
  unfold identify_builtin_equivalents.
  destruct (disable_builtin_configs ext).
  { exists w. repeat split. auto. }
  destruct (identify_one_spec false "srgb_tx" is_srgb srgb_alias set_srgb_alias w)
    as (w1 & E1 & K1 & F1); [cbn; tauto|intros; split; reflexivity|].
  destruct (identify_one_spec false "lin_srgb"
              (Z.lor is_lin_srgb is_linear_response)
              lin_srgb_alias set_lin_srgb_alias w1)
    as (w2 & E2 & K2 & F2); [cbn; tauto|intros; split; reflexivity|].
  destruct (identify_one_spec false "ACEScg" (Z.lor is_ACEScg is_linear_response)
              ACEScg_alias set_ACEScg_alias w2)
    as (w3 & E3 & K3 & F3); [cbn; tauto|intros; split; reflexivity|].
  exists w3. rewrite (bind_eq _ _ _ _ _ E1), (bind_eq _ _ _ _ _ E2).
  split; [exact E3|]. split; [congruence|]. split.
  - rewrite (Forall2_classified_names _ _ _ F3),
      (Forall2_classified_names _ _ _ F2).
    exact (Forall2_classified_names _ _ _ F1).
  - intros H. apply (Forall2_classified_words _ _ F3).
    apply (Forall2_classified_words _ _ F2).
    apply (Forall2_classified_words _ _ F1). exact H.
Qed.

(** The loading steps of [init] do not touch the registry. *)
Lemma try_load_registry (r : OcioResult OcioConfig) (on_ok : OcioConfig -> M unit)
    (prefix : string) (u : unit) (w w' : World) :
  (forall c w w', on_ok c w = Some (tt, w') ->
                  colorspaces (impl w') = colorspaces (impl w)) ->
  try_load r on_ok prefix w = Some (u, w') ->
  colorspaces (impl w') = colorspaces (impl w).
Proof.
  intros Hok. destruct u. destruct r as [c|what|]; cbn.
  - apply Hok.
  - intros [= <-]. reflexivity.
  - discriminate.
Qed.

(** The registry that [init] leaves behind. *)
Lemma init_spec (filename : string) (ok : bool) (w w' : World) :
  colorspaces (impl w) = [] ->
  init ext filename w = Some (ok, w') ->
  (disable_ocio ext = true -> config_ (impl w') = None)
  /\ (config_ (impl w') = None ->
      map name (colorspaces (impl w')) = map name fallback_entries)
  /\ (OIIO_SITE_spi ext = false -> config_ (impl w') <> None ->
      Forall (fun cs => In (m_flags cs) classified_words) (colorspaces (impl w'))).
Proof.
  intros Hempty Hrun. unfold init in Hrun.
  apply bind_Some in Hrun as (u1 & w1 & E1 & Hrun).
  apply try_load_registry in E1; [|intros c x x' [= <-]; reflexivity].
  apply bind_Some in Hrun as (u2 & w2 & E2 & Hrun).
  apply try_load_registry in E2; [|intros c x x' [= <-]; reflexivity].
  apply bind_Some in Hrun as (u3 & w3 & E3 & Hrun).
  assert (H3 : colorspaces (impl w3) = colorspaces (impl w2)).
  { destruct (contains_newline _).
    - apply try_load_registry in E3; [exact E3|intros c x x' [= <-]; reflexivity].
    - injection E3 as _ <-. reflexivity. }
  apply bind_Some in Hrun as (u4 & w4 & E4 & Hrun).
  assert (H4 : colorspaces (impl w4) = colorspaces (impl w3)).
  { destruct (_ && _)%bool.
    - injection E4 as _ <-. reflexivity.
    - apply try_load_registry in E4; [exact E4|intros c x x' [= <-]; reflexivity]. }
  apply bind_Some in Hrun as (i5 & w5 & E5 & Hrun). injection E5 as <- <-.
  apply bind_Some in Hrun as (u6 & w6 & E6 & Hrun).
  assert (H6 : colorspaces (impl w6) = colorspaces (impl w4)).
  { destruct (config_ (impl w4)).
    - injection E6 as _ <-. reflexivity.
    - destruct (GetCurrentConfig ext) as [cur| |]; try discriminate.
      apply bind_Some in E6 as (u7 & w7 & E7 & E6). injection E6 as _ <-.
      destruct (Nat.eqb _ 1).
      + destruct (CreateFromFile ext "ocio://default"); try discriminate.
        injection E7 as _ <-. reflexivity.
      + injection E7 as _ <-. reflexivity. }
  apply bind_Some in Hrun as (i8 & w8 & E8 & Hrun). injection E8 as <- <-.
  apply bind_Some in Hrun as (u9 & w9 & E9 & Hrun).
  apply bind_Some in Hrun as (u10 & w10 & E10 & Hrun).
  injection Hrun as _ <-.
  apply inventory_spec in E9; [|congruence].
  destruct E9 as (Hd & Hn & Hf).
  destruct (identify_builtin_equivalents_spec w9) as (w' & E & Hk & Hl & HF).
  rewrite E in E10. injection E10 as _ <-.
  rewrite Hk, Hl. repeat split; auto.
Qed.

Lemma try_load_total (r : OcioResult OcioConfig) (on_ok : OcioConfig -> M unit)
    (prefix : string) (w : World) :
  r <> ThrewOther ->
  (forall c w, exists w', on_ok c w = Some (tt, w')) ->
  exists w', try_load r on_ok prefix w = Some (tt, w').
Proof.
  intros Hr Hok. destruct r as [c|what|]; cbn.
  - apply Hok.
  - eexists. reflexivity.
  - congruence.
Qed.

(** With the engine disabled, [init] completes when the two calls outside
    every [try] block return and the loaders inside one fail only with
    [OCIO::Exception]. *)
Lemma init_disabled_total (filename : string) (w : World) (c0 cur : OcioConfig) :
  disable_ocio ext = true ->
  CreateFromFile ext "ocio://default" = Returned c0 ->
  GetCurrentConfig ext = Returned cur ->
  (forall f, CreateFromFile ext f <> ThrewOther) ->
  (forall s, CreateFromStream ext s <> ThrewOther) ->
  build_interop_identities_config ext <> ThrewOther ->
  exists ok w', init ext filename w = Some (ok, w').
Proof.
  intros Hd H0 Hcur Hf Hs Hb. unfold init.
  destruct (try_load_total (CreateFromFile ext "ocio://default")
              (fun c => modify_impl (set_builtinconfig_ (Some c)))
              "Error making OCIO built-in config: " w (Hf _))
    as (w1 & E1); [intros; eexists; reflexivity|].
  rewrite (bind_eq _ _ _ _ _ E1). clear E1.
  destruct (try_load_total (build_interop_identities_config ext)
              (fun c => modify_impl (set_interopconfig_ (Some c)))
              "Error making OCIO interop identities config: " w1 Hb)
    as (w2 & E2); [intros; eexists; reflexivity|].
  rewrite (bind_eq _ _ _ _ _ E2). clear E2.
  cbv zeta.
  match goal with
  | |- context [bind ?m _ w2] =>
      assert (E3 : exists w3, m w2 = Some (tt, w3))
  end.
  { destruct (contains_newline _).
    - apply try_load_total; [apply Hs|intros; eexists; reflexivity].
    - eexists. reflexivity. }
  destruct E3 as (w3 & E3). rewrite (bind_eq _ _ _ _ _ E3). clear E3.
  match goal with
  | |- context [bind ?m _ w3] =>
      assert (E4 : exists w4, m w3 = Some (tt, w4))
  end.
  { destruct (_ && _)%bool.
    - eexists. reflexivity.
    - apply try_load_total; [apply Hf|intros; eexists; reflexivity]. }
  destruct E4 as (w4 & E4). rewrite (bind_eq _ _ _ _ _ E4). clear E4.
  unfold bind at 1. unfold get_impl at 1.
  match goal with
  | |- context [bind ?m _ w4] =>
      assert (E6 : exists w6, m w4 = Some (tt, w6))
  end.
  { destruct (config_ (impl w4)); [eexists; reflexivity|].
    rewrite Hcur.
    destruct (Nat.eqb _ 1); [rewrite H0|]; eexists; reflexivity. }
  destruct E6 as (w6 & E6). rewrite (bind_eq _ _ _ _ _ E6). clear E6.
  unfold bind at 1. unfold get_impl at 1.
  destruct (inventory_fallback_spec w6) as (w7 & E7 & _).
  rewrite <- (inventory_disabled w6) in E7 by (right; exact Hd).
  rewrite (bind_eq _ _ _ _ _ E7).
  destruct (identify_builtin_equivalents_spec w7) as (w8 & E8 & _).
  rewrite (bind_eq _ _ _ _ _ E8).
  eexists _, _. reflexivity.
Qed.


Lemma empty_false (s : string) : s <> "" -> empty s = false.
Proof. destruct s; [congruence|reflexivity]. Qed.

Lemma resolve_needs_config (i : Impl) (name_ : string) :
  config_ i = None -> resolve ext i name_ = None.
Proof. unfold resolve. intros ->. reflexivity. Qed.

End ConfigFacts.

(** C3.  In a [ColorConfig] constructed with the engine disabled, [resolve]
    does not complete for any name: [inventory] has reset the configuration
    pointer and [resolve] dereferences it first thing. *)
Theorem resolve_dereferences_null_config (ext : Externals) (filename : string)
    (requested created : Z) (ok : bool) (w : World) (name_ : string) :
  disable_ocio ext = true ->
  ColorConfig_ctor ext filename requested created = Some (ok, w) ->
  resolve ext (impl w) name_ = None.
Proof.
  intros Hd Hrun. apply resolve_needs_config.
  destruct (init_spec ext filename ok (fresh_world requested created) w eq_refl
              Hrun) as (H & _).
  exact (H Hd).
Qed.

(** [resolve("linear")] after [ColorConfig config;] under OIIO_DISABLE_OCIO. *)
Lemma resolve_dereferences_null_config_witness :
  ColorConfig_ctor (Example.engine true) "" 0 0
  = Some (true, Example.fallback_world)
  /\ resolve (Example.engine true) (impl Example.fallback_world) "linear" = None.
Proof.
  assert (E : ColorConfig_ctor (Example.engine true) "" 0 0
              = Some (true, Example.fallback_world)) by (vm_compute; reflexivity).
  split; [exact E|].
  exact (resolve_dereferences_null_config (Example.engine true) "" 0 0 true
           Example.fallback_world "linear" eq_refl E).
Defined.

(** C5 (as stated) fails: with the engine disabled the constructor leaves
    eleven color spaces, not ten. *)
Lemma fallback_count_is_not_ten :
  match ColorConfig_ctor (Example.engine true) "" 0 0 with
  | Some (_, w) => getNumColorSpaces (impl w) <> 10
  | None => False
  end.
Proof. vm_compute. discriminate. Qed.

(** C5 (amended).  With the engine disabled, construction completes when
    the engine returns its current configuration and loads "ocio://default"
    (the two calls that [init] makes outside every [try] block) and its
    loaders otherwise fail only with [OCIO::Exception]; then no
    configuration is kept, the registry holds the fallback names in the
    order of their registration and [getNumColorSpaces()] is 11.  This holds
    for every file name, every build and whatever the two uninitialised
    counters start with. *)
Theorem fallback_registry_has_eleven (ext : Externals) (filename : string)
    (requested created : Z) (c0 cur : OcioConfig) :
  disable_ocio ext = true ->
  CreateFromFile ext "ocio://default" = Returned c0 ->
  GetCurrentConfig ext = Returned cur ->
  (forall f, CreateFromFile ext f <> ThrewOther) ->
  (forall s, CreateFromStream ext s <> ThrewOther) ->
  build_interop_identities_config ext <> ThrewOther ->
  exists ok w,
    ColorConfig_ctor ext filename requested created = Some (ok, w)
    /\ config_ (impl w) = None
    /\ map name (colorspaces (impl w))
       = [ "linear"; "scene_linear"; "default"; "rgb"; "RGB"; "lin_rec709_scene";
           "lin_srgb"; "lin_rec709"; "srgb_rec709_scene"; "sRGB"; "Rec709" ]
    /\ getNumColorSpaces (impl w) = 11.
Proof.
  intros Hd H0 Hcur Hf Hs Hb.
  destruct (init_disabled_total ext filename (fresh_world requested created)
              c0 cur Hd H0 Hcur Hf Hs Hb) as (ok & w & E).
  exists ok, w. split; [exact E|].
  destruct (init_spec ext filename ok (fresh_world requested created) w eq_refl E)
    as (H1 & H2 & _).
  split; [exact (H1 Hd)|].
  specialize (H2 (H1 Hd)). split; [exact H2|].
  unfold getNumColorSpaces.
  rewrite <- (length_map name), H2. reflexivity.
Qed.

Lemma fallback_registry_has_eleven_witness :
  exists ok w,
    ColorConfig_ctor (Example.engine true) "missing.ocio" 41 (-7) = Some (ok, w)
    /\ config_ (impl w) = None
    /\ map name (colorspaces (impl w))
       = [ "linear"; "scene_linear"; "default"; "rgb"; "RGB"; "lin_rec709_scene";
           "lin_srgb"; "lin_rec709"; "srgb_rec709_scene"; "sRGB"; "Rec709" ]
    /\ getNumColorSpaces (impl w) = 11.
Proof.
  apply (fallback_registry_has_eleven (Example.engine true) "missing.ocio" 41 (-7)
           Example.live_config Example.live_config).
  - reflexivity.
  - reflexivity.
  - reflexivity.
  - intros f. discriminate.
  - intros s. discriminate.
  - discriminate.
Defined.




(** ** Color interop ids *)

(** C9.  In a [ColorConfig] constructed with the engine disabled,
    [get_cicp] and [get_color_interop_id] do not complete for any non-empty
    name, "srgb_rec709_display" among them: [inventory] has reset the
    configuration pointer and [get_color_interop_id] dereferences it right
    after the test for the empty name. *)
Theorem get_cicp_dereferences_null_config (ext : Externals) (filename : string)
    (requested created : Z) (ok : bool) (w : World) (strict : bool)
    (colorspace : string) :
  disable_ocio ext = true ->
  ColorConfig_ctor ext filename requested created = Some (ok, w) ->
  colorspace <> "" ->
  get_color_interop_id ext (impl w) colorspace strict = None
  /\ get_cicp ext strict (impl w) colorspace = None.
Proof.
  intros Hd Hrun Hne.
  destruct (init_spec ext filename ok (fresh_world requested created) w eq_refl
              Hrun) as (H & _).
  assert (Hid : get_color_interop_id ext (impl w) colorspace strict = None).
  { unfold get_color_interop_id.
    rewrite (empty_false colorspace Hne), (H Hd). reflexivity. }
  split; [exact Hid|]. unfold get_cicp. rewrite Hid. reflexivity.
Qed.

(** [get_cicp("srgb_rec709_display")] after [ColorConfig config;] under
    OIIO_DISABLE_OCIO. *)
Lemma get_cicp_dereferences_null_config_witness :
  ColorConfig_ctor (Example.engine true) "" 0 0
  = Some (true, Example.fallback_world)
  /\ get_color_interop_id (Example.engine true) (impl Example.fallback_world)
       "srgb_rec709_display" false = None
  /\ get_cicp (Example.engine true) false (impl Example.fallback_world)
       "srgb_rec709_display" = None.
Proof.
  assert (E : ColorConfig_ctor (Example.engine true) "" 0 0
              = Some (true, Example.fallback_world)) by (vm_compute; reflexivity).
  split; [exact E|].
  apply (get_cicp_dereferences_null_config (Example.engine true) "" 0 0 true
           Example.fallback_world false "srgb_rec709_display" eq_refl E).
  discriminate.
Defined.

(** With a configuration loaded, [get_cicp("srgb_rec709_display")] is
    {1, 13, 1, 1}: the interop id of that name is the name itself, whether
    the live configuration does not know the name and the interop identities
    configuration has a color space of that name, or the live configuration
    has it as a color space that is not data and carries no other interop id
    of its own; and the first entry of the static table stores that code
    for it. *)
Theorem get_cicp_srgb_rec709_display (ext : Externals) (strict : bool) (i : Impl)
    (config : OcioConfig) :
  config_ i = Some config ->
  match cfg_getColorSpace config "srgb_rec709_display" with
  | None =>
      exists ic cs,
        interopconfig_ i = Some ic
        /\ cfg_getColorSpace ic "srgb_rec709_display" = Some cs
        /\ cs_getName cs = "srgb_rec709_display"
  | Some cs =>
      cs_isData cs = false
      /\ (OCIO_VERSION_HEX ext < MAKE_OCIO_VERSION_HEX 2 5 0
          \/ cs_getInteropID cs = ""
          \/ cs_getInteropID cs = "srgb_rec709_display")
  end ->
  get_color_interop_id ext i "srgb_rec709_display" strict
    = Some "srgb_rec709_display"
  /\ cicp_of_interop_id "srgb_rec709_display" = [1; 13; 1; 1]
  /\ get_cicp ext strict i "srgb_rec709_display" = Some [1; 13; 1; 1].
Proof.
  intros Hc H.
  assert (Hid : get_color_interop_id ext i "srgb_rec709_display" strict
                = Some "srgb_rec709_display").
  { unfold get_color_interop_id. cbn [empty]. rewrite Hc. cbn.
    destruct (cfg_getColorSpace config "srgb_rec709_display") as [cs|].
    - destruct H as (Hd & Hv). rewrite Hd.
      assert (E : (if negb (empty (if Z.leb (MAKE_OCIO_VERSION_HEX 2 5 0)
                                         (OCIO_VERSION_HEX ext)
                                    then cs_getInteropID cs else ""))
                   then Some (if Z.leb (MAKE_OCIO_VERSION_HEX 2 5 0)
                                  (OCIO_VERSION_HEX ext)
                              then cs_getInteropID cs else "")
                   else Some "srgb_rec709_display")
                  = Some "srgb_rec709_display").
      { destruct Hv as [Hv | [Hv | Hv]].
        - apply Z.leb_gt in Hv. rewrite Hv. reflexivity.
        - rewrite Hv. destruct (Z.leb _ _); reflexivity.
        - rewrite Hv. destruct (Z.leb _ _); reflexivity. }
      exact E.
    - destruct H as (ic & cs & Hi & Hcs & Hn). rewrite Hi. cbn.
      rewrite Hcs, Hn. reflexivity. }
  split; [exact Hid|]. split; [reflexivity|].
  unfold get_cicp. rewrite Hid. reflexivity.
Qed.

(** The example configuration does not know the name; the interop
    identities configuration does. *)
Lemma get_cicp_srgb_rec709_display_witness :
  get_color_interop_id (Example.engine false) (impl Example.enabled_world)
    "srgb_rec709_display" false = Some "srgb_rec709_display"
  /\ cicp_of_interop_id "srgb_rec709_display" = [1; 13; 1; 1]
  /\ get_cicp (Example.engine false) false (impl Example.enabled_world)
       "srgb_rec709_display" = Some [1; 13; 1; 1].
Proof.
  apply (get_cicp_srgb_rec709_display (Example.engine false) false
           (impl Example.enabled_world) Example.live_config).
  - vm_compute; reflexivity.
  - exists Example.interop_config,
      (Example.space "srgb_rec709_display" false []).
    repeat split; vm_compute; reflexivity.
Defined.

(** ** Pixel kernel *)

Lemma fold_left_invariant {S X} (f : S -> X -> S) (I : S -> Prop) (l : list X)
    (s : S) :
  I s -> (forall s x, In x l -> I s -> I (f s x)) -> I (fold_left f l s).
Proof.
  revert s. induction l as [|x r IH]; intros s Hs Hf; [exact Hs|].
  cbn. apply IH.
  - apply Hf; [left; reflexivity|exact Hs].
  - intros s' x' Hin. apply Hf. right. exact Hin.
Qed.

(** If processing [x0] establishes [P] and every other element keeps it,
    [P] holds after a loop over a list that contains [x0]. *)
Lemma fold_left_establish {S X} `{EqDecision X} (f : S -> X -> S)
    (I P : S -> Prop) (x0 : X) (l : list X) (s : S) :
  In x0 l -> I s ->
  (forall s x, I s -> I (f s x)) ->
  (forall s, I s -> P (f s x0)) ->
  (forall s x, x <> x0 -> I s -> P s -> P (f s x)) ->
  P (fold_left f l s).
Proof.
  intros Hin Hs HI Hest Hkeep.
  assert (G : forall l s, I s -> (In x0 l \/ P s) -> P (fold_left f l s)).
  { clear l s Hin Hs. induction l as [|x r IH]; intros s Hs [Hin | HP].
    - destruct Hin.
    - exact HP.
    - cbn. apply IH; [apply HI; exact Hs|].
      destruct (decide (x = x0)) as [-> | Hne].
      + right. apply Hest. exact Hs.
      + destruct Hin as [-> | Hin]; [congruence|left; exact Hin].
    - cbn. apply IH; [apply HI; exact Hs|].
      destruct (decide (x = x0)) as [-> | Hne].
      + right. apply Hest. exact Hs.
      + right. apply Hkeep; assumption. }
  apply G; [exact Hs|left; exact Hin].
Qed.

Lemma In_range (b e x : Z) : In x (range b e) <-> b <= x < e.
Proof.
  unfold range. rewrite in_map_iff. split.
  - intros (n & <- & Hn). apply in_seq in Hn. lia.
  - intros H. exists (Z.to_nat (x - b)). split; [lia|].
    apply in_seq. lia.
Qed.

Section KernelFacts.
Context {F : Type} {ops : FloatOps F}.
Variable convert_type : TypeDesc -> F -> F.

Lemma write_other_buffer (st : Store) (b b' : nat) (x y z c : Z) (v : F) :
  b' <> b -> write convert_type st b x y z c v b' = st b'.
Proof.
  intros H. unfold write, upd. destruct (Nat.eqb_spec b' b); [contradiction|].
  reflexivity.
Qed.

Lemma write_format (st : Store) (b b' : nat) (x y z c : Z) (v : F) :
  format (write convert_type st b x y z c v b') = format (st b').
Proof.
  unfold write, upd. destruct (Nat.eqb_spec b' b) as [-> |]; reflexivity.
Qed.

Lemma write_other_channel (st : Store) (b b' : nat) (x y z c x' y' z' c' : Z)
    (v : F) :
  c' <> c ->
  pixels (write convert_type st b x y z c v b') x' y' z' c'
  = pixels (st b') x' y' z' c'.
Proof.
  intros H. unfold write, upd. destruct (Nat.eqb_spec b' b) as [-> |]; [|reflexivity].
  cbn. destruct (Z.eqb_spec c' c); [contradiction|].
  rewrite !andb_false_r. reflexivity.
Qed.

Lemma write_other_place (st : Store) (b : nat) (x y z c x' y' z' c' : Z) (v : F) :
  (x', y', z', c') <> (x, y, z, c) ->
  pixels (write convert_type st b x y z c v b) x' y' z' c'
  = pixels (st b) x' y' z' c'.
Proof.
  intros H. unfold write, upd. rewrite Nat.eqb_refl. cbn.
  destruct (Z.eqb_spec x' x), (Z.eqb_spec y' y), (Z.eqb_spec z' z),
    (Z.eqb_spec c' c); cbn; try reflexivity.
  subst. contradiction.
Qed.

Lemma write_same_place (st : Store) (b : nat) (x y z c : Z) (v : F) :
  pixels (write convert_type st b x y z c v b) x y z c
  = convert_type (format (st b)) v.
Proof.
  unfold write, upd. rewrite Nat.eqb_refl. cbn. rewrite !Z.eqb_refl. reflexivity.
Qed.

(** Channels at or above [channelsToCopy] survive the store loop. *)
Lemma store_loop_keeps_channel (R : nat) (channelsToCopy j k : Z)
    (rows : list (Z * vfloat4)) (st : Store) (b : nat) (x y z c : Z) :
  channelsToCopy <= c ->
  pixels (fold_left
            (fun st '(x, dstPtr) =>
               fold_left (fun st c => write convert_type st R x j k c (extract c dstPtr))
                 (range 0 channelsToCopy) st)
            rows st b) x y z c
  = pixels (st b) x y z c.
Proof.
  intros Hc.
  apply (fold_left_invariant _
           (fun s => pixels (s b) x y z c = pixels (st b) x y z c));
    [reflexivity|].
  intros s [x' p] _ Hs.
  apply (fold_left_invariant _
           (fun s => pixels (s b) x y z c = pixels (st b) x y z c));
    [exact Hs|].
  intros s' c' Hin Hs'. apply In_range in Hin.
  rewrite write_other_channel by lia. exact Hs'.
Qed.

Lemma store_loop_other_buffer (R : nat) (channelsToCopy j k : Z)
    (rows : list (Z * vfloat4)) (st : Store) (b : nat) :
  b <> R ->
  fold_left
    (fun st '(x, dstPtr) =>
       fold_left (fun st c => write convert_type st R x j k c (extract c dstPtr))
         (range 0 channelsToCopy) st)
    rows st b
  = st b.
Proof.
  intros Hb.
  apply (fold_left_invariant _ (fun s => s b = st b)); [reflexivity|].
  intros s [x' p] _ Hs.
  apply (fold_left_invariant _ (fun s => s b = st b)); [exact Hs|].
  intros s' c' _ Hs'. rewrite write_other_buffer by exact Hb. exact Hs'.
Qed.

Lemma store_loop_format (R : nat) (channelsToCopy j k : Z)
    (rows : list (Z * vfloat4)) (st : Store) (b : nat) :
  format (fold_left
            (fun st '(x, dstPtr) =>
               fold_left (fun st c => write convert_type st R x j k c (extract c dstPtr))
                 (range 0 channelsToCopy) st)
            rows st b)
  = format (st b).
Proof.
  apply (fold_left_invariant _ (fun s => format (s b) = format (st b)));
    [reflexivity|].
  intros s [x' p] _ Hs.
  apply (fold_left_invariant _ (fun s => format (s b) = format (st b)));
    [exact Hs|].
  intros s' c' _ Hs'. rewrite write_format. exact Hs'.
Qed.

Lemma write_elsewhere (st : Store) (b b' : nat) (x y z c x' y' z' c' : Z) (v : F) :
  (x', y', z', c') <> (x, y, z, c) ->
  pixels (write convert_type st b x y z c v b') x' y' z' c'
  = pixels (st b') x' y' z' c'.
Proof.
  intros H. destruct (Nat.eq_dec b' b) as [-> | Hb].
  - apply write_other_place. exact H.
  - rewrite write_other_buffer by exact Hb. reflexivity.
Qed.

Section Scanline.
Variables (R A : nat) (processor : @Processor F) (unpremult : bool)
          (channelsToCopy : Z) (roi : ROI).

Abbreviation row := (colorconvert_scanline convert_type R A processor unpremult
                       channelsToCopy roi).

(** The leftover loop of one scanline. *)
Abbreviation leftover_loop j k :=
  (fold_left
     (fun st x =>
        fold_left (fun st c =>
                     write convert_type st R x j k c
                       (f_add f_half (f_mul f_ten (read st A x j k c))))
          (range channelsToCopy (chend roi)) st)
     (range (xbegin roi) (xend roi))).

Lemma leftover_other_buffer (j k : Z) (st : Store) (b : nat) :
  b <> R -> leftover_loop j k st b = st b.
Proof.
  intros Hb.
  apply (fold_left_invariant _ (fun s => s b = st b)); [reflexivity|].
  intros s x' _ Hs.
  apply (fold_left_invariant _ (fun s => s b = st b)); [exact Hs|].
  intros s' c' _ Hs'. rewrite write_other_buffer by exact Hb. exact Hs'.
Qed.

Lemma leftover_format (j k : Z) (st : Store) (b : nat) :
  format (leftover_loop j k st b) = format (st b).
Proof.
  apply (fold_left_invariant _ (fun s => format (s b) = format (st b)));
    [reflexivity|].
  intros s x' _ Hs.
  apply (fold_left_invariant _ (fun s => format (s b) = format (st b)));
    [exact Hs|].
  intros s' c' _ Hs'. rewrite write_format. exact Hs'.
Qed.

Lemma row_other_buffer (st : Store) (j k : Z) (b : nat) :
  b <> R -> row st j k b = st b.
Proof.
  intros Hb. unfold colorconvert_scanline. cbv zeta.
  destruct (_ && _)%bool.
  - rewrite leftover_other_buffer by exact Hb.
    apply store_loop_other_buffer. exact Hb.
  - apply store_loop_other_buffer. exact Hb.
Qed.

Lemma row_format (st : Store) (j k : Z) (b : nat) :
  format (row st j k b) = format (st b).
Proof.
  unfold colorconvert_scanline. cbv zeta.
  destruct (_ && _)%bool.
  - rewrite leftover_format. apply store_loop_format.
  - apply store_loop_format.
Qed.

(** A scanline writes only pixels of its own row. *)
Lemma row_other_row (st : Store) (j k : Z) (b : nat) (x y z c : Z) :
  j <> y \/ k <> z ->
  pixels (row st j k b) x y z c = pixels (st b) x y z c.
Proof.
  intros Hjk.
  assert (Hne : forall x' c', (x, y, z, c) <> (x', j, k, c')).
  { intros x' c' [= _ <- <- _]. destruct Hjk; congruence. }
  unfold colorconvert_scanline. cbv zeta.
  set (P := fun s : Store => pixels (s b) x y z c = pixels (st b) x y z c).
  assert (Hstore :
    P (fold_left
         (fun st '(x, dstPtr) =>
            fold_left (fun st c => write convert_type st R x j k c (extract c dstPtr))
              (range 0 channelsToCopy) st)
         (zip (range (xbegin roi) (xend roi))
            (transform_scanline unpremult_pixel processor unpremult
               (map (fun x => load_pixel st A channelsToCopy x j k)
                  (range (xbegin roi) (xend roi))))) st)).
  { apply (fold_left_invariant _ P); [reflexivity|].
    intros s [x' p] _ Hs. apply (fold_left_invariant _ P); [exact Hs|].
    intros s' c' _ Hs'. unfold P. rewrite write_elsewhere by apply Hne.
    exact Hs'. }
  destruct (_ && _)%bool; [|exact Hstore].
  apply (fold_left_invariant _ P); [exact Hstore|].
  intros s x' _ Hs. apply (fold_left_invariant _ P); [exact Hs|].
  intros s' c' _ Hs'. unfold P. rewrite write_elsewhere by apply Hne.
  exact Hs'.
Qed.

(** In place, a scanline leaves the channels beyond the processed ones. *)
Lemma row_in_place_keeps (st : Store) (j k : Z) (b : nat) (x y z c : Z) :
  R = A -> channelsToCopy <= c ->
  pixels (row st j k b) x y z c = pixels (st b) x y z c.
Proof.
  intros -> Hc. unfold colorconvert_scanline. cbv zeta.
  rewrite Nat.eqb_refl, andb_false_r.
  apply store_loop_keeps_channel. exact Hc.
Qed.

(** With distinct buffers, a scanline writes 0.5 + 10 * source into each
    leftover channel of its pixels. *)
Lemma row_leftover (st : Store) (x y z c : Z) :
  R <> A ->
  xbegin roi <= x < xend roi ->
  channelsToCopy <= c < chend roi ->
  pixels (row st y z R) x y z c
  = convert_type (format (st R))
      (f_add f_half (f_mul f_ten (pixels (st A) x y z c))).
Proof.
  intros Hne Hx Hc. unfold colorconvert_scanline. cbv zeta.
  assert (Hcond : (Z.ltb channelsToCopy (chend roi) && negb (Nat.eqb R A))%bool
                  = true).
  { apply andb_true_intro. split; [apply Z.ltb_lt; lia|].
    apply negb_true_iff. apply Nat.eqb_neq. exact Hne. }
  rewrite Hcond.
  set (s1 := fold_left _ (zip _ _) st).
  set (I := fun s : Store => s A = st A /\ format (s R) = format (st R)).
  set (V := convert_type (format (st R))
              (f_add f_half (f_mul f_ten (pixels (st A) x y z c)))).
  set (P := fun s : Store => pixels (s R) x y z c = V).
  assert (HI1 : I s1).
  { split.
    - apply store_loop_other_buffer. congruence.
    - apply store_loop_format. }
  assert (Hinner_I : forall x' s, I s ->
            I (fold_left (fun st c =>
                 write convert_type st R x' y z c
                   (f_add f_half (f_mul f_ten (read st A x' y z c))))
               (range channelsToCopy (chend roi)) s)).
  { intros x' s Hs. apply (fold_left_invariant _ I); [exact Hs|].
    intros s' c' _ [H1 H2]. split.
    - rewrite write_other_buffer by congruence. exact H1.
    - rewrite write_format. exact H2. }
  apply (fold_left_establish _ I P x); [apply In_range; exact Hx|exact HI1| | |].
  - intros s x' Hs. apply Hinner_I. exact Hs.
  - intros s Hs.
    apply (fold_left_establish _ I P c); [apply In_range; exact Hc|exact Hs| | |].
    + intros s' c' [H1 H2]. split.
      * rewrite write_other_buffer by congruence. exact H1.
      * rewrite write_format. exact H2.
    + intros s' [H1 H2]. unfold P, V, read.
      rewrite write_same_place, H1, H2. reflexivity.
    + intros s' c' Hc' _ HP. unfold P.
      rewrite write_elsewhere by congruence. exact HP.
  - intros s x' Hx' Hs HP.
    apply (fold_left_invariant _ P); [exact HP|].
    intros s' c' _ HP'. unfold P.
    rewrite write_elsewhere by congruence. exact HP'.
Qed.

End Scanline.

(** C10.  In [colorconvert_impl], when destination and source are the same
    buffer every channel at or beyond the processed ones (the first
    [min(4, roi.nchannels())]) keeps its value everywhere; when they are
    distinct buffers, each leftover channel below [roi.chend] of each pixel
    of the region receives 0.5 + 10 * (the source's value of that channel),
    converted to the destination's pixel type. *)
Theorem leftover_channels (processor : @Processor F) (st : Store) (R A : nat)
    (unpremult : bool) (roi : ROI) (nthreads : Z) (x y z c : Z) :
  Z.min 4 (ROI_nchannels roi) <= c ->
  (R = A ->
   forall b,
     pixels (snd (colorconvert_impl convert_type st R A processor unpremult roi
                    nthreads) b) x y z c
     = pixels (st b) x y z c)
  /\ (R <> A ->
      xbegin roi <= x < xend roi ->
      ybegin roi <= y < yend roi ->
      zbegin roi <= z < zend roi ->
      c < chend roi ->
      pixels (snd (colorconvert_impl convert_type st R A processor unpremult roi
                     nthreads) R) x y z c
      = convert_type (format (st R))
          (f_add f_half (f_mul f_ten (pixels (st A) x y z c)))).
Proof.
  intros Hc. unfold colorconvert_impl. cbv zeta. cbn [snd].
  set (ctc := Z.min 4 (ROI_nchannels roi)) in *.
  set (u := if Z.ltb ctc 4 then false else unpremult).
  split.
  - intros HRA b.
    apply (fold_left_invariant _
             (fun s => pixels (s b) x y z c = pixels (st b) x y z c));
      [reflexivity|].
    intros s k _ Hs.
    apply (fold_left_invariant _
             (fun s => pixels (s b) x y z c = pixels (st b) x y z c));
      [exact Hs|].
    intros s' j _ Hs'.
    rewrite row_in_place_keeps by assumption. exact Hs'.
  - intros HRA Hx Hy Hz Hce.
    set (V := convert_type (format (st R))
                (f_add f_half (f_mul f_ten (pixels (st A) x y z c)))).
    set (I := fun s : Store => s A = st A /\ format (s R) = format (st R)).
    set (P := fun s : Store => pixels (s R) x y z c = V).
    assert (Hrow_I : forall s j k, I s ->
              I (colorconvert_scanline convert_type R A processor u ctc roi s j k)).
    { intros s j k [H1 H2]. split.
      - rewrite row_other_buffer by congruence. exact H1.
      - rewrite row_format. exact H2. }
    assert (Hinner_I : forall k s, I s ->
              I (fold_left
                   (fun st j => colorconvert_scanline convert_type R A processor u
                                  ctc roi st j k)
                   (range (ybegin roi) (yend roi)) s)).
    { intros k s Hs. apply (fold_left_invariant _ I); [exact Hs|].
      intros s' j _ Hs'. apply Hrow_I. exact Hs'. }
    apply (fold_left_establish _ I P z);
      [apply In_range; exact Hz|split; reflexivity| | |].
    + intros s k Hs. apply Hinner_I. exact Hs.
    + intros s Hs.
      apply (fold_left_establish _ I P y); [apply In_range; exact Hy|exact Hs| | |].
      * intros s' j Hs'. apply Hrow_I. exact Hs'.
      * intros s' [H1 H2]. unfold P, V.
        rewrite row_leftover by (try assumption; lia).
        rewrite H1, H2. reflexivity.
      * intros s' j Hj _ HP. unfold P.
        rewrite row_other_row by (left; exact Hj). exact HP.
    + intros s k Hk _ HP.
      apply (fold_left_invariant _ P); [exact HP|].
      intros s' j _ HP'. unfold P.
      rewrite row_other_row by (right; exact Hk). exact HP'.
Qed.


(** C7 (amended).  For a pixel whose alpha is not [>= fltmin] (the smallest
    positive normal float), both kernels divide by 1.0 in place of alpha
    before the transform and multiply by 1.0 after it, so, division and
    multiplication by 1.0 being exact, the pixel enters the transform as it
    was loaded and leaves the re-premultiplication as the transform produced
    it, whatever the transform; for alpha [>= fltmin], the threshold
    included, the color channels are divided by alpha and multiplied back. *)
Theorem unpremult_guard (p q : vfloat4) :
  (f_ge (extract 3 p) fltmin = false ->
   vdiv p ones = p -> vmul q ones = q ->
   unpremult_pixel p = (p, extract 3 p)
   /\ unpremult_pixel_rgba p = (p, extract 3 p)
   /\ premult_pixel q (extract 3 p) = q)
  /\ (f_ge (extract 3 p) fltmin = true ->
      let a := extract 3 p in
      fst (unpremult_pixel p) = vdiv p (V4 a a a f_one)
      /\ premult_pixel q a = vmul q (V4 a a a f_one)).
Proof.
  unfold unpremult_pixel, unpremult_pixel_rgba, premult_pixel, guard_alpha, ones.
  split.
  - intros Hg Hd Hm. rewrite Hg. split; [|split].
    + rewrite Hd. reflexivity.
    + destruct (f_eq f_one f_one); [reflexivity|]. rewrite Hd. reflexivity.
    + exact Hm.
  - intros Hg. cbv zeta. rewrite Hg. split; reflexivity.
Qed.

End KernelFacts.

(** Channel 5 of pixel (1, 1, 0) of the ramp: converted in place, and
    converted into buffer 1. *)
Lemma leftover_channels_witness :
  Z.min 4 (ROI_nchannels Example.region) <= 5
  /\ pixels (snd (colorconvert_impl Example.no_conversion Example.store 0 0
                    Example.gain_processor false Example.region 1) 0%nat) 1 1 0 5
     = pixels (Example.store 0%nat) 1 1 0 5
  /\ pixels (snd (colorconvert_impl Example.no_conversion Example.store 1 0
                    Example.gain_processor false Example.region 1) 1%nat) 1 1 0 5
     = f_add f_half (f_mul f_ten (pixels (Example.store 0%nat) 1 1 0 5)).
Proof.
  assert (H : Z.min 4 (ROI_nchannels Example.region) <= 5) by (vm_compute; discriminate).
  split; [exact H|]. split.
  - exact (proj1 (leftover_channels Example.no_conversion Example.gain_processor
                    Example.store 0 0 false Example.region 1 1 1 0 5 H)
             eq_refl 0%nat).
  - apply (proj2 (leftover_channels Example.no_conversion Example.gain_processor
                    Example.store 1 0 false Example.region 1 1 1 0 5 H)).
    + discriminate.
    + cbn; lia.
    + cbn; lia.
    + cbn; lia.
    + cbn; lia.
Defined.


(** In binary32: a pixel with alpha 0, a pixel with alpha 1, and a
    transformed pixel. *)
Lemma unpremult_guard_witness :
  let p0 : @vfloat4 binary32 := V4 f_half Example.quarter Example.eighth f_zero in
  let p1 : @vfloat4 binary32 := V4 f_half Example.quarter Example.eighth f_one in
  let q : @vfloat4 binary32 := V4 (b32_of_Z 3) f_half f_ten f_zero in
  (unpremult_pixel p0 = (p0, f_zero)
   /\ unpremult_pixel_rgba p0 = (p0, f_zero)
   /\ premult_pixel q f_zero = q)
  /\ (fst (unpremult_pixel p1) = vdiv p1 (V4 f_one f_one f_one f_one)
      /\ premult_pixel q f_one = vmul q (V4 f_one f_one f_one f_one)).
Proof.
  intros p0 p1 q. split.
  - apply (proj1 (unpremult_guard p0 q)); vm_compute; reflexivity.
  - apply (proj2 (unpremult_guard p1 q)). vm_compute; reflexivity.
Defined.

(** C7 (as stated) fails at the threshold itself: for the binary32 pixel
    (0.5, 0.25, 0.125, 2^-126), whose alpha is [<= fltmin], the unpremultiply
    step of either kernel divides the color channels by alpha, giving
    (2^125, 2^124, 2^123, 2^-126). *)
Lemma unpremult_at_threshold_divides :
  let p : @vfloat4 binary32 := V4 f_half Example.quarter Example.eighth fltmin in
  SFleb (extract 3 p) fltmin = true
  /\ fst (unpremult_pixel p) <> p
  /\ fst (unpremult_pixel_rgba p) <> p
  /\ fst (unpremult_pixel p)
     = V4 (binary_normalize 24 128 1 125 false) (binary_normalize 24 128 1 124 false)
          (binary_normalize 24 128 1 123 false) fltmin.
Proof.
  intros p. split; [vm_compute; reflexivity|].
  split; [intros H; vm_compute in H; discriminate|].
  split; [intros H; vm_compute in H; discriminate|].
  vm_compute; reflexivity.
Qed.

(** ** Equivalence of names *)

Lemma iequals_sym (a b : string) : iequals a b = iequals b a.
Proof. unfold iequals. apply String.eqb_sym. Qed.

Lemma iequals_refl (a : string) : iequals a a = true.
Proof. unfold iequals. apply String.eqb_refl. Qed.

Lemma to_lower_empty (s : string) : to_lower s = "" -> s = "".
Proof. destruct s; [reflexivity|discriminate]. Qed.

Lemma iequals_empty (a b : string) : iequals a b = true -> empty a = empty b.
Proof.
  unfold iequals. intros H. apply String.eqb_eq in H.
  destruct a, b; try reflexivity; discriminate.
Qed.

(** X1.  [equivalent] is symmetric in every state of the configuration:
    exchanging the two names gives the same answer, and where one order does
    not complete (a null configuration is dereferenced, or the engine throws
    past the handlers) neither does the other. *)
Theorem equivalent_sym (ext : Externals) (i : Impl) (a b : string) :
  equivalent ext i a b = equivalent ext i b a.
Proof.
  unfold equivalent.
  rewrite (orb_comm (empty a)). destruct (empty b || empty a)%bool; [reflexivity|].
  rewrite (iequals_sym a b). destruct (iequals b a); [reflexivity|].
  destruct (resolve ext i a) as [r1|], (resolve ext i b) as [r2|]; cbn;
    try reflexivity.
  rewrite (orb_comm (empty r1)). destruct (empty r2 || empty r1)%bool; [reflexivity|].
  rewrite (iequals_sym r1 r2). destruct (iequals r2 r1); [reflexivity|].
  destruct (find i r1) as [c1|], (find i r2) as [c2|]; try reflexivity.
  rewrite (Z.lor_comm (Z.land (flags c1) known_mask)).
  rewrite (Z.eqb_sym (flags c1)).
  rewrite (andb_comm (negb (empty (canonical c1)))).
  rewrite (iequals_sym (canonical c1)).
  reflexivity.
Qed.

(** X2.  Two non-empty names that are equal up to letter case are equivalent
    in every state, the fallback state included: [equivalent] answers before
    it touches the configuration.  An empty name is equivalent to nothing,
    itself included. *)
Theorem equivalent_same_name (ext : Externals) (i : Impl) (a b : string) :
  (a <> "" -> iequals a b = true -> equivalent ext i a b = Some true)
  /\ equivalent ext i "" b = Some false
  /\ equivalent ext i a "" = Some false.
Proof.
  split; [|split].
  - intros Ha Hab. unfold equivalent.
    rewrite <- (iequals_empty a b Hab), (empty_false a Ha), Hab. reflexivity.
  - reflexivity.
  - unfold equivalent. rewrite orb_true_r. reflexivity.
Qed.

(** "sRGB" and "SRGB" in the state left by construction with the engine
    disabled, where [resolve] would not complete. *)
Lemma equivalent_same_name_witness :
  equivalent (Example.engine true) (impl Example.fallback_world) "sRGB" "SRGB"
  = Some true.
Proof.
  apply (proj1 (equivalent_same_name (Example.engine true)
                  (impl Example.fallback_world) "sRGB" "SRGB")).
  - discriminate.
  - reflexivity.
Defined.

(** ** Index of a name *)

Lemma index_iequals_spec (names : list string) (n : string) (base : Z) :
  match index_iequals names n base with
  | Some idx =>
      exists k : nat,
        idx = base + Z.of_nat k
        /\ (exists m, names !! k = Some m /\ iequals m n = true)
        /\ forall j m, (j < k)%nat -> names !! j = Some m -> iequals m n = false
  | None => forall m, In m names -> iequals m n = false
  end.
Proof.
  revert base. induction names as [|x r IH]; intros base; cbn.
  - intros m [].
  - destruct (iequals x n) eqn:E.
    + exists 0%nat. split; [lia|]. split; [exists x; split; [reflexivity|exact E]|].
      intros j m Hj. lia.
    + specialize (IH (base + 1)).
      destruct (index_iequals r n (base + 1)) as [idx|].
      * destruct IH as (k & Hk & (m & Hm & Em) & Hfirst).
        exists (S k). split; [lia|]. split; [exists m; split; assumption|].
        intros j m' Hj Hl. destruct j as [|j]; cbn in Hl.
        -- injection Hl as <-. exact E.
        -- apply (Hfirst j m'); [lia|exact Hl].
      * intros m [<- | Hin]; [exact E|exact (IH m Hin)].
Qed.

Lemma index_equivalent_spec (ext : Externals) (i : Impl) (names : list string)
    (n : string) (base idx : Z) :
  index_equivalent ext i names n base = Some idx ->
  idx = -1
  \/ exists k : nat,
       idx = base + Z.of_nat k
       /\ exists m, names !! k = Some m /\ equivalent ext i m n = Some true.
Proof.
  revert base. induction names as [|x r IH]; intros base; cbn.
  - intros [= <-]. left. reflexivity.
  - destruct (equivalent ext i x n) as [[|]|] eqn:E; cbn.
    + intros [= <-]. right. exists 0%nat. split; [lia|].
      exists x. split; [reflexivity|exact E].
    + intros H. destruct (IH _ H) as [-> | (k & Hk & m & Hm & Em)];
        [left; reflexivity|].
      right. exists (S k). split; [lia|]. exists m. split; assumption.
    + discriminate.
Qed.

Lemma lookup_names (i : Impl) (k : nat) (m : string) :
  getColorSpaceNames i !! k = Some m ->
  getColorSpaceNameByIndex i (Z.of_nat k) = Some m
  /\ Z.of_nat k < getNumColorSpaces i.
Proof.
  unfold getColorSpaceNames, getColorSpaceNameByIndex, getNumColorSpaces.
  intros H. rewrite list_lookup_fmap in H.
  destruct (Z.ltb_spec (Z.of_nat k) 0); [lia|].
  rewrite Nat2Z.id. split; [exact H|].
  destruct (colorspaces i !! k) as [cs|] eqn:E; [|discriminate].
  apply lookup_lt_Some in E. lia.
Qed.

(** X3.  Whenever [getColorSpaceIndex(name)] returns, the result is -1 or
    the index of a registered color space, and the name registered under
    that index matches [name] up to letter case or is equivalent to it. *)
Theorem getColorSpaceIndex_valid (ext : Externals) (i : Impl) (n : string) (idx : Z) :
  getColorSpaceIndex ext i n = Some idx ->
  idx = -1
  \/ (0 <= idx < getNumColorSpaces i
      /\ exists m, getColorSpaceNameByIndex i idx = Some m
                   /\ (iequals m n = true \/ equivalent ext i m n = Some true)).
Proof.
  unfold getColorSpaceIndex.
  pose proof (index_iequals_spec (getColorSpaceNames i) n 0) as H1.
  destruct (index_iequals (getColorSpaceNames i) n 0) as [idx1|].
  - intros [= <-]. right.
    destruct H1 as (k & -> & (m & Hm & Em) & _).
    destruct (lookup_names i k m Hm) as [Hn Hlt].
    rewrite Z.add_0_l. split; [lia|]. exists m. split; [exact Hn|left; exact Em].
  - intros H. apply index_equivalent_spec in H as [-> | (k & -> & m & Hm & Em)];
      [left; reflexivity|right].
    destruct (lookup_names i k m Hm) as [Hn Hlt].
    rewrite Z.add_0_l. split; [lia|]. exists m. split; [exact Hn|right; exact Em].
Qed.

Lemma getColorSpaceIndex_valid_witness :
  3 = -1
  \/ (0 <= 3 < getNumColorSpaces (impl Example.fallback_world)
      /\ exists m, getColorSpaceNameByIndex (impl Example.fallback_world) 3 = Some m
                   /\ (iequals m "Rgb" = true
                       \/ equivalent (Example.engine true)
                            (impl Example.fallback_world) m "Rgb" = Some true)).
Proof.
  apply (getColorSpaceIndex_valid (Example.engine true)
           (impl Example.fallback_world) "Rgb" 3).
  vm_compute. reflexivity.
Defined.

(** X4.  A name that matches a registered name up to letter case is found by
    the first loop of [getColorSpaceIndex]: the result is the least index
    whose name matches, [equivalent] is not consulted, and the call completes
    in every state (also where [resolve] would not). *)
Theorem getColorSpaceIndex_exact (ext : Externals) (i : Impl) (n m : string) :
  In m (getColorSpaceNames i) -> iequals m n = true ->
  exists k : nat,
    getColorSpaceIndex ext i n = Some (Z.of_nat k)
    /\ (exists m', getColorSpaceNames i !! k = Some m' /\ iequals m' n = true)
    /\ forall j m', (j < k)%nat -> getColorSpaceNames i !! j = Some m' ->
                    iequals m' n = false.
Proof.
  intros Hin Hm. unfold getColorSpaceIndex.
  pose proof (index_iequals_spec (getColorSpaceNames i) n 0) as H1.
  destruct (index_iequals (getColorSpaceNames i) n 0) as [idx1|].
  - destruct H1 as (k & -> & Hk & Hfirst). exists k.
    rewrite Z.add_0_l. split; [reflexivity|]. split; assumption.
  - rewrite (H1 m Hin) in Hm. discriminate.
Qed.

(** "RGB" in the fallback registry: "rgb" is registered before "RGB". *)
Lemma getColorSpaceIndex_exact_witness :
  exists k : nat,
    getColorSpaceIndex (Example.engine true) (impl Example.fallback_world) "RGB"
    = Some (Z.of_nat k)
    /\ (exists m', getColorSpaceNames (impl Example.fallback_world) !! k = Some m'
                   /\ iequals m' "RGB" = true)
    /\ forall j m', (j < k)%nat ->
                    getColorSpaceNames (impl Example.fallback_world) !! j = Some m' ->
                    iequals m' "RGB" = false.
Proof.
  apply (getColorSpaceIndex_exact (Example.engine true)
           (impl Example.fallback_world) "RGB" "RGB").
  - vm_compute. tauto.
  - reflexivity.
Defined.

(** ** Roles *)

(** X5.  [getColorSpaceNameByRole] never returns the null pointer for the
    roles "linear" and "scene_linear" (in any letter case), whatever the
    state; with a configuration loaded and the engine enabled the same holds
    for "RGB" and "default", which are then treated as "linear". *)
Theorem getColorSpaceNameByRole_linear (ext : Externals) (i : Impl) (role : string) :
  ((iequals role "linear" || iequals role "scene_linear")%bool = true ->
   getColorSpaceNameByRole ext i role <> None)
  /\ ((iequals role "RGB" || iequals role "default")%bool = true ->
      config_ i <> None -> disable_ocio ext = false ->
      getColorSpaceNameByRole ext i role <> None).
Proof.
  split.
  - intros Hr. unfold getColorSpaceNameByRole.
    destruct (config_ i) as [config|], (disable_ocio ext);
      try (rewrite Hr; discriminate).
    destruct (cfg_getColorSpace config role) as [c|]; cbn [is_Some_b negb andb];
      [discriminate|].
    assert (Hn : (iequals role "RGB" || iequals role "default")%bool = false).
    { apply orb_true_iff in Hr. unfold iequals in *.
      destruct Hr as [Hr | Hr]; apply String.eqb_eq in Hr; rewrite Hr;
        reflexivity. }
    rewrite Hn.
    destruct (iequals role "linear") eqn:E1.
    + destruct (cfg_getColorSpace config "scene_linear") as [c|];
        cbn [is_Some_b negb andb]; [discriminate|].
      destruct (iequals role "scene_linear");
        [destruct (cfg_getColorSpace config "linear"); cbn [is_Some_b negb andb]|];
        [discriminate| | ];
        (destruct (iequals role "srgb");
         [destruct (cfg_getColorSpace config "sRGB - Texture")|]; discriminate).
    + cbn [orb] in Hr. rewrite Hr.
      destruct (cfg_getColorSpace config "linear") as [c|];
        cbn [is_Some_b negb andb]; [discriminate|].
      destruct (iequals role "srgb");
        [destruct (cfg_getColorSpace config "sRGB - Texture")|]; discriminate.
  - intros Hr Hc Hd. unfold getColorSpaceNameByRole.
    destruct (config_ i) as [config|]; [|congruence]. rewrite Hd.
    destruct (cfg_getColorSpace config role) as [c|]; cbn [is_Some_b negb andb];
      [discriminate|].
    rewrite Hr.
    change (iequals "linear" "linear") with true.
    change (iequals "linear" "scene_linear") with false.
    change (iequals "linear" "srgb") with false.
    destruct (cfg_getColorSpace config "scene_linear") as [c|];
      cbn [is_Some_b negb andb]; discriminate.
Qed.

Lemma getColorSpaceNameByRole_linear_witness :
  getColorSpaceNameByRole (Example.engine true) (impl Example.fallback_world)
    "Scene_Linear" <> None
  /\ getColorSpaceNameByRole (Example.engine false) (impl Example.enabled_world)
       "default" <> None.
Proof.
  split.
  - apply (proj1 (getColorSpaceNameByRole_linear (Example.engine true)
                    (impl Example.fallback_world) "Scene_Linear")).
    reflexivity.
  - apply (proj2 (getColorSpaceNameByRole_linear (Example.engine false)
                    (impl Example.enabled_world) "default")).
    + reflexivity.
    + vm_compute. discriminate.
    + reflexivity.
Defined.

(** X6.  Without a configuration, or with the engine disabled,
    [getColorSpaceNameByRole] knows two roles only: "linear" and
    "scene_linear" give "linear", every other role (among them "RGB" and
    "default", which a loaded configuration treats as "linear") gives the
    null pointer. *)
Theorem getColorSpaceNameByRole_without_config (ext : Externals) (i : Impl)
    (role : string) :
  config_ i = None \/ disable_ocio ext = true ->
  getColorSpaceNameByRole ext i role
  = (if (iequals role "linear" || iequals role "scene_linear")%bool
     then Some "linear" else None)
  /\ getColorSpaceNameByRole ext i "RGB" = None
  /\ getColorSpaceNameByRole ext i "default" = None.
Proof.
  intros H. unfold getColorSpaceNameByRole.
  destruct H as [-> | ->]; [repeat split|].
  destruct (config_ i); repeat split.
Qed.

Lemma getColorSpaceNameByRole_without_config_witness :
  getColorSpaceNameByRole (Example.engine true) (impl Example.fallback_world)
    "Linear"
  = (if (iequals "Linear" "linear" || iequals "Linear" "scene_linear")%bool
     then Some "linear" else None)
  /\ getColorSpaceNameByRole (Example.engine true) (impl Example.fallback_world)
       "RGB" = None
  /\ getColorSpaceNameByRole (Example.engine true) (impl Example.fallback_world)
       "default" = None.
Proof.
  apply (getColorSpaceNameByRole_without_config (Example.engine true)
           (impl Example.fallback_world) "Linear").
  right. reflexivity.
Defined.

(** ** Interop ids and CICP codes *)

Lemma existsb_eqb_In (s : string) (l : list string) :
  existsb (String.eqb s) l = true <-> In s l.
Proof.
  rewrite existsb_exists. split.
  - intros (x & Hx & E). apply String.eqb_eq in E. subst. exact Hx.
  - intros H. exists s. split; [exact H|apply String.eqb_refl].
Qed.

(** X7.  The list of built-in interop ids always has the ids "data" and
    "unknown", whether or not an interop identities configuration is loaded,
    and it has every color space name of that configuration. *)
Theorem get_builtin_interop_ids_has (i : Impl) :
  In "data" (get_builtin_interop_ids i)
  /\ In "unknown" (get_builtin_interop_ids i)
  /\ forall ic (k : nat) n,
       interopconfig_ i = Some ic ->
       (k < cfg_getNumColorSpaces ic)%nat ->
       cfg_getColorSpaceNameByIndex ic k = Some n ->
       In n (get_builtin_interop_ids i).
Proof.
  unfold get_builtin_interop_ids.
  set (ids0 := match interopconfig_ i with
               | Some ic => omap (cfg_getColorSpaceNameByIndex ic)
                              (seq 0 (cfg_getNumColorSpaces ic))
               | None => []
               end).
  set (ids1 := if existsb (String.eqb "data") ids0 then ids0
               else (ids0 ++ ["data"])%list).
  assert (H0 : forall n, In n ids0 -> In n ids1).
  { intros n Hn. unfold ids1. destruct (existsb _ ids0); [exact Hn|].
    apply in_or_app. left. exact Hn. }
  assert (H1 : forall n, In n ids1 ->
                 In n (if existsb (String.eqb "unknown") ids1 then ids1
                       else (ids1 ++ ["unknown"])%list)).
  { intros n Hn. destruct (existsb _ ids1); [exact Hn|].
    apply in_or_app. left. exact Hn. }
  split; [|split].
  - apply H1. unfold ids1. destruct (existsb _ ids0) eqn:E.
    + apply existsb_eqb_In. exact E.
    + apply in_or_app. right. left. reflexivity.
  - destruct (existsb _ ids1) eqn:E.
    + apply existsb_eqb_In. exact E.
    + apply in_or_app. right. left. reflexivity.
  - intros ic k n Hic Hk Hn. apply H1, H0. unfold ids0. rewrite Hic.
    apply list_elem_of_In. apply list_elem_of_omap.
    exists k. split; [|exact Hn].
    apply list_elem_of_In. apply in_seq. lia.
Qed.

Lemma get_builtin_interop_ids_has_witness :
  In "lin_ap1_scene" (get_builtin_interop_ids (impl Example.enabled_world)).
Proof.
  apply (proj2 (proj2 (get_builtin_interop_ids_has (impl Example.enabled_world)))
           Example.interop_config 1%nat "lin_ap1_scene").
  - vm_compute. reflexivity.
  - vm_compute. lia.
  - reflexivity.
Defined.

(** The table names each interop id once, so that the scan of [get_cicp]
    finds the code of the entry itself; every code has four integers, the
    last of them the full range. *)
Lemma color_interop_ids_codes (e : ColorInteropID) :
  In e color_interop_ids -> has_cicp e = true ->
  cicp_of_interop_id (interop_id e) = cicp e
  /\ length (cicp e) = 4%nat
  /\ nth 3 (cicp e) 0 = 1
  /\ interop_id e <> "".
Proof.
  intros Hin Hc.
  assert (H : forallb (fun e =>
                implb (has_cicp e)
                  (bool_decide (cicp_of_interop_id (interop_id e) = cicp e)
                   && Nat.eqb (length (cicp e)) 4
                   && Z.eqb (nth 3 (cicp e) 0) 1
                   && negb (empty (interop_id e))))
              color_interop_ids = true) by (vm_compute; reflexivity).
  rewrite forallb_forall in H. specialize (H e Hin). rewrite Hc in H. cbn in H.
  apply andb_true_iff in H as [H H4]. apply andb_true_iff in H as [H H3].
  apply andb_true_iff in H as [H1 H2].
  apply bool_decide_eq_true in H1. apply Nat.eqb_eq in H2. apply Z.eqb_eq in H3.
  repeat split; try assumption.
  destruct (interop_id e); [discriminate|discriminate].
Qed.

(** X8.  The interop id that [get_color_interop_id(cicp)] finds for a CICP
    code depends on the primaries and the transfer function only: matrix and
    range are not compared.  When an id is found, the code that the table
    stores for it has the primaries and the transfer function asked for; and
    every code stored in the table is mapped to some id. *)
Theorem get_color_interop_id_cicp_spec (c : list Z) :
  (forall c', nth 0 c' 0 = nth 0 c 0 -> nth 1 c' 0 = nth 1 c 0 ->
              get_color_interop_id_cicp c' = get_color_interop_id_cicp c)
  /\ (get_color_interop_id_cicp c <> "" ->
      nth 0 (cicp_of_interop_id (get_color_interop_id_cicp c)) 0 = nth 0 c 0
      /\ nth 1 (cicp_of_interop_id (get_color_interop_id_cicp c)) 0 = nth 1 c 0)
  /\ (forall e, In e color_interop_ids -> has_cicp e = true -> c = cicp e ->
                get_color_interop_id_cicp c <> "").
Proof.
  split; [|split].
  - intros c' H0 H1. unfold get_color_interop_id_cicp. rewrite H0, H1. reflexivity.
  - unfold get_color_interop_id_cicp.
    destruct (List.find _ color_interop_ids) as [e|] eqn:E; [|congruence].
    intros _. apply find_some in E as [Hin He].
    apply andb_true_iff in He as [He H1]. apply andb_true_iff in He as [Hc H0].
    apply Z.eqb_eq in H0, H1.
    destruct (color_interop_ids_codes e Hin Hc) as (-> & _).
    split; assumption.
  - intros e Hin Hc ->. unfold get_color_interop_id_cicp.
    destruct (List.find _ color_interop_ids) as [e'|] eqn:E.
    + apply find_some in E as [Hin' He'].
      apply andb_true_iff in He' as [He' _]. apply andb_true_iff in He' as [Hc' _].
      exact (proj2 (proj2 (proj2 (color_interop_ids_codes e' Hin' Hc')))).
    + exfalso. apply (find_none _ _ E) in Hin. rewrite Hc, !Z.eqb_refl in Hin.
      discriminate.
Qed.

(** The code {1, 13, 9, 0}: Rec709 primaries and sRGB transfer with another
    matrix and the narrow range. *)
Lemma get_color_interop_id_cicp_spec_witness :
  get_color_interop_id_cicp [1; 13; 9; 0] = "srgb_rec709_display"
  /\ nth 0 (cicp_of_interop_id (get_color_interop_id_cicp [1; 13; 9; 0])) 0 = 1
  /\ nth 1 (cicp_of_interop_id (get_color_interop_id_cicp [1; 13; 9; 0])) 0 = 13.
Proof.
  split; [reflexivity|].
  apply (proj1 (proj2 (get_color_interop_id_cicp_spec [1; 13; 9; 0]))).
  discriminate.
Defined.

(** X9.  Whatever the color space and the state, a code returned by
    [get_cicp] is either empty or the code of a table entry: four integers
    with 1 (full range) in the last place. *)
Theorem get_cicp_shape (ext : Externals) (strict : bool) (i : Impl)
    (colorspace : string) (code : list Z) :
  get_cicp ext strict i colorspace = Some code ->
  code = []
  \/ (exists e, In e color_interop_ids /\ has_cicp e = true /\ code = cicp e)
     /\ length code = 4%nat /\ nth 3 code 0 = 1.
Proof.
  unfold get_cicp.
  destruct (get_color_interop_id ext i colorspace strict) as [id|]; [|discriminate].
  cbn. destruct (negb (empty id)); [|intros [= <-]; left; reflexivity].
  intros [= <-]. unfold cicp_of_interop_id.
  destruct (List.find _ color_interop_ids) as [e|] eqn:E; [|left; reflexivity].
  right. apply find_some in E as [Hin He].
  apply andb_true_iff in He as [Hc _].
  destruct (color_interop_ids_codes e Hin Hc) as (_ & H4 & H3 & _).
  split; [exists e; repeat split; assumption|]. split; assumption.
Qed.

Lemma get_cicp_shape_witness :
  [1; 13; 1; 1] = []
  \/ (exists e, In e color_interop_ids /\ has_cicp e = true
                /\ [1; 13; 1; 1] = cicp e)
     /\ length [1; 13; 1; 1] = 4%nat /\ nth 3 [1; 13; 1; 1] 0 = 1.
Proof.
  apply (get_cicp_shape (Example.engine false) false (impl Example.enabled_world)
           "sRGB" [1; 13; 1; 1]).
  vm_compute. reflexivity.
Defined.

(** X10.  A color space that the live configuration marks as data has the
    interop id "data", in strict mode or not, and no CICP code. *)
Theorem get_color_interop_id_data (ext : Externals) (strict : bool) (i : Impl)
    (config : OcioConfig) (colorspace : string) (cs : OcioColorSpace) :
  colorspace <> "" ->
  config_ i = Some config ->
  cfg_getColorSpace config colorspace = Some cs ->
  cs_isData cs = true ->
  get_color_interop_id ext i colorspace strict = Some "data"
  /\ get_cicp ext strict i colorspace = Some [].
Proof.
  intros Hn Hc Hcs Hd.
  assert (E : get_color_interop_id ext i colorspace strict = Some "data").
  { unfold get_color_interop_id. rewrite (empty_false _ Hn), Hc. cbn.
    rewrite Hcs, Hd. reflexivity. }
  split; [exact E|]. unfold get_cicp. rewrite E. reflexivity.
Qed.

Lemma get_color_interop_id_data_witness :
  get_color_interop_id (Example.engine false) (impl Example.enabled_world) "Raw"
    false = Some "data"
  /\ get_cicp (Example.engine false) false (impl Example.enabled_world) "Raw"
     = Some [].
Proof.
  apply (get_color_interop_id_data (Example.engine false) false
           (impl Example.enabled_world) Example.live_config "Raw"
           (Example.space "Raw" true [])).
  - discriminate.
  - vm_compute. reflexivity.
  - reflexivity.
  - reflexivity.
Defined.

(** ** Requests for processors *)

Section RequestFacts.
Variable ext : Externals.


End RequestFacts.


Section TransformFacts.
Variable ext : Externals.
Variable vw : OcioViewing.



Lemma createDisplayTransform_key_swap (d v i l : string) (inv : bool) (k val : string) :
  createDisplayTransform_key ext d v i l inv k val
  = createDisplayTransform_key ext v d i l inv k val.
Proof.
  unfold createDisplayTransform_key, ColorProcCacheKey_ctor. f_equal. f_equal. lia.
Qed.

(** A display transform that was returned is the one found in the cache
    under the key of the display and the view as given. *)
Lemma createDisplayTransform_installs (d v i l : string) (inv : bool)
    (k val : string) (w w1 : World) (cp : ColorProcessor) :
  d <> "" -> d <> "default" -> v <> "" -> v <> "default" ->
  createDisplayTransform ext vw d v i l inv k val w = Some (Some cp, w1) ->
  colorprocmap (impl w1) !! createDisplayTransform_key ext d v i l inv k val
  = Some (Some cp).
Proof.
  intros Hd Hd' Hv Hv'. unfold createDisplayTransform.
  unfold bind at 1. unfold get_impl at 1.
  rewrite (empty_false d Hd), (empty_false v Hv).
  apply String.eqb_neq in Hd', Hv'. rewrite Hd', Hv'. cbn [orb].
  unfold bind at 1. unfold ret at 1.
  rewrite (bind_eq _ _ _ _ _ (findproc_eq _ w)).
  destruct (colorprocmap (impl w) !! _) as [[c|]|] eqn:E.
  - intros [= -> <-]. exact E.
  - intros H.
    apply bind_Some in H as (config & w2 & _ & H).
    apply bind_Some in H as (i' & w3 & _ & H).
    apply bind_Some in H as (res & w4 & _ & H).
    apply bind_Some in H as (h & w5 & _ & H).
    exact (addproc_installed _ _ _ _ _ H).
  - intros H.
    apply bind_Some in H as (config & w2 & _ & H).
    apply bind_Some in H as (i' & w3 & _ & H).
    apply bind_Some in H as (res & w4 & _ & H).
    apply bind_Some in H as (h & w5 & _ & H).
    exact (addproc_installed _ _ _ _ _ H).
Qed.

(** X14.  The cache key of a display transform does not keep the display and
    the view: they enter it only through the sum of their hashes.  So after
    a display transform for display [d] and view [v] has been returned, the
    request with the two names exchanged, all else equal, is answered from
    the cache with that same processor, and the engine is not asked. *)
Theorem createDisplayTransform_exchanged (d v i l : string) (inv : bool)
    (k val : string) (w w1 : World) (cp : ColorProcessor) :
  d <> "" -> d <> "default" -> v <> "" -> v <> "default" ->
  createDisplayTransform ext vw d v i l inv k val w = Some (Some cp, w1) ->
  createDisplayTransform_key ext v d i l inv k val
  = createDisplayTransform_key ext d v i l inv k val
  /\ createDisplayTransform ext vw v d i l inv k val w1
     = Some (Some cp, bump_requested w1).
Proof.
  intros Hd Hd' Hv Hv' H.
  split; [apply createDisplayTransform_key_swap|].
  apply (createDisplayTransform_installs d v i l inv k val w w1 cp Hd Hd' Hv Hv') in H.
  rewrite (createDisplayTransform_key_swap d v) in H.
  unfold createDisplayTransform.
  unfold bind at 1. unfold get_impl at 1.
  rewrite (empty_false d Hd), (empty_false v Hv).
  apply String.eqb_neq in Hd', Hv'. rewrite Hd', Hv'. cbn [orb].
  unfold bind at 1. unfold ret at 1.
  rewrite (bind_eq _ _ _ _ _ (findproc_eq _ w1)). rewrite H. reflexivity.
Qed.

End TransformFacts.



(** The view "Filmic" of the display "sRGB - Display", then the display
    "Filmic" with the view "sRGB - Display", which the example engine does
    not have. *)
Lemma createDisplayTransform_exchanged_witness :
  let E := Example.engine false in
  let V := ExampleViews.viewing in
  let r1 := createDisplayTransform E V "sRGB - Display" "Filmic" "ACEScg" "" false
              "" "" Example.enabled_world in
  Example.value_of None r1
  = Some {| cp_addr := 0;
            cp_p := {| p_uid := 5; p_isNoOp := false;
                       p_hasChannelCrosstalk := true |} |}
  /\ createDisplayTransform E V "Filmic" "sRGB - Display" "ACEScg" "" false "" ""
       (Example.world_after r1)
     = Some (Example.value_of None r1, bump_requested (Example.world_after r1))
  /\ legacy_getProcessor V Example.live_config [] "ACEScg" "Filmic" "sRGB - Display"
       false None
     = Threw "Display or view could not be found".
Proof.
  intros E V r1.
  assert (E1 : r1 = Some (Example.value_of None r1, Example.world_after r1))
    by (apply run_eq; vm_compute; reflexivity).
  assert (Hv : Example.value_of None r1
               = Some {| cp_addr := 0;
                         cp_p := {| p_uid := 5; p_isNoOp := false;
                                    p_hasChannelCrosstalk := true |} |})
    by (vm_compute; reflexivity).
  split; [exact Hv|]. split; [|reflexivity].
  rewrite Hv in E1 |- *.
  refine (proj2 (createDisplayTransform_exchanged E V "sRGB - Display" "Filmic"
                   "ACEScg" "" false "" "" Example.enabled_world
                   (Example.world_after r1) _ _ _ _ _ E1)); discriminate.
Defined.

(** ** Color space names in file names *)

Section FilepathFacts.
Variable irfind : string -> string -> option nat.
Variable str : string.

Lemma rightmost_step_spec (seen : list string) (best : option nat * string)
    (x : string) :
  rightmost_of irfind str seen best ->
  (forall n, In n seen -> (String.length n <= String.length x)%nat) ->
  rightmost_of irfind str (seen ++ [x]) (rightmost_step irfind str best x).
Proof.
  intros Hinv Hlen. unfold rightmost_step.
  destruct (irfind str x) as [pos|] eqn:Ex.
  - destruct best as [[e|] r]; cbn [fst snd] in *.
    + destruct Hinv as (Hr & (p & Hp & He) & Hall).
      destruct (Nat.leb_spec e (pos + String.length x)) as [Hle | Hgt];
        unfold rightmost_of; cbn [fst snd].
      * split; [apply in_or_app; right; left; reflexivity|].
        split; [exists pos; split; [exact Ex|reflexivity]|].
        intros n q Hn Hq. apply in_app_or in Hn as [Hn | [<- | []]].
        -- destruct (Hall n q Hn Hq) as [H1 H2]. split; [lia|].
           intros _. apply Hlen. exact Hn.
        -- rewrite Ex in Hq. injection Hq as <-. split; [lia|lia].
      * split; [apply in_or_app; left; exact Hr|].
        split; [exists p; split; assumption|].
        intros n q Hn Hq. apply in_app_or in Hn as [Hn | [<- | []]].
        -- exact (Hall n q Hn Hq).
        -- rewrite Ex in Hq. injection Hq as <-. split; lia.
    + destruct Hinv as (Hr & Hnone). unfold rightmost_of; cbn [fst snd].
      split; [apply in_or_app; right; left; reflexivity|].
      split; [exists pos; split; [exact Ex|reflexivity]|].
      intros n q Hn Hq. apply in_app_or in Hn as [Hn | [<- | []]].
      * rewrite (Hnone n Hn) in Hq. discriminate.
      * rewrite Ex in Hq. injection Hq as <-. split; lia.
  - unfold rightmost_of in *. destruct (fst best) as [e|].
    + destruct Hinv as (Hr & Hp & Hall).
      split; [apply in_or_app; left; exact Hr|]. split; [exact Hp|].
      intros n q Hn Hq. apply in_app_or in Hn as [Hn | [<- | []]].
      * exact (Hall n q Hn Hq).
      * rewrite Ex in Hq. discriminate.
    + destruct Hinv as (Hr & Hnone). split; [exact Hr|].
      intros n Hn. apply in_app_or in Hn as [Hn | [<- | []]].
      * exact (Hnone n Hn).
      * exact Ex.
Qed.

Lemma rightmost_loop_spec (rest seen : list string) (best : option nat * string) :
  rightmost_of irfind str seen best ->
  StronglySorted (fun a b => (String.length a <= String.length b)%nat) rest ->
  (forall n x, In n seen -> In x rest ->
               (String.length n <= String.length x)%nat) ->
  rightmost_of irfind str (seen ++ rest) (fold_left (rightmost_step irfind str) rest best).
Proof.
  revert seen best. induction rest as [|x rest IH]; intros seen best Hinv Hs Hlen.
  - rewrite app_nil_r. exact Hinv.
  - cbn [fold_left].
    replace (seen ++ x :: rest)%list with ((seen ++ [x]) ++ rest)%list
      by (rewrite <- app_assoc; reflexivity).
    apply StronglySorted_inv in Hs as [Hs Hx].
    apply IH.
    + apply rightmost_step_spec; [exact Hinv|].
      intros n Hn. apply Hlen; [exact Hn|left; reflexivity].
    + exact Hs.
    + intros n y Hn Hy. apply in_app_or in Hn as [Hn | [<- | []]].
      * apply Hlen; [exact Hn|right; exact Hy].
      * rewrite Forall_forall in Hx. apply Hx. apply list_elem_of_In. exact Hy.
Qed.

(** X15.  For a non-empty string, [parseColorSpaceFromString] returns the
    registered color space name whose right-most match in the string ends
    furthest to the right and, among the names that end there, a longest
    one; it returns the empty string when no registered name occurs.  This
    holds for every outcome of the sort by length. *)
Theorem parseColorSpaceFromString_rightmost
    (std_sort : list string -> list string) (i : Impl) :
  str <> "" ->
  Permutation (std_sort (getColorSpaceNames i)) (getColorSpaceNames i) ->
  StronglySorted (fun a b => (String.length a <= String.length b)%nat)
    (std_sort (getColorSpaceNames i)) ->
  let r := parseColorSpaceFromString irfind std_sort i str in
  ((forall n, In n (getColorSpaceNames i) -> irfind str n = None) -> r = "")
  /\ (forall n q,
        In n (getColorSpaceNames i) -> irfind str n = Some q ->
        In r (getColorSpaceNames i)
        /\ exists p,
             irfind str r = Some p
             /\ (q + String.length n <= p + String.length r)%nat
             /\ ((q + String.length n = p + String.length r)%nat ->
                 (String.length n <= String.length r)%nat)).
Proof.
  intros Hne Hperm Hsorted r. subst r. unfold parseColorSpaceFromString.
  rewrite (empty_false str Hne).
  set (names := std_sort (getColorSpaceNames i)) in *.
  assert (Hinv : rightmost_of irfind str ([] ++ names)
                   (fold_left (rightmost_step irfind str) names (None, ""))).
  { apply rightmost_loop_spec.
    - split; [reflexivity|]. intros n [].
    - exact Hsorted.
    - intros n x []. }
  cbn [app] in Hinv.
  assert (Hin : forall n, In n names <-> In n (getColorSpaceNames i)).
  { intros n. split; intros H.
    - exact (Permutation_in n Hperm H).
    - exact (Permutation_in n (Permutation_sym Hperm) H). }
  unfold rightmost_of in Hinv.
  destruct (fst (fold_left (rightmost_step irfind str) names (None, ""))) as [e|].
  - destruct Hinv as (Hr & (p & Hp & He) & Hall). split.
    + intros Hnone. apply Hin in Hr. rewrite (Hnone _ Hr) in Hp. discriminate.
    + intros n q Hn Hq. split; [apply Hin; exact Hr|].
      exists p. split; [exact Hp|].
      apply Hin in Hn. destruct (Hall n q Hn Hq) as [H1 H2].
      split; [lia|]. intros H. apply H2. lia.
  - destruct Hinv as (Hr & Hnone). split; [intros _; exact Hr|].
    intros n q Hn Hq. apply Hin in Hn. rewrite (Hnone n Hn) in Hq. discriminate.
Qed.

End FilepathFacts.

(** The name of a file with "srgb_texture" and, further right, "raw" in it,
    against the registry of the example configuration. *)
Lemma parseColorSpaceFromString_rightmost_witness :
  let str := "/shots/hero_srgb_texture_v2_raw.exr" in
  let i := impl Example.enabled_world in
  let r := parseColorSpaceFromString ExampleViews.irfind ExampleViews.sort_by_length
             i str in
  r = "Raw"
  /\ In r (getColorSpaceNames i)
  /\ exists p,
       ExampleViews.irfind str r = Some p
       /\ (12 + String.length "srgb_texture" <= p + String.length r)%nat
       /\ ((12 + String.length "srgb_texture" = p + String.length r)%nat ->
           (String.length "srgb_texture" <= String.length r)%nat).
Proof.
  intros str i r. split; [vm_compute; reflexivity|].
  apply (proj2 (parseColorSpaceFromString_rightmost ExampleViews.irfind str
                  ExampleViews.sort_by_length i
                  ltac:(discriminate)
                  (merge_sort_Permutation _ _)
                  (StronglySorted_merge_sort _ _))
           "srgb_texture" 12%nat).
  - vm_compute. tauto.
  - vm_compute. reflexivity.
Defined.

(** ** More on the pixel kernel *)

(** A loop over distinct elements in which [x0] occurs: [I] need only hold
    until [x0] is processed, which establishes [P]. *)
Lemma fold_left_once {S X} `{EqDecision X} (f : S -> X -> S) (I P : S -> Prop)
    (x0 : X) (l : list X) (s : S) :
  List.NoDup l -> In x0 l -> I s ->
  (forall s x, x <> x0 -> I s -> I (f s x)) ->
  (forall s, I s -> P (f s x0)) ->
  (forall s x, x <> x0 -> P s -> P (f s x)) ->
  P (fold_left f l s).
Proof.
  intros Hnd Hin Hs HI Hest Hkeep. revert s Hs.
  induction l as [|x r IH]; intros s Hs; [destruct Hin|].
  inversion Hnd as [|? ? Hx Hr]; subst. cbn [fold_left].
  destruct (decide (x = x0)) as [-> | Hne].
  - apply fold_left_invariant; [apply Hest; exact Hs|].
    intros s' x' Hx' HP. apply Hkeep; [|exact HP].
    intros ->. contradiction.
  - destruct Hin as [-> | Hin]; [congruence|].
    apply IH; [exact Hr|exact Hin|]. apply HI; assumption.
Qed.

(** Two loops over distinct elements agree when their bodies agree on every
    state that has left the element's own data untouched. *)
Lemma fold_left_agree {S X} (f g : S -> X -> S) (U : X -> S -> Prop)
    (l : list X) (s : S) :
  List.NoDup l ->
  (forall x, In x l -> U x s) ->
  (forall s x, In x l -> U x s -> f s x = g s x) ->
  (forall s x x', In x l -> In x' l -> x <> x' -> U x' s -> U x' (g s x)) ->
  fold_left f l s = fold_left g l s.
Proof.
  intros Hnd. revert s. induction l as [|x r IH]; intros s HU Hfg Hkeep;
    [reflexivity|].
  inversion Hnd as [|? ? Hx Hr]; subst. cbn [fold_left].
  rewrite (Hfg s x) by (try apply HU; left; reflexivity).
  apply IH.
  - exact Hr.
  - intros x' Hx'. apply Hkeep; [left; reflexivity|right; exact Hx'| |].
    + intros ->. contradiction.
    + apply HU. right. exact Hx'.
  - intros s' x' Hx'. apply Hfg. right. exact Hx'.
  - intros s' x1 x2 H1 H2. apply Hkeep; right; assumption.
Qed.

Lemma NoDup_range (b e : Z) : List.NoDup (range b e).
Proof.
  unfold range. apply Finite.Injective_map_NoDup.
  - intros n m H. lia.
  - apply List.seq_NoDup.
Qed.

Lemma range_lookup (b e x : Z) :
  b <= x < e -> range b e !! Z.to_nat (x - b) = Some x.
Proof.
  intros H. unfold range. rewrite list_lookup_fmap.
  rewrite lookup_seq_lt by lia. cbn. f_equal. lia.
Qed.

Lemma length_range (b e : Z) : length (range b e) = Z.to_nat (e - b).
Proof. unfold range. rewrite length_map, length_seq. reflexivity. Qed.

Section KernelMore.
Context {F : Type} {ops : FloatOps F}.
Variable convert_type : TypeDesc -> F -> F.

(** The loop that stores a scanline, and the writes of one pixel. *)
Abbreviation store_pixel R j k channelsToCopy :=
  (fun (st : Store) '(x, dstPtr) =>
     fold_left (fun st c => write convert_type st R x j k c (extract c dstPtr))
       (range 0 channelsToCopy) st).

Lemma store_pixel_elsewhere (R : nat) (j k channelsToCopy : Z) (st : Store)
    (x0 : Z) (p : vfloat4) (b : nat) (x y z c : Z) :
  (0 <= c < channelsToCopy -> (x0, j, k) <> (x, y, z)) ->
  pixels (store_pixel R j k channelsToCopy st (x0, p) b) x y z c
  = pixels (st b) x y z c.
Proof.
  intros H. cbn.
  apply (fold_left_invariant _
           (fun s => pixels (s b) x y z c = pixels (st b) x y z c));
    [reflexivity|].
  intros s c' Hc' Hs. apply In_range in Hc'.
  rewrite write_elsewhere; [exact Hs|].
  intros [= -> -> -> ->]. apply H; [exact Hc'|reflexivity].
Qed.

Lemma store_pixel_format (R : nat) (j k channelsToCopy : Z) (st : Store)
    (x0 : Z) (p : vfloat4) (b : nat) :
  format (store_pixel R j k channelsToCopy st (x0, p) b) = format (st b).
Proof.
  cbn. apply (fold_left_invariant _ (fun s => format (s b) = format (st b)));
    [reflexivity|].
  intros s c' _ Hs. rewrite write_format. exact Hs.
Qed.

Lemma store_pixel_value (R : nat) (j k channelsToCopy : Z) (st : Store)
    (x0 : Z) (p : vfloat4) (c : Z) :
  0 <= c < channelsToCopy ->
  pixels (store_pixel R j k channelsToCopy st (x0, p) R) x0 j k c
  = convert_type (format (st R)) (extract c p).
Proof.
  intros Hc. cbn.
  apply (fold_left_establish _
           (fun s => format (s R) = format (st R))
           (fun s => pixels (s R) x0 j k c
                     = convert_type (format (st R)) (extract c p)) c);
    [apply In_range; exact Hc|reflexivity| | |].
  - intros s c' Hs. rewrite write_format. exact Hs.
  - intros s Hs. rewrite write_same_place, Hs. reflexivity.
  - intros s c' Hne _ HP. rewrite write_elsewhere; [exact HP|].
    intros [= E]. congruence.
Qed.

Lemma store_loop_elsewhere (R : nat) (j k channelsToCopy : Z)
    (rows : list (Z * vfloat4)) (st : Store) (b : nat) (x y z c : Z) :
  (forall x0 p, In (x0, p) rows -> 0 <= c < channelsToCopy ->
                (x0, j, k) <> (x, y, z)) ->
  pixels (fold_left (store_pixel R j k channelsToCopy) rows st b) x y z c
  = pixels (st b) x y z c.
Proof.
  intros H.
  apply (fold_left_invariant _
           (fun s => pixels (s b) x y z c = pixels (st b) x y z c));
    [reflexivity|].
  intros s [x0 p] Hin Hs.
  rewrite store_pixel_elsewhere; [exact Hs|]. apply (H x0 p Hin).
Qed.

Lemma In_zip_l {X Y} (xs : list X) (ys : list Y) (x : X) (y : Y) :
  In (x, y) (zip xs ys) -> In x xs.
Proof.
  revert ys. induction xs as [|a r IH]; intros [|b ys]; cbn; try tauto.
  intros [[= -> ->] | H]; [left; reflexivity|right; exact (IH _ H)].
Qed.

(** After the store loop, the pixel at a position of the row holds the
    converted value of the scanline's pixel at that position. *)
Lemma store_loop_value (R : nat) (j k channelsToCopy : Z) (xs : list Z)
    (sl : list vfloat4) (st : Store) (idx : nat) (x : Z) (p : vfloat4) (c : Z) :
  List.NoDup xs -> xs !! idx = Some x -> sl !! idx = Some p ->
  0 <= c < channelsToCopy ->
  pixels (fold_left (store_pixel R j k channelsToCopy) (zip xs sl) st R) x j k c
  = convert_type (format (st R)) (extract c p).
Proof.
  intros Hnd Hx Hp Hc. revert sl st idx Hx Hp.
  induction xs as [|x0 xs IH]; intros sl st idx Hx Hp; [discriminate|].
  destruct sl as [|p0 sl]; [discriminate|].
  inversion Hnd as [|? ? Hx0 Hr]; subst.
  change (zip (x0 :: xs) (p0 :: sl)) with ((x0, p0) :: zip xs sl).
  cbn [fold_left].
  destruct idx as [|idx].
  - injection Hx as ->. injection Hp as ->.
    rewrite store_loop_elsewhere.
    + apply store_pixel_value. exact Hc.
    + intros x1 p1 Hin _ [= ->]. apply In_zip_l in Hin. contradiction.
  - rewrite (IH Hr sl _ idx Hx Hp). rewrite store_pixel_format. reflexivity.
Qed.

Section ScanlineMore.
Variables (R A : nat) (processor : @Processor F) (unpremult : bool)
          (channelsToCopy : Z) (roi : ROI).

(** A scanline writes only the processed channels of the pixels of its
    columns and, with distinct buffers, the leftover channels below
    [roi.chend]. *)
Lemma row_outside (st : Store) (j k : Z) (b : nat) (x y z c : Z) :
  0 <= channelsToCopy ->
  ~ (xbegin roi <= x < xend roi) \/ c < 0 \/ Z.max channelsToCopy (chend roi) <= c ->
  pixels (colorconvert_scanline convert_type R A processor unpremult
            channelsToCopy roi st j k b) x y z c
  = pixels (st b) x y z c.
Proof.
  intros H0 Hout. unfold colorconvert_scanline. cbv zeta.
  set (P := fun s : Store => pixels (s b) x y z c = pixels (st b) x y z c).
  assert (Hstore :
    P (fold_left (store_pixel R j k channelsToCopy)
         (zip (range (xbegin roi) (xend roi))
            (transform_scanline unpremult_pixel processor unpremult
               (map (fun x => load_pixel st A channelsToCopy x j k)
                  (range (xbegin roi) (xend roi))))) st)).
  { unfold P. apply store_loop_elsewhere.
    intros x0 p Hin Hc [= -> _ _]. apply In_zip_l, In_range in Hin.
    lia. }
  destruct (_ && _)%bool; [|exact Hstore].
  apply (fold_left_invariant _ P); [exact Hstore|].
  intros s x' Hx' Hs. apply In_range in Hx'.
  apply (fold_left_invariant _ P); [exact Hs|].
  intros s' c' Hc' Hs'. apply In_range in Hc'. unfold P.
  rewrite write_elsewhere; [exact Hs'|]. intros [= -> _ _ ->].
  lia.
Qed.

(** The processed channels of a pixel of the row after the scanline, from
    the scanline as loaded before it. *)
Lemma row_processed (st : Store) (x y z c : Z) :
  (forall l, length (apply_v processor l) = length l) ->
  xbegin roi <= x < xend roi ->
  0 <= c < channelsToCopy ->
  pixels (colorconvert_scanline convert_type R A processor unpremult
            channelsToCopy roi st y z R) x y z c
  = convert_type (format (st R))
      (extract c
         (nth (Z.to_nat (x - xbegin roi))
            (transform_scanline unpremult_pixel processor unpremult
               (map (fun x' => load_pixel st A channelsToCopy x' y z)
                  (range (xbegin roi) (xend roi))))
            vzero)).
Proof.
  intros Hlen Hx Hc. unfold colorconvert_scanline. cbv zeta.
  set (xs := range (xbegin roi) (xend roi)).
  set (sl := transform_scanline unpremult_pixel processor unpremult
               (map (fun x' => load_pixel st A channelsToCopy x' y z) xs)).
  assert (Hsl : length sl = length xs).
  { unfold sl, transform_scanline. cbv zeta.
    destruct unpremult.
    - rewrite length_zip_with, Hlen, !length_map. lia.
    - rewrite Hlen, length_map. reflexivity. }
  assert (Hp : sl !! Z.to_nat (x - xbegin roi)
               = Some (nth (Z.to_nat (x - xbegin roi)) sl vzero)).
  { destruct (lookup_lt_is_Some_2 sl (Z.to_nat (x - xbegin roi))) as [p Ep].
    - rewrite Hsl. unfold xs. rewrite length_range. lia.
    - rewrite Ep. f_equal. symmetry. exact (nth_lookup_Some _ _ _ _ Ep). }
  assert (Hstore :
    pixels (fold_left (store_pixel R y z channelsToCopy) (zip xs sl) st R) x y z c
    = convert_type (format (st R))
        (extract c (nth (Z.to_nat (x - xbegin roi)) sl vzero))).
  { apply (store_loop_value R y z channelsToCopy xs sl st
             (Z.to_nat (x - xbegin roi)));
      [apply NoDup_range|apply range_lookup; exact Hx|exact Hp|exact Hc]. }
  destruct (_ && _)%bool; [|exact Hstore].
  apply (fold_left_invariant _
           (fun s => pixels (s R) x y z c
                     = convert_type (format (st R))
                         (extract c (nth (Z.to_nat (x - xbegin roi)) sl vzero))));
    [exact Hstore|].
  intros s x' _ Hs.
  apply (fold_left_invariant _
           (fun s => pixels (s R) x y z c
                     = convert_type (format (st R))
                         (extract c (nth (Z.to_nat (x - xbegin roi)) sl vzero))));
    [exact Hs|].
  intros s' c' Hc' Hs'. apply In_range in Hc'.
  rewrite write_elsewhere; [exact Hs'|]. intros [= _ ->]. lia.
Qed.

End ScanlineMore.

Lemma load_pixel_ext (st st' : Store) (A : nat) (channelsToCopy x j k : Z) :
  (forall c, pixels (st' A) x j k c = pixels (st A) x j k c) ->
  load_pixel st' A channelsToCopy x j k = load_pixel st A channelsToCopy x j k.
Proof.
  intros H. unfold load_pixel.
  assert (E : forall l v,
            fold_left (fun v c => insert_c c (read st' A x j k c) v) l v
            = fold_left (fun v c => insert_c c (read st A x j k c) v) l v).
  { induction l as [|c r IH]; intros v; [reflexivity|].
    cbn [fold_left]. unfold read at 2 4. rewrite H. apply IH. }
  rewrite E. reflexivity.
Qed.

(** X16.  On a region whose channel range is not reversed,
    [colorconvert_impl] writes nothing but the destination's pixels
    of the region: every other buffer is left as it was, the destination
    keeps its pixel format, and a pixel of the destination keeps its value
    when it lies outside the region's x, y or z range or when its channel
    is below 0 or at or above both [roi.chend] and the number of processed
    channels. *)
Theorem colorconvert_impl_frame (processor : @Processor F) (st : Store) (R A : nat)
    (unpremult : bool) (roi : ROI) (nthreads : Z) :
  chbegin roi <= chend roi ->
  let st' := snd (colorconvert_impl convert_type st R A processor unpremult roi
                    nthreads) in
  (forall b, b <> R -> st' b = st b)
  /\ (forall b, format (st' b) = format (st b))
  /\ (forall x y z c,
        ~ (xbegin roi <= x < xend roi) \/ ~ (ybegin roi <= y < yend roi)
        \/ ~ (zbegin roi <= z < zend roi) \/ c < 0
        \/ Z.max (Z.min 4 (ROI_nchannels roi)) (chend roi) <= c ->
        pixels (st' R) x y z c = pixels (st R) x y z c).
Proof.
  intros Hch. unfold colorconvert_impl. cbv zeta. cbn [snd].
  assert (H0 : 0 <= Z.min 4 (ROI_nchannels roi)) by (unfold ROI_nchannels; lia).
  set (ctc := Z.min 4 (ROI_nchannels roi)) in *.
  set (u := if Z.ltb ctc 4 then false else unpremult).
  split; [|split].
  - intros b Hb.
    apply (fold_left_invariant _ (fun s => s b = st b)); [reflexivity|].
    intros s k _ Hs.
    apply (fold_left_invariant _ (fun s => s b = st b)); [exact Hs|].
    intros s' j _ Hs'. rewrite row_other_buffer by exact Hb. exact Hs'.
  - intros b.
    apply (fold_left_invariant _ (fun s => format (s b) = format (st b)));
      [reflexivity|].
    intros s k _ Hs.
    apply (fold_left_invariant _ (fun s => format (s b) = format (st b)));
      [exact Hs|].
    intros s' j _ Hs'. rewrite row_format. exact Hs'.
  - intros x y z c Hout.
    apply (fold_left_invariant _
             (fun s => pixels (s R) x y z c = pixels (st R) x y z c));
      [reflexivity|].
    intros s k Hk Hs. apply In_range in Hk.
    apply (fold_left_invariant _
             (fun s => pixels (s R) x y z c = pixels (st R) x y z c));
      [exact Hs|].
    intros s' j Hj Hs'. apply In_range in Hj.
    destruct (Z.eq_dec j y) as [-> | Hjy];
      [|rewrite row_other_row by (left; exact Hjy); exact Hs'].
    destruct (Z.eq_dec k z) as [-> | Hkz];
      [|rewrite row_other_row by (right; exact Hkz); exact Hs'].
    rewrite row_outside; [exact Hs'|exact H0|].
    destruct Hout as [H | [H | [H | [H | H]]]]; try contradiction; tauto.
Qed.

(** X17.  A processed channel of a pixel of the region, after
    [colorconvert_impl], is the value that the scanline pipeline (optional
    unpremultiply, the processor, optional re-premultiply) gives for that
    pixel from the source row as it was before the call, converted to the
    destination's pixel type.  This holds in place as well as between two
    buffers, for a processor that returns as many pixels as it is given. *)
Theorem colorconvert_impl_processed (processor : @Processor F) (st : Store)
    (R A : nat) (unpremult : bool) (roi : ROI) (nthreads : Z) (x y z c : Z) :
  (forall l, length (apply_v processor l) = length l) ->
  xbegin roi <= x < xend roi ->
  ybegin roi <= y < yend roi ->
  zbegin roi <= z < zend roi ->
  0 <= c < Z.min 4 (ROI_nchannels roi) ->
  let channelsToCopy := Z.min 4 (ROI_nchannels roi) in
  let unpremult' := if Z.ltb channelsToCopy 4 then false else unpremult in
  let scanline := map (fun x' => load_pixel st A channelsToCopy x' y z)
                    (range (xbegin roi) (xend roi)) in
  pixels (snd (colorconvert_impl convert_type st R A processor unpremult roi
                 nthreads) R) x y z c
  = convert_type (format (st R))
      (extract c
         (nth (Z.to_nat (x - xbegin roi))
            (transform_scanline unpremult_pixel processor unpremult' scanline)
            vzero)).
Proof.
  intros Hlen Hx Hy Hz Hc ctc u scanline.
  unfold colorconvert_impl. cbv zeta. cbn [snd]. fold ctc. fold u.
  set (V := convert_type (format (st R))
              (extract c
                 (nth (Z.to_nat (x - xbegin roi))
                    (transform_scanline unpremult_pixel processor u scanline)
                    vzero))).
  set (I := fun s : Store =>
              (forall x' c', pixels (s A) x' y z c' = pixels (st A) x' y z c')
              /\ format (s R) = format (st R)).
  set (P := fun s : Store => pixels (s R) x y z c = V).
  assert (Hrow_I : forall s j k, j <> y \/ k <> z -> I s ->
            I (colorconvert_scanline convert_type R A processor u ctc roi s j k)).
  { intros s j k Hjk [H1 H2]. split.
    - intros x' c'. rewrite row_other_row by exact Hjk. apply H1.
    - rewrite row_format. exact H2. }
  assert (Hrow_P : forall s j k, j <> y \/ k <> z -> P s ->
            P (colorconvert_scanline convert_type R A processor u ctc roi s j k)).
  { intros s j k Hjk HP. unfold P. rewrite row_other_row by exact Hjk. exact HP. }
  apply (fold_left_once _ I P z);
    [apply NoDup_range|apply In_range; exact Hz|split; reflexivity| | |].
  - intros s k Hk Hs. apply (fold_left_invariant _ I); [exact Hs|].
    intros s' j _ Hs'. apply Hrow_I; [right; exact Hk|exact Hs'].
  - intros s Hs.
    apply (fold_left_once _ I P y);
      [apply NoDup_range|apply In_range; exact Hy|exact Hs| | |].
    + intros s' j Hj Hs'. apply Hrow_I; [left; exact Hj|exact Hs'].
    + intros s' [H1 H2]. unfold P, V, scanline.
      rewrite (row_processed R A processor u ctc roi s' x y z c Hlen Hx Hc).
      rewrite H2. do 4 f_equal.
      apply map_ext. intros x'. apply load_pixel_ext. intros c'. apply H1.
    + intros s' j Hj HP. apply Hrow_P; [left; exact Hj|exact HP].
  - intros s k Hk HP. apply (fold_left_invariant _ P); [exact HP|].
    intros s' j _ HP'. apply Hrow_P; [right; exact Hk|exact HP'].
Qed.

(** The two scanline functions agree on a store whose row satisfies the
    exactness of the division by one. *)
Lemma scanline_rgba_agrees (R A : nat) (processor : @Processor F) (unpremult : bool)
    (roi : ROI) (st : Store) (j k : Z) :
  chend roi <= 4 ->
  (unpremult = true ->
   forall x, xbegin roi <= x < xend roi ->
     let p := V4 (pixels (st A) x j k 0) (pixels (st A) x j k 1)
                 (pixels (st A) x j k 2) (pixels (st A) x j k 3) in
     let a := guard_alpha (extract 3 p) in
     f_eq a f_one = true -> vdiv p (V4 a a a f_one) = p) ->
  colorconvert_scanline_rgba convert_type R A processor unpremult roi st j k
  = colorconvert_scanline convert_type R A processor unpremult 4 roi st j k.
Proof.
  intros Hch Hexact.
  unfold colorconvert_scanline_rgba, colorconvert_scanline. cbv zeta.
  assert (Hcond : (Z.ltb 4 (chend roi) && negb (Nat.eqb R A))%bool = false).
  { destruct (Z.ltb_spec 4 (chend roi)); [lia|reflexivity]. }
  rewrite Hcond.
  assert (Hload : map (fun x => load_pixel st A 4 x j k)
                    (range (xbegin roi) (xend roi))
                  = map (fun x => V4 (read st A x j k 0) (read st A x j k 1)
                                     (read st A x j k 2) (read st A x j k 3))
                      (range (xbegin roi) (xend roi))) by reflexivity.
  rewrite Hload.
  set (sl := map _ (range (xbegin roi) (xend roi))).
  assert (Htr : transform_scanline unpremult_pixel_rgba processor unpremult sl
                = transform_scanline unpremult_pixel processor unpremult sl).
  { unfold transform_scanline. cbv zeta.
    destruct unpremult; [|reflexivity].
    assert (E : map (fun p => fst (unpremult_pixel_rgba p)) sl
                = map (fun p => fst (unpremult_pixel p)) sl).
    { unfold sl. rewrite !map_map. apply map_ext_in. intros x Hx.
      apply In_range in Hx. unfold unpremult_pixel_rgba, unpremult_pixel.
      cbv zeta. cbn [fst].
      destruct (f_eq _ f_one) eqn:E1; [|reflexivity].
      symmetry. apply (Hexact eq_refl x Hx). exact E1. }
    rewrite E. reflexivity. }
  rewrite Htr. reflexivity.
Qed.

(** X18.  On a region of the four channels 0 to 3, the kernel specialised
    to four-channel float buffers computes what the generic kernel computes,
    in place or between two buffers, provided that, when unpremultiplying,
    dividing by one is exact on the source pixels of the region whose
    guarded alpha equals 1.0 (the specialised kernel skips that division). *)
Theorem colorconvert_impl_float_rgba_agrees (processor : @Processor F) (st : Store)
    (R A : nat) (unpremult : bool) (roi : ROI) (nthreads : Z) :
  chend roi <= 4 -> 4 <= ROI_nchannels roi ->
  (unpremult = true ->
   forall x y z,
     xbegin roi <= x < xend roi -> ybegin roi <= y < yend roi ->
     zbegin roi <= z < zend roi ->
     let p := V4 (pixels (st A) x y z 0) (pixels (st A) x y z 1)
                 (pixels (st A) x y z 2) (pixels (st A) x y z 3) in
     let a := guard_alpha (extract 3 p) in
     f_eq a f_one = true -> vdiv p (V4 a a a f_one) = p) ->
  colorconvert_impl_float_rgba convert_type st R A processor unpremult roi nthreads
  = colorconvert_impl convert_type st R A processor unpremult roi nthreads.
Proof.
  intros Hch Hn Hexact.
  unfold colorconvert_impl_float_rgba, colorconvert_impl. cbv zeta.
  assert (Hctc : Z.min 4 (ROI_nchannels roi) = 4) by lia.
  rewrite Hctc. change (Z.ltb 4 4) with false. cbv iota.
  f_equal.
  apply (fold_left_agree _ _
           (fun k s => forall x y c, pixels (s A) x y k c = pixels (st A) x y k c)).
  - apply NoDup_range.
  - intros k _ x y c. reflexivity.
  - intros s k Hk Hs. apply In_range in Hk.
    apply (fold_left_agree _ _
             (fun j s => forall x c, pixels (s A) x j k c = pixels (st A) x j k c)).
    + apply NoDup_range.
    + intros j _ x c. apply Hs.
    + intros s' j Hj Hs'. apply In_range in Hj.
      apply scanline_rgba_agrees; [exact Hch|].
      intros Hu x Hx. cbv zeta. rewrite !Hs'.
      exact (Hexact Hu x j k Hx Hj Hk).
    + intros s' j j' _ _ Hne Hs' x c.
      rewrite row_other_row by (left; exact Hne). apply Hs'.
  - intros s k k' _ _ Hne Hs x y c.
    apply (fold_left_invariant _
             (fun s' => pixels (s' A) x y k' c = pixels (st A) x y k' c));
      [apply Hs|].
    intros s' j _ Hs'. rewrite row_other_row by (right; exact Hne). exact Hs'.
Qed.

(** X19.  A request to unpremultiply is ignored by [colorconvert_impl] on a
    region of fewer than four channels, and by [colorconvert] when the
    source, as [IBAprep] leaves it, has an alpha channel and a non-zero
    "oiio:UnassociatedAlpha" attribute: the result is that of the call
    without the request. *)
Theorem unpremult_ignored
    (IBAprep : ROI -> Store -> nat -> nat -> bool * ROI * Store)
    (IBA_copy : Store -> nat -> nat -> ROI -> Z -> bool * Store)
    (processor : @Processor F) (st : Store) (dst src : nat) (roi : ROI)
    (nthreads : Z) :
  (ROI_nchannels roi < 4 ->
   colorconvert_impl convert_type st dst src processor true roi nthreads
   = colorconvert_impl convert_type st dst src processor false roi nthreads)
  /\ ((forall ok roi' st',
         IBAprep roi st dst src = (ok, roi', st') ->
         0 <= alpha_channel (st' src) /\ UnassociatedAlpha (st' src) <> 0) ->
      colorconvert convert_type IBAprep IBA_copy st dst src (Some processor) true
        roi nthreads
      = colorconvert convert_type IBAprep IBA_copy st dst src (Some processor) false
          roi nthreads).
Proof.
  split.
  - intros Hn. unfold colorconvert_impl. cbv zeta.
    destruct (Z.ltb_spec (Z.min 4 (ROI_nchannels roi)) 4); [reflexivity|lia].
  - intros Hprep. unfold colorconvert.
    destruct (isNoOp_v processor && Nat.eqb dst src)%bool; [reflexivity|].
    destruct (IBAprep roi st dst src) as [[ok roi'] st'] eqn:E.
    destruct (Hprep ok roi' st' eq_refl) as [Ha Hu].
    destruct (negb ok); [reflexivity|].
    destruct (isNoOp_v processor); [reflexivity|].
    apply Z.leb_le in Ha. apply Z.eqb_neq in Hu. rewrite Ha, Hu. reflexivity.
Qed.

End KernelMore.

(** ** Conversion of one color value *)

Section ColorFacts.
Context {F : Type} {ops : FloatOps F} {gt : FloatGt F}.

(** X20.  [colorconvert] on a single color value fails only for the null
    processor; it keeps the number of channels and every channel from the
    fifth on; with the null processor or a no-op processor it keeps the
    whole value; and with fewer than four channels a request to
    unpremultiply changes nothing. *)
Theorem colorconvert_color_frame (color : list F) (processor : option (@Processor F))
    (unpremult : bool) :
  let r := colorconvert_color color processor unpremult in
  (fst r = false <-> processor = None)
  /\ length (snd r) = length color
  /\ (forall (k : nat) d, (4 <= k)%nat -> nth k (snd r) d = nth k color d)
  /\ (match processor with
      | None => True
      | Some p => isNoOp_v p = true
      end -> snd r = color)
  /\ ((length color < 4)%nat ->
      colorconvert_color color processor true
      = colorconvert_color color processor false).
Proof.
  unfold colorconvert_color.
  destruct processor as [p|]; cbv zeta.
  2: { cbn. repeat split; try reflexivity; try discriminate. }
  destruct (isNoOp_v p) eqn:En.
  { cbn. repeat split; try reflexivity; try discriminate. }
  cbn [fst snd].
  set (n := Z.to_nat (Z.min 4 (Z.of_nat (length color)))).
  assert (Hn : n = Nat.min 4 (length color)) by lia.
  split; [split; discriminate|].
  split.
  { rewrite length_app, length_firstn, length_skipn. cbn [length]. lia. }
  split.
  { intros k d Hk.
    rewrite app_nth2 by (rewrite length_firstn; cbn [length]; lia).
    rewrite length_firstn. cbn [length].
    replace (Nat.min n 4) with n by lia.
    destruct (Nat.le_gt_cases 4 (length color)) as [Hl | Hl].
    - rewrite nth_skipn. f_equal. lia.
    - rewrite !nth_overflow; [reflexivity|lia|].
      rewrite length_skipn. lia. }
  split; [discriminate|].
  intros Hl. destruct (Z.leb_spec 4 (Z.min 4 (Z.of_nat (length color)))); [lia|].
  reflexivity.
Qed.

End ColorFacts.

(** The gain processor from the ramp (buffer 0) into buffer 1: a pixel to
    the right of the region. *)
Lemma colorconvert_impl_frame_witness :
  let st' := snd (colorconvert_impl Example.no_conversion Example.store 1 0
                    Example.gain_processor false Example.region 1) in
  st' 0%nat = Example.store 0%nat
  /\ format (st' 1%nat) = format (Example.store 1%nat)
  /\ pixels (st' 1%nat) 2 0 0 0 = pixels (Example.store 1%nat) 2 0 0 0.
Proof.
  intros st'.
  destruct (colorconvert_impl_frame Example.no_conversion Example.gain_processor
              Example.store 1 0 false Example.region 1 ltac:(cbn; lia))
    as (H1 & H2 & H3).
  split; [apply H1; discriminate|]. split; [apply H2|].
  apply H3. left. cbn. lia.
Defined.

(** The gain processor on the matte image in place, with unpremultiply:
    the blue channel of pixel (1, 1, 0). *)
Lemma colorconvert_impl_processed_witness :
  pixels (snd (colorconvert_impl Example.no_conversion ExampleViews.matte_store 0 0
                 Example.gain_processor true ExampleViews.rgba_region 1) 0%nat)
    1 1 0 2
  = Example.no_conversion (format (ExampleViews.matte_store 0%nat))
      (extract 2
         (nth (Z.to_nat (1 - xbegin ExampleViews.rgba_region))
            (transform_scanline unpremult_pixel Example.gain_processor
               (if Z.ltb (Z.min 4 (ROI_nchannels ExampleViews.rgba_region)) 4
                then false else true)
               (map (fun x' => load_pixel ExampleViews.matte_store 0
                                 (Z.min 4 (ROI_nchannels ExampleViews.rgba_region))
                                 x' 1 0)
                  (range (xbegin ExampleViews.rgba_region)
                     (xend ExampleViews.rgba_region))))
            vzero)).
Proof.
  apply (colorconvert_impl_processed Example.no_conversion Example.gain_processor
           ExampleViews.matte_store 0 0 true ExampleViews.rgba_region 1 1 1 0 2).
  - intros l. apply length_map.
  - cbn. lia.
  - cbn. lia.
  - cbn. lia.
  - unfold ROI_nchannels. cbn. lia.
Defined.

(** The matte image in place, with unpremultiply: its alpha is 1 or 0, so
    every pixel of the region has the guarded alpha 1.0. *)
Lemma colorconvert_impl_float_rgba_agrees_witness :
  colorconvert_impl_float_rgba Example.no_conversion ExampleViews.matte_store 0 0
    Example.gain_processor true ExampleViews.rgba_region 1
  = colorconvert_impl Example.no_conversion ExampleViews.matte_store 0 0
      Example.gain_processor true ExampleViews.rgba_region 1.
Proof.
  apply (colorconvert_impl_float_rgba_agrees Example.no_conversion
           Example.gain_processor ExampleViews.matte_store 0 0 true
           ExampleViews.rgba_region 1).
  - cbn. lia.
  - unfold ROI_nchannels. cbn. lia.
  - intros _ x y z Hx Hy Hz.
    assert (Ex : x = 0 \/ x = 1) by (cbn in Hx; lia).
    assert (Ey : y = 0 \/ y = 1) by (cbn in Hy; lia).
    destruct Ex as [-> | ->], Ey as [-> | ->]; intros p a _;
      vm_compute; reflexivity.
Defined.

(** A region of three channels; and the matte image, whose alpha is
    unassociated. *)
Lemma unpremult_ignored_witness :
  colorconvert_impl Example.no_conversion Example.store 1 0 Example.gain_processor
    true ExampleViews.rgb_region 1
  = colorconvert_impl Example.no_conversion Example.store 1 0 Example.gain_processor
      false ExampleViews.rgb_region 1
  /\ colorconvert Example.no_conversion Example.prep Example.copy
       ExampleViews.matte_store 1 0 (Some Example.gain_processor) true
       ExampleViews.rgba_region 1
     = colorconvert Example.no_conversion Example.prep Example.copy
         ExampleViews.matte_store 1 0 (Some Example.gain_processor) false
         ExampleViews.rgba_region 1.
Proof.
  split.
  - apply (proj1 (unpremult_ignored Example.no_conversion Example.prep Example.copy
                    Example.gain_processor Example.store 1 0
                    ExampleViews.rgb_region 1)).
    unfold ROI_nchannels. cbn. lia.
  - apply (proj2 (unpremult_ignored Example.no_conversion Example.prep Example.copy
                    Example.gain_processor ExampleViews.matte_store 1 0
                    ExampleViews.rgba_region 1)).
    intros ok roi' st' [= <- <- <-]. split; [cbn; lia|discriminate].
Defined.

(** A color of five channels, and one of three. *)
Lemma colorconvert_color_frame_witness :
  let five := [b32_of_Z 1; b32_of_Z 2; b32_of_Z 3; f_half; b32_of_Z 5] in
  let three := [b32_of_Z 1; b32_of_Z 2; b32_of_Z 3] in
  nth 4 (snd (colorconvert_color five (Some Example.gain_processor) true)) f_zero
  = nth 4 five f_zero
  /\ snd (colorconvert_color five (Some Example.identity_processor) true) = five
  /\ colorconvert_color three (Some Example.gain_processor) true
     = colorconvert_color three (Some Example.gain_processor) false.
Proof.
  intros five three. split; [|split].
  - apply (proj1 (proj2 (proj2 (colorconvert_color_frame five
                                  (Some Example.gain_processor) true)))).
    lia.
  - apply (proj1 (proj2 (proj2 (proj2 (colorconvert_color_frame five
                                         (Some Example.identity_processor) true))))).
    reflexivity.
  - apply (proj2 (proj2 (proj2 (proj2 (colorconvert_color_frame three
                                         (Some Example.gain_processor) true))))).
    cbn. lia.
Defined.

(** ** Construction *)

Lemma same_cache_refl (w : World) : same_cache w w.
Proof. repeat split. Qed.

Lemma same_cache_trans (w1 w2 w3 : World) :
  same_cache w1 w2 -> same_cache w2 w3 -> same_cache w1 w3.
Proof.
  unfold same_cache. intros (A1 & A2 & A3 & A4 & A5 & A6) (B1 & B2 & B3 & B4 & B5 & B6).
  repeat split; congruence.
Qed.

Lemma same_outside_registry_refl (w : World) : same_outside_registry w w.
Proof. repeat split. Qed.

Lemma same_outside_registry_trans (w1 w2 w3 : World) :
  same_outside_registry w1 w2 -> same_outside_registry w2 w3 ->
  same_outside_registry w1 w3.
Proof.
  unfold same_outside_registry, impl_outside_registry.
  intros ((A1 & A2 & A3 & A4 & A5 & A6 & A7 & A8) & A9 & A10)
         ((B1 & B2 & B3 & B4 & B5 & B6 & B7 & B8) & B9 & B10).
  repeat split; congruence.
Qed.

Section InitFacts.
Variable ext : Externals.

Lemma try_load_cache (r : OcioResult OcioConfig) (on_ok : OcioConfig -> M unit)
    (prefix : string) (u : unit) (w w' : World) :
  (forall c w w', on_ok c w = Some (tt, w') -> same_cache w w') ->
  try_load r on_ok prefix w = Some (u, w') ->
  same_cache w w'.
Proof.
  intros Hok. destruct u. destruct r as [c|what|]; cbn.
  - apply Hok.
  - intros [= <-]. repeat split.
  - discriminate.
Qed.

(** *** The registry phase *)

Lemma classify_by_name_frame (cs cs' : CSInfo) (w w' : World) :
  classify_by_name ext cs w = Some (cs', w') -> same_outside_registry w w'.
Proof.
  unfold classify_by_name, setflag_alias, bind, get_impl, modify_impl, ret.
  destruct (_ || _)%bool at 1; [intros [= _ <-]; repeat split|].
  destruct (_ || _)%bool at 1; [intros [= _ <-]; repeat split|].
  destruct (_ || _)%bool at 1; [intros [= _ <-]; repeat split|].
  destruct (iequals _ _) at 1; [intros [= _ <-]; repeat split|].
  destruct (OIIO_SITE_spi ext); cbn [andb]; [|intros [= _ <-]; repeat split].
  destruct (starts_with _ _) at 1; [intros [= _ <-]; repeat split|].
  destruct (_ || _)%bool at 1; [intros [= _ <-]; repeat split|].
  destruct (_ || _)%bool at 1; intros [= _ <-]; repeat split.
Qed.

Lemma classify_each_frame (l l' : list CSInfo) (w w' : World) :
  classify_each ext l w = Some (l', w') -> same_outside_registry w w'.
Proof.
  revert l' w. induction l as [|cs r IH]; intros l' w; cbn.
  - intros [= _ <-]. apply same_outside_registry_refl.
  - intros H. apply bind_Some in H as (cs' & w1 & E1 & H).
    apply bind_Some in H as (r' & w2 & E2 & H). injection H as _ <-.
    eapply same_outside_registry_trans;
      [exact (classify_by_name_frame _ _ _ _ E1)|exact (IH _ _ E2)].
Qed.

Lemma classify_colorspaces_frame (u : unit) (w w' : World) :
  classify_colorspaces ext w = Some (u, w') -> same_outside_registry w w'.
Proof.
  unfold classify_colorspaces. unfold bind at 1. unfold get_impl at 1.
  intros H. apply bind_Some in H as (l & w1 & E1 & H).
  injection H as _ <-.
  eapply same_outside_registry_trans; [exact (classify_each_frame _ _ _ _ E1)|].
  repeat split.
Qed.

Lemma add_frame (n : string) (idx f : Z) (u : unit) (w w' : World) :
  add n idx f w = Some (u, w') -> same_outside_registry w w'.
Proof. intros [= _ <-]. repeat split. Qed.

Lemma inventory_add_frame (config : OcioConfig) (idx : list nat) (u : unit)
    (w w' : World) :
  inventory_add config idx w = Some (u, w') -> same_outside_registry w w'.
Proof.
  revert w. induction idx as [|i rest IH]; intros w; cbn.
  - intros [= _ <-]. apply same_outside_registry_refl.
  - intros H. apply bind_Some in H as (n & w1 & E1 & H).
    destruct (cfg_getColorSpaceNameByIndex config i) as [n'|]; [|discriminate].
    injection E1 as <- <-.
    apply bind_Some in H as (u1 & w2 & E2 & H).
    eapply same_outside_registry_trans; [exact (add_frame _ _ _ _ _ _ E2)|].
    exact (IH _ H).
Qed.

(** One [add] of the fallback, after the steps that [F] covers. *)
Ltac add_frame_step F H :=
  let u := fresh "u" in
  let w := fresh "w" in
  let E := fresh "E" in
  apply bind_Some in H as (u & w & E & H);
  apply add_frame in E;
  apply (same_outside_registry_trans _ _ _ F) in E; clear F; rename E into F.

Lemma inventory_fallback_frame (u : unit) (w w' : World) :
  inventory_fallback ext w = Some (u, w') -> same_outside_registry w w'.
Proof.
  unfold inventory_fallback. intros H.
  apply bind_Some in H as (u0 & w0 & E0 & H).
  assert (F0 : same_outside_registry w w0) by (injection E0 as _ <-; repeat split).
  clear E0.
  do 11 add_frame_step F0 H.
  apply classify_colorspaces_frame in H.
  exact (same_outside_registry_trans _ _ _ F0 H).
Qed.

Lemma inventory_frame (u : unit) (w w' : World) :
  inventory ext w = Some (u, w') -> same_outside_registry w w'.
Proof.
  unfold inventory. unfold bind at 1. unfold get_impl at 1.
  intros H. apply bind_Some in H as (done & w1 & H1 & H).
  assert (F1 : same_outside_registry w w1).
  { destruct (config_ (impl w)) as [config|];
      [|injection H1 as _ <-; apply same_outside_registry_refl].
    destruct (disable_ocio ext);
      [injection H1 as _ <-; apply same_outside_registry_refl|].
    apply bind_Some in H1 as (nonraw & w2 & En & H1).
    apply inventory_nonraw_pure in En as ->.
    destruct nonraw; [|injection H1 as _ <-; apply same_outside_registry_refl].
    apply bind_Some in H1 as (u1 & w3 & Ea & H1).
    apply bind_Some in H1 as (u2 & w4 & Ecl & H1).
    apply bind_Some in H1 as (u3 & w5 & Esl & H1).
    injection H1 as _ <-.
    eapply same_outside_registry_trans; [exact (inventory_add_frame _ _ _ _ _ Ea)|].
    eapply same_outside_registry_trans;
      [exact (classify_colorspaces_frame _ _ _ Ecl)|].
    destruct (cfg_getColorSpace config "scene_linear");
      injection Esl as _ <-; repeat split. }
  destruct done.
  - injection H as _ <-. exact F1.
  - eapply same_outside_registry_trans; [exact F1|].
    exact (inventory_fallback_frame _ _ _ H).
Qed.

Lemma identify_one_frame (builtin : string) (flagval : Z)
    (get_alias : Impl -> string) (set_alias : string -> Impl -> Impl)
    (u : unit) (w w' : World) :
  (forall s i, impl_outside_registry i (set_alias s i)) ->
  identify_one ext builtin flagval get_alias set_alias w = Some (u, w') ->
  same_outside_registry w w'.
Proof.
  intros Hset. unfold identify_one. unfold bind at 1. unfold get_impl at 1.
  destruct (IdentifyBuiltinColorSpace ext (impl w) builtin) as [n|];
    [|intros [= _ <-]; apply same_outside_registry_refl].
  destruct (find (impl w) n) as [cs|];
    [|intros [= _ <-]; apply same_outside_registry_refl].
  unfold setflag_alias, bind, get_impl, modify_impl, ret. cbn.
  intros [= _ <-]. split; [|split; reflexivity]. cbn.
  destruct (Hset (if empty (get_alias (impl w)) then name cs else get_alias (impl w))
              (impl w)) as (A1 & A2 & A3 & A4 & A5 & A6 & A7 & A8).
  repeat split; assumption.
Qed.

Lemma identify_builtin_equivalents_frame (u : unit) (w w' : World) :
  identify_builtin_equivalents ext w = Some (u, w') -> same_outside_registry w w'.
Proof.
  unfold identify_builtin_equivalents.
  destruct (disable_builtin_configs ext);
    [intros [= _ <-]; apply same_outside_registry_refl|].
  intros H. apply bind_Some in H as (u1 & w1 & E1 & H).
  apply bind_Some in H as (u2 & w2 & E2 & H).
  apply identify_one_frame in E1; [|intros; repeat split].
  apply identify_one_frame in E2; [|intros; repeat split].
  apply identify_one_frame in H; [|intros; repeat split].
  eapply same_outside_registry_trans; [exact E1|].
  eapply same_outside_registry_trans; [exact E2|exact H].
Qed.

(** *** The phases of [init] *)

Lemma effective_filename_nonempty (filename : string) :
  empty (effective_filename ext filename) = false.
Proof.
  unfold effective_filename. cbv zeta.
  destruct (empty (if (empty filename || iequals filename "$OCIO")%bool
                   then getenv_OCIO ext else filename)) eqn:E;
    [reflexivity|exact E].
Qed.

(** [init], when it completes: the two reference configurations are loaded,
    then the stream and the file are tried, the current configuration stands
    in if none was loaded, and the registry is built. *)
Lemma init_inv (filename : string) (ok : bool) (w w' : World) :
  init ext filename w = Some (ok, w') ->
  exists w2 w3 w4 w6 w9,
    same_cache w w2
    /\ (if contains_newline (effective_filename ext filename)
        then try_load (CreateFromStream ext (effective_filename ext filename))
               (fun c => modify_impl (fun i =>
                  set_configfilename ""
                    (set_configname (effective_filename ext filename)
                       (set_config_ (Some c) i))))
               "Error reading OCIO config from stream: "
        else ret tt) w2 = Some (tt, w3)
    /\ (if (negb (empty (effective_filename ext filename))
            && negb (Filesystem_exists ext (effective_filename ext filename))
            && negb (istarts_with (effective_filename ext filename) "ocio://"))%bool
        then error ("Requested non-existent OCIO config " ++ dquote
                    ++ effective_filename ext filename ++ dquote)
        else try_load (CreateFromFile ext (effective_filename ext filename))
               (fun c => modify_impl (fun i =>
                  set_config_is_built_in
                    (istarts_with (effective_filename ext filename) "ocio://")
                    (set_configfilename (effective_filename ext filename)
                       (set_configname (effective_filename ext filename)
                          (set_config_ (Some c) i)))))
               ("Error reading OCIO config " ++ dquote
                ++ effective_filename ext filename ++ dquote ++ ": ")) w3
       = Some (tt, w4)
    /\ same_cache w4 w6
    /\ m_error (impl w6) = m_error (impl w4)
    /\ config_ (impl w6) <> None
    /\ (config_ (impl w4) <> None -> w6 = w4)
    /\ (config_ (impl w4) = None ->
        exists cur,
          GetCurrentConfig ext = Returned cur
          /\ m_configfilename (impl w6) = "current"
          /\ m_configname (impl w6) = default "current" (cfg_getName cur))
    /\ ok = true
    /\ inventory ext w6 = Some (tt, w9)
    /\ identify_builtin_equivalents ext w9 = Some (tt, w').
Proof.
  intros Hrun. unfold init in Hrun.
  apply bind_Some in Hrun as (u1 & w1 & E1 & Hrun).
  apply try_load_cache in E1; [|intros c x x' [= <-]; repeat split].
  apply bind_Some in Hrun as (u2 & w2 & E2 & Hrun).
  apply try_load_cache in E2; [|intros c x x' [= <-]; repeat split].
  cbv zeta in Hrun. fold (effective_filename ext filename) in Hrun.
  apply bind_Some in Hrun as ([] & w3 & E3 & Hrun).
  apply bind_Some in Hrun as ([] & w4 & E4 & Hrun).
  apply bind_Some in Hrun as (i5 & w5 & E5 & Hrun). injection E5 as <- <-.
  apply bind_Some in Hrun as ([] & w6 & E6 & Hrun).
  apply bind_Some in Hrun as (i8 & w8 & E8 & Hrun). injection E8 as <- <-.
  apply bind_Some in Hrun as ([] & w9 & E9 & Hrun).
  apply bind_Some in Hrun as ([] & w10 & E10 & Hrun).
  injection Hrun as <- <-.
  exists w2, w3, w4, w6, w9.
  split; [exact (same_cache_trans _ _ _ E1 E2)|].
  split; [exact E3|]. split; [exact E4|].
  assert (H6 : same_cache w4 w6
               /\ m_error (impl w6) = m_error (impl w4)
               /\ config_ (impl w6) <> None
               /\ (config_ (impl w4) <> None -> w6 = w4)
               /\ (config_ (impl w4) = None ->
                   exists cur,
                     GetCurrentConfig ext = Returned cur
                     /\ m_configfilename (impl w6) = "current"
                     /\ m_configname (impl w6)
                        = default "current" (cfg_getName cur))).
  { destruct (config_ (impl w4)) as [c4|] eqn:Ec4.
    - injection E6 as <-. rewrite Ec4.
      split; [apply same_cache_refl|]. split; [reflexivity|].
      split; [discriminate|]. split; [reflexivity|]. discriminate.
    - destruct (GetCurrentConfig ext) as [cur| |]; try discriminate.
      apply bind_Some in E6 as ([] & w7 & E7 & E6). injection E6 as <-.
      destruct (Nat.eqb _ 1).
      + destruct (CreateFromFile ext "ocio://default"); try discriminate.
        injection E7 as <-. cbn.
        split; [repeat split|]. split; [reflexivity|].
        split; [discriminate|]. split; [congruence|].
        intros _. exists cur. repeat split.
      + injection E7 as <-. cbn.
        split; [repeat split|]. split; [reflexivity|].
        split; [discriminate|]. split; [congruence|].
        intros _. exists cur. repeat split. }
  destruct H6 as (A1 & A2 & A3 & A4 & A5).
  split; [exact A1|]. split; [exact A2|]. split; [exact A3|]. split; [exact A4|].
  split; [exact A5|].
  split; [destruct (config_ (impl w6)); [reflexivity|congruence]|].
  split; [exact E9|exact E10].
Qed.

(** X21.  [init] never reports a failure: whenever it completes it returns
    true, whatever the file name, the environment and the engine's answers
    (a configuration that cannot be loaded is replaced by the engine's
    current one); failures are told by the error slot only. *)
Theorem init_returns_true (filename : string) (w : World) (ok : bool) (w' : World) :
  init ext filename w = Some (ok, w') -> ok = true.
Proof.
  intros H. apply init_inv in H
    as (w2 & w3 & w4 & w6 & w9 & _ & _ & _ & _ & _ & _ & _ & _ & Hok & _).
  exact Hok.
Qed.

Lemma error_message (msg : string) (u : unit) (w w' : World) :
  error msg w = Some (u, w') ->
  m_error (impl w') = msg /\ config_ (impl w') = config_ (impl w)
  /\ m_configname (impl w') = m_configname (impl w)
  /\ m_configfilename (impl w') = m_configfilename (impl w).
Proof. intros [= _ <-]. repeat split. Qed.

(** X22.  When the name that [init] settles on is not an existing file and
    does not start with "ocio://", construction ends with the message
    'Requested non-existent OCIO config "name"' in the error slot.  This
    includes configuration text (a name with a newline in it) that the engine
    has just loaded from a stream: the configuration is kept, under the text
    as its name and with no file name, and the message is recorded all the
    same. *)
Theorem init_nonexistent (filename : string) (w : World) (ok : bool) (w' : World) :
  init ext filename w = Some (ok, w') ->
  Filesystem_exists ext (effective_filename ext filename) = false ->
  istarts_with (effective_filename ext filename) "ocio://" = false ->
  m_error (impl w')
  = "Requested non-existent OCIO config " ++ dquote
    ++ effective_filename ext filename ++ dquote
  /\ (forall c,
        contains_newline (effective_filename ext filename) = true ->
        CreateFromStream ext (effective_filename ext filename) = Returned c ->
        m_configname (impl w') = effective_filename ext filename
        /\ m_configfilename (impl w') = "").
Proof.
  intros H He Hs. apply init_inv in H
    as (w2 & w3 & w4 & w6 & w9 & C2 & E3 & E4 & C6 & M6 & K6 & S6 & N6 & _ & E9 & E10).
  rewrite effective_filename_nonempty, He, Hs in E4. cbn [negb andb] in E4.
  apply error_message in E4 as (M4 & K4 & N4 & F4).
  apply inventory_frame in E9. apply identify_builtin_equivalents_frame in E10.
  pose proof (same_outside_registry_trans _ _ _ E9 E10)
    as ((_ & _ & Merr & _ & _ & _ & Mname & Mfile) & _).
  split; [rewrite Merr, M6; exact M4|].
  intros c Hn Hc. rewrite Hn, Hc in E3. cbn in E3. injection E3 as <-.
  rewrite Mname, Mfile. rewrite S6 by (rewrite K4; discriminate).
  rewrite N4, F4. split; reflexivity.
Qed.

(** *** The registry after construction *)

Lemma inventory_add_names (config : OcioConfig) (idx : list nat) (u : unit)
    (w w' : World) :
  inventory_add config idx w = Some (u, w') ->
  map Some (map name (colorspaces (impl w')))
  = (map Some (map name (colorspaces (impl w)))
     ++ map (cfg_getColorSpaceNameByIndex config) idx)%list.
Proof.
  revert w. induction idx as [|i rest IH]; intros w; cbn.
  - intros [= _ <-]. rewrite app_nil_r. reflexivity.
  - intros H. apply bind_Some in H as (n & w1 & E1 & H).
    destruct (cfg_getColorSpaceNameByIndex config i) as [n'|]; [|discriminate].
    injection E1 as <- <-.
    apply bind_Some in H as (u1 & w2 & E2 & H). injection E2 as _ <-.
    rewrite (IH _ H). cbn. rewrite !map_app, <- app_assoc. reflexivity.
Qed.

(** [inventory] on an empty registry, when it leaves a configuration: the
    registry has the configuration's names, in the configuration's order. *)
Lemma inventory_loaded (u : unit) (w w' : World) (config : OcioConfig) :
  colorspaces (impl w) = [] ->
  inventory ext w = Some (u, w') ->
  config_ (impl w') = Some config ->
  map Some (map name (colorspaces (impl w')))
  = map (cfg_getColorSpaceNameByIndex config) (seq 0 (cfg_getNumColorSpaces config)).
Proof.
  intros Hempty Hrun Hcfg.
  assert (Hfb : forall w0, inventory_fallback ext w0 = Some (u, w') -> False).
  { intros w0 Hr. destruct (inventory_fallback_spec ext w0) as (w2 & E & Hk & _).
    rewrite E in Hr. injection Hr as _ <-. congruence. }
  destruct (config_ (impl w)) as [config0|] eqn:Ec.
  2: { rewrite inventory_disabled in Hrun by (left; exact Ec).
       destruct (Hfb _ Hrun). }
  destruct (disable_ocio ext) eqn:Ed.
  { rewrite inventory_disabled in Hrun by (right; exact Ed).
    destruct (Hfb _ Hrun). }
  revert Hrun. unfold inventory.
  unfold bind at 1. unfold get_impl at 1. rewrite Ec, Ed.
  intros H. apply bind_Some in H as (done & w1 & H1 & H).
  apply bind_Some in H1 as (nonraw & w2 & En & H1).
  apply inventory_nonraw_pure in En as ->.
  destruct nonraw.
  - apply bind_Some in H1 as (u1 & w3 & Ea & H1).
    apply bind_Some in H1 as (u2 & w4 & Ecl & H1).
    apply bind_Some in H1 as (u3 & w5 & Esl & H1).
    injection H1 as <- <-. injection H as _ <-.
    pose proof (inventory_add_names _ _ _ _ _ Ea) as Hnames.
    apply inventory_add_spec in Ea as (added & _ & _ & Hk3).
    rewrite Hempty in Hnames. cbn [map app] in Hnames.
    destruct (classify_colorspaces_spec ext w3)
      as (l' & w4' & Ecl' & HF & Hl & Hk4).
    rewrite Ecl' in Ecl. injection Ecl as _ <-.
    assert (Hw5 : colorspaces (impl w5) = colorspaces (impl w4')
                  /\ config_ (impl w5) = config_ (impl w4')).
    { destruct (cfg_getColorSpace config0 "scene_linear");
        injection Esl as _ <-; split; reflexivity. }
    destruct Hw5 as [Hc5 Hk5].
    assert (config0 = config) by congruence. subst config0.
    rewrite Hc5, Hl, (Forall2_classified_names _ _ _ HF). exact Hnames.
  - injection H1 as <- <-. destruct (Hfb _ H).
Qed.

(** X23.  After a construction that keeps a configuration, the registry
    mirrors it: [getNumColorSpaces] is the configuration's count, and the
    name at each index is the name the configuration gives for that index. *)
Theorem init_registry_mirrors (filename : string) (w : World) (ok : bool)
    (w' : World) (config : OcioConfig) :
  colorspaces (impl w) = [] ->
  init ext filename w = Some (ok, w') ->
  config_ (impl w') = Some config ->
  getNumColorSpaces (impl w') = Z.of_nat (cfg_getNumColorSpaces config)
  /\ forall k : nat,
       (k < cfg_getNumColorSpaces config)%nat ->
       cfg_getColorSpaceNameByIndex config k
       = getColorSpaceNameByIndex (impl w') (Z.of_nat k)
       /\ is_Some (getColorSpaceNameByIndex (impl w') (Z.of_nat k)).
Proof.
  intros Hempty H Hcfg. apply init_inv in H
    as (w2 & w3 & w4 & w6 & w9 & C2 & E3 & E4 & C6 & _ & _ & _ & _ & _ & E9 & E10).
  assert (H3 : colorspaces (impl w3) = colorspaces (impl w2)).
  { destruct (contains_newline _).
    - apply try_load_registry in E3; [exact E3|intros c x x' [= <-]; reflexivity].
    - injection E3 as <-. reflexivity. }
  assert (H4 : colorspaces (impl w4) = colorspaces (impl w3)).
  { destruct (_ && _)%bool.
    - injection E4 as <-. reflexivity.
    - apply try_load_registry in E4; [exact E4|intros c x x' [= <-]; reflexivity]. }
  assert (H6 : colorspaces (impl w6) = []).
  { destruct C6 as (-> & _). destruct C2 as (<- & _) in Hempty. congruence. }
  destruct (identify_builtin_equivalents_spec ext w9) as (w10 & E & K & Hn & _).
  rewrite E in E10. injection E10 as <-.
  rewrite K in Hcfg.
  pose proof (inventory_loaded _ _ _ _ H6 E9 Hcfg) as Hnames.
  rewrite <- Hn in Hnames.
  assert (Hlen : length (colorspaces (impl w10)) = cfg_getNumColorSpaces config).
  { apply (f_equal (@length _)) in Hnames.
    rewrite !length_map, length_seq in Hnames. exact Hnames. }
  split; [unfold getNumColorSpaces; rewrite Hlen; reflexivity|].
  intros k Hk. unfold getColorSpaceNameByIndex.
  destruct (Z.ltb_spec (Z.of_nat k) 0) as [Hneg|_]; [lia|].
  rewrite Nat2Z.id.
  apply (f_equal (fun l => l !! k)) in Hnames.
  rewrite !list_lookup_fmap in Hnames.
  rewrite lookup_seq_lt in Hnames by exact Hk. cbn in Hnames.
  destruct (colorspaces (impl w10) !! k) as [cs|]; cbn in *; [|discriminate].
  injection Hnames as <-. split; [reflexivity|eexists; reflexivity].
Qed.

End InitFacts.

(** Construction from the name of a file that does not exist. *)
Lemma init_returns_true_witness :
  let r := init (Example.engine false) "missing.ocio" (fresh_world 0 0) in
  r = Some (Example.value_of false r, Example.world_after r)
  /\ Example.value_of false r = true.
Proof.
  intros r.
  assert (E : r = Some (Example.value_of false r, Example.world_after r))
    by (apply run_eq; vm_compute; reflexivity).
  split; [exact E|].
  exact (init_returns_true (Example.engine false) "missing.ocio"
           (fresh_world 0 0)
           (Example.value_of false r) (Example.world_after r) E).
Defined.

(** Construction from configuration text that the engine accepts. *)
Lemma init_nonexistent_witness :
  let E := ExampleViews.text_engine in
  let text := ExampleViews.config_text in
  let r := init E text (fresh_world 0 0) in
  effective_filename E text = text
  /\ r = Some (Example.value_of false r, Example.world_after r)
  /\ m_error (impl (Example.world_after r))
     = "Requested non-existent OCIO config " ++ dquote ++ text ++ dquote
  /\ m_configname (impl (Example.world_after r)) = text
  /\ m_configfilename (impl (Example.world_after r)) = "".
Proof.
  intros E text r.
  assert (Hf : effective_filename E text = text) by (vm_compute; reflexivity).
  assert (Hr : r = Some (Example.value_of false r, Example.world_after r))
    by (apply run_eq; vm_compute; reflexivity).
  assert (H1 : Filesystem_exists E (effective_filename E text) = false)
    by (vm_compute; reflexivity).
  assert (H2 : istarts_with (effective_filename E text) "ocio://" = false)
    by (vm_compute; reflexivity).
  assert (H3 : contains_newline (effective_filename E text) = true)
    by (vm_compute; reflexivity).
  assert (H4 : CreateFromStream E (effective_filename E text)
               = Returned Example.live_config) by reflexivity.
  split; [exact Hf|]. split; [exact Hr|].
  destruct (init_nonexistent E text (fresh_world 0 0) (Example.value_of false r)
              (Example.world_after r) Hr H1 H2) as [Herr Hname].
  split; [exact Herr|].
  exact (Hname Example.live_config H3 H4).
Defined.

(** Construction with the default name on the example engine. *)
Lemma init_registry_mirrors_witness :
  let E := Example.engine false in
  let r := init E "" (fresh_world 0 0) in
  let w' := Example.world_after r in
  r = Some (Example.value_of false r, w')
  /\ config_ (impl w') = Some Example.live_config
  /\ getNumColorSpaces (impl w') = 4
  /\ getColorSpaceNameByIndex (impl w') 3 = Some "Raw".
Proof.
  intros E r w'.
  assert (Hr : r = Some (Example.value_of false r, Example.world_after r))
    by (apply run_eq; vm_compute; reflexivity).
  fold w' in Hr.
  assert (Hc : config_ (impl w') = Some Example.live_config)
    by (vm_compute; reflexivity).
  assert (H3 : (3 < cfg_getNumColorSpaces Example.live_config)%nat)
    by (vm_compute; lia).
  split; [exact Hr|]. split; [exact Hc|].
  destruct (init_registry_mirrors E "" (fresh_world 0 0)
              (Example.value_of false r) w'
              Example.live_config eq_refl Hr Hc) as [Hn Hk].
  split; [exact Hn|].
  destruct (Hk 3%nat H3) as [Hk3 _].
  symmetry. exact Hk3.
Defined.

